(** * Chronos data pipeline: windowing, pseudo-shuffling and time budgets

    A shallow embedding of
    [autogluon/timeseries/models/chronos/pipeline/utils.py] and of the
    context-length logic of [autogluon/timeseries/models/chronos/model.py].

    Python integers are [Z]; arrays and lists are [list]; wall-clock
    readings are the rationals [Q] that the floats denote, with the
    subtraction of floats as a parameter; exceptions are the [Raise] case
    of [result]. *)

From Stdlib Require Import List ZArith Lia Bool QArith Permutation.
From Equations Require Import Equations.
From Equations.Prop Require Import Logic.
From Stdlib Require Import Lqa.
From Stdlib Require Ascii String.
Import ListNotations.

Set Implicit Arguments.
Open Scope Z_scope.

(** ** Exceptions and results *)

Inductive exn : Type :=
| AssertionError
| IndexError
| TypeError
| ValueError
| RuntimeError
| Exception
| TimeLimitExceeded.

Inductive result (A : Type) : Type :=
| Ok (a : A)
| Raise (e : exn).

Arguments Ok {A} a.
Arguments Raise {A} e.

Definition bind {A B : Type} (r : result A) (k : A -> result B) : result B :=
  match r with
  | Ok a => k a
  | Raise e => Raise e
  end.

Notation "x <- r ;; k" := (bind r (fun x => k))
  (at level 61, r at next level, right associativity).

(** ** The fragment of Python and numpy sequence semantics used by the code *)

Module Py.

Definition len {A : Type} (a : list A) : Z := Z.of_nat (length a).

(** Adjustment of one bound of [a[start:stop]] (step 1): a negative bound
    counts from the end, and the result is clipped to [0 .. len a]. *)
Definition slice_bound (n i : Z) : Z :=
  if i <? 0 then Z.max 0 (i + n) else Z.min i n.

(** [a[start:stop]]; [None] is an omitted bound. *)
Definition slice {A : Type} (a : list A) (start stop : option Z) : list A :=
  let n := len a in
  let lo := match start with None => 0 | Some i => slice_bound n i end in
  let hi := match stop with None => n | Some i => slice_bound n i end in
  firstn (Z.to_nat (hi - lo)) (skipn (Z.to_nat lo) a).

(** [a[i]]: a negative index counts from the end; out of range raises. *)
Definition getitem {A : Type} (a : list A) (i : Z) : result A :=
  let n := len a in
  let j := if i <? 0 then i + n else i in
  if (0 <=? j) && (j <? n)
  then match nth_error a (Z.to_nat j) with
       | Some x => Ok x
       | None => Raise IndexError
       end
  else Raise IndexError.

(** [numpy.cumsum]. *)
Fixpoint cumsum_from (acc : Z) (l : list Z) : list Z :=
  match l with
  | [] => []
  | x :: r => (acc + x) :: cumsum_from (acc + x) r
  end.

Definition cumsum (l : list Z) : list Z := cumsum_from 0 l.

(** [a.pop(i)]: the removed element and the remaining list. *)
Definition pop {A : Type} (a : list A) (i : Z) : result (A * list A) :=
  let n := len a in
  let j := if i <? 0 then i + n else i in
  if (0 <=? j) && (j <? n)
  then match nth_error a (Z.to_nat j) with
       | Some x => Ok (x, firstn (Z.to_nat j) a ++ skipn (S (Z.to_nat j)) a)
       | None => Raise IndexError
       end
  else Raise IndexError.

(** [x.astype(numpy.int32)] on an integer: two's-complement wrap-around. *)
Definition astype_int32 (z : Z) : Z := (z + 2 ^ 31) mod 2 ^ 32 - 2 ^ 31.

End Py.

(** ** [ChronosInferenceDataset] *)

Module ChronosInferenceDataset.
Section WithValues.

(** The element type of the target array and the value of [numpy.nan]. *)
Variable A : Type.
Variable nan : A.

(** The conversion of an observation to [numpy.float32], the type of the
    target array: the nearest value of that type. *)
Variable float32 : A -> A.

Record t : Type := mk {
  context_length : Z;
  target_array : list A;
  indptr : list Z
}.

(** Modelled from the spec: [TimeSeriesDataFrame] is an ordered collection
    of series; [target_df[target_column].to_numpy(dtype=np.float32)] is
    the concatenation of the series in input order, each observation
    converted, and [num_timesteps_per_item()] lists their lengths in the
    same order. *)
Definition to_numpy (target_df : list (list A)) : list A :=
  map float32 (concat target_df).

Definition num_timesteps_per_item (target_df : list (list A)) : list Z :=
  map (@Py.len A) target_df.

(** Modelled from the spec: [target_df.freq] infers the frequency from the
    time index of the series and reads the result for the first of them,
    which fails on a collection without series.  The frequency itself is
    used by none of the methods below and is left out of the record. *)
Definition freq (target_df : list (list A)) : result unit :=
  match target_df with
  | [] => Raise IndexError
  | _ :: _ => Ok tt
  end.

Definition __init__ (target_df : list (list A)) (context_length : Z)
  : result t :=
  if context_length >? 0 then
    let target_array := to_numpy target_df in
    _ <- freq target_df ;;
    let cum_sizes := Py.cumsum (num_timesteps_per_item target_df) in
    Ok {| context_length := context_length;
          target_array := target_array;
          indptr := map Py.astype_int32 (0 :: cum_sizes) |}
  else Raise AssertionError.

Definition __len__ (self : t) : Z := Py.len (indptr self) - 1.

Definition _get_context (self : t) (a : list A) (pad_value : A) : list A :=
  let a := Py.slice a (Some (- context_length self)) None in
  let pad_size := context_length self - Py.len a in
  if pad_size >? 0
  then repeat pad_value (Z.to_nat pad_size) ++ a
  else a.

Definition __getitem__ (self : t) (idx : Z) : result (list A) :=
  start_idx <- Py.getitem (indptr self) idx ;;
  end_idx <- Py.getitem (indptr self) (idx + 1) ;;
  Ok (_get_context self
        (Py.slice (target_array self) (Some start_idx) (Some end_idx)) nan).

(** What the specification promises of a window [out] of width [W] taken
    from [series]: exactly [W] values, the last [min L W] of them the tail
    of the series, the first [max 0 (W - L)] of them the sentinel. *)
Definition last_window (W : Z) (series out : list A) : Prop :=
  let L := Py.len series in
  Py.len out = W /\
  skipn (Z.to_nat (W - Z.min L W)) out
    = skipn (Z.to_nat (L - Z.min L W)) series /\
  firstn (Z.to_nat (Z.max 0 (W - L))) out
    = repeat nan (Z.to_nat (Z.max 0 (W - L))).

(** The property of item [i] of the dataset built from [target_df]: the
    dataset is constructed and the item is the last window of series [i]
    as the dataset stores it, that is, of its observations as [float32]
    values. *)
Definition getitem_spec (target_df : list (list A)) (W : Z) (i : nat)
  : Prop :=
  forall series, nth_error target_df i = Some series ->
    exists self out,
      __init__ target_df W = Ok self /\
      __getitem__ self (Z.of_nat i) = Ok out /\
      last_window W (map float32 series) out.

End WithValues.
End ChronosInferenceDataset.

(** ** [PseudoShuffledIterableDataset] *)

Module PseudoShuffledIterableDataset.
Section WithGenerator.

(** The state of a [torch.Generator], and
    [torch.randint(high, size=(), generator=g)]: the drawn integer and the
    advanced state. *)
Variable G : Type.
Variable randint : G -> Z -> Z * G.

(** The base dataset [D], the elements [A] it yields, and its iteration. *)
Variable D A : Type.
Variable iter_base : D -> list A.

Record t : Type := mk {
  base_dataset : D;
  shuffle_buffer_size : Z;
  generator : G
}.

Definition __init__ (torch_Generator : G) (base_dataset : D)
  (shuffle_buffer_size : Z) : t :=
  {| base_dataset := base_dataset;
     shuffle_buffer_size := shuffle_buffer_size;
     generator := torch_Generator |}.

(** The [for element in self.base_dataset] loop over the remaining
    elements: the elements yielded, then either the buffer and generator
    state left for the [while] loop or the exception that ended the
    iteration. *)
Fixpoint for_loop (size : Z) (elements shuffle_buffer : list A) (g : G)
  : list A * result (list A * G) :=
  match elements with
  | [] => ([], Ok (shuffle_buffer, g))
  | element :: rest =>
      let shuffle_buffer := shuffle_buffer ++ [element] in
      if Py.len shuffle_buffer >=? size then
        let (idx, g) := randint g (Py.len shuffle_buffer) in
        match Py.pop shuffle_buffer idx with
        | Ok (x, shuffle_buffer) =>
            let (out, r) := for_loop size rest shuffle_buffer g in
            (x :: out, r)
        | Raise e => ([], Raise e)
        end
      else for_loop size rest shuffle_buffer g
  end.

(** The [while shuffle_buffer] loop. *)
Equations? while_loop (shuffle_buffer : list A) (g : G)
  : list A * result G by wf (length shuffle_buffer) lt :=
while_loop [] g := ([], Ok g);
while_loop (b :: bs) g
  with inspect (Py.pop (b :: bs) (fst (randint g (Py.len (b :: bs))))) := {
  | exist _ (Ok (x, rest)) Hpop =>
      let (out, r) := while_loop rest (snd (randint g (Py.len (b :: bs)))) in
      (x :: out, r);
  | exist _ (Raise e) _ => ([], Raise e) }.
Proof.
  unfold Py.pop in Hpop.
  destruct (_ && _) in Hpop; [|discriminate].
  match type of Hpop with context [nth_error ?l ?k] =>
    destruct (nth_error l k) eqn:Hnth; [|discriminate];
    assert (Hlt : (k < length l)%nat) by (apply nth_error_Some; congruence)
  end.
  injection Hpop as _ <-.
  rewrite length_app, length_firstn, length_skipn.
  simpl in *. lia.
Qed.

(** The elements yielded by one iteration, and how it ended: the advanced
    generator state, or the exception raised. *)
Definition __iter__ (self : t) : list A * result G :=
  let (out1, r) :=
    for_loop (shuffle_buffer_size self) (iter_base (base_dataset self))
      [] (generator self) in
  match r with
  | Ok (shuffle_buffer, g) =>
      let (out2, r) := while_loop shuffle_buffer g in (out1 ++ out2, r)
  | Raise e => (out1, Raise e)
  end.

End WithGenerator.
End PseudoShuffledIterableDataset.

(** ** The parts of GluonTS used by the fine-tuning dataset

    [gluonts.transform] is a third-party dependency.  The definitions below
    follow the library's [InstanceSampler._get_bounds],
    [ValidationSplitSampler], [ExpectedNumInstanceSampler],
    [InstanceSplitter.__init__] and [InstanceSplitter.flatmap_transform]
    (lead time 0, one target field), and [FlatMapTransformation.__call__]. *)

Module GluonTS.
Section WithValues.

Variable A : Type.

(** The state of numpy's global random generator, and
    [numpy.where(numpy.random.random_sample(window_size) < p)]: the
    selected offsets and the advanced state. *)
Variable R : Type.
Variable random_where : R -> Z -> Q -> list Z * R.

Record DataEntry : Type := mkEntry { target : list A }.

Record Instance : Type := mkInstance {
  past_target : list A;
  future_target : list A
}.

Inductive InstanceSampler : Type :=
| ExpectedNumInstanceSampler (num_instances : Q) (min_future : Z)
    (total_length n : Z)
| ValidationSplitSampler (min_future : Z).

Definition min_future_of (s : InstanceSampler) : Z :=
  match s with
  | ExpectedNumInstanceSampler _ m _ _ => m
  | ValidationSplitSampler m => m
  end.

(** [(self.min_past, ts.shape[self.axis] - self.min_future)] with the
    default [min_past = 0]. *)
Definition _get_bounds (s : InstanceSampler) (ts : list A) : Z * Z :=
  (0, Py.len ts - min_future_of s).

(** [sampler(ts)]: the sampled split points, the sampler with its updated
    running statistics, and the advanced random state.  The expected-number
    sampler is used with its default [min_instances = 0]. *)
Definition sample (s : InstanceSampler) (rng : R) (ts : list A)
  : list Z * InstanceSampler * R :=
  let (a, b) := _get_bounds s ts in
  match s with
  | ValidationSplitSampler _ =>
      (if a <=? b then [b] else [], s, rng)
  | ExpectedNumInstanceSampler num_instances min_future total_length n =>
      let window_size := b - a + 1 in
      if window_size <=? 0 then ([], s, rng)
      else
        let n := n + 1 in
        let total_length := total_length + window_size in
        let s := ExpectedNumInstanceSampler num_instances min_future
                   total_length n in
        let avg_length := (inject_Z total_length / inject_Z n)%Q in
        if Qle_bool avg_length 0 then ([], s, rng)
        else
          let p := (num_instances / avg_length)%Q in
          let (indices, rng) := random_where rng window_size p in
          (map (Z.add a) indices, s, rng)
  end.

Record InstanceSplitter : Type := mkSplitter {
  instance_sampler : InstanceSampler;
  past_length : Z;
  future_length : Z;
  dummy_value : A
}.

(** The instance cut at split point [i]. *)
Definition split_at (sp : InstanceSplitter) (ts : list A) (i : Z) : Instance :=
  let pad_length := Z.max (past_length sp - i) 0 in
  let past_piece :=
    if i >? past_length sp
    then Py.slice ts (Some (i - past_length sp)) (Some i)
    else if i <? past_length sp
    then repeat (dummy_value sp) (Z.to_nat pad_length)
           ++ Py.slice ts None (Some i)
    else Py.slice ts None (Some i) in
  let future_piece := Py.slice ts (Some i) (Some (i + future_length sp)) in
  {| past_target := past_piece; future_target := future_piece |}.

Definition flatmap_transform (sp : InstanceSplitter) (rng : R) (data : DataEntry)
  : list Instance * InstanceSplitter * R :=
  let '(sampled_indices, s, rng) := sample (instance_sampler sp) rng (target data) in
  (map (split_at sp (target data)) sampled_indices,
   {| instance_sampler := s;
      past_length := past_length sp;
      future_length := future_length sp;
      dummy_value := dummy_value sp |},
   rng).

(** [splitter.apply(data)], entry by entry: each consumed entry with the
    instances it gave rise to. *)
Fixpoint apply_trace (sp : InstanceSplitter) (rng : R) (data : list DataEntry)
  : list (DataEntry * list Instance) * R :=
  match data with
  | [] => ([], rng)
  | entry :: rest =>
      let '(instances, sp, rng) := flatmap_transform sp rng entry in
      let (tr, rng) := apply_trace sp rng rest in
      ((entry, instances) :: tr, rng)
  end.

(** The stream of instances that [splitter.apply(data)] yields. *)
Definition apply (sp : InstanceSplitter) (rng : R) (data : list DataEntry)
  : list Instance * R :=
  let (tr, rng) := apply_trace sp rng data in
  (concat (map snd tr), rng).

(** *** The checks of the library, and the stream as it is consumed

    [apply_trace] and [apply] list what the splitter makes of the entries.
    The definitions below follow the stream as a consumer pulls it, with
    the three places at which the library stops it. *)

(** [InstanceSplitter.__init__] asserts that [future_length] is positive. *)
Definition InstanceSplitter__init__ (sp : InstanceSplitter)
  : result InstanceSplitter :=
  if future_length sp >? 0 then Ok sp else Raise AssertionError.

(** [flatmap_transform] as it runs: the split points are sampled first;
    each instance gets a padding indicator [numpy.zeros(past_length)],
    which is a [ValueError] for a negative length, so that the first
    instance of an entry is then never yielded. *)
Definition flatmap_transform_checked (sp : InstanceSplitter) (rng : R)
  (data : DataEntry) : result (list Instance) * InstanceSplitter * R :=
  let '(instances, sp', rng) := flatmap_transform sp rng data in
  (match instances with
   | [] => Ok []
   | _ :: _ => if past_length sp <? 0 then Raise ValueError else Ok instances
   end, sp', rng).

(** [GLUONTS_MAX_IDLE_TRANSFORMS], at its default. *)
Definition max_idle_transforms : Z := 100.

Section Consumer.

(** The body of the consumer's loop [for entry in iterable: ...], and what
    it yields for an instance. *)
Variable B : Type.
Variable body : Instance -> result B.

(** The loop over the instances of one entry: what was yielded, and how
    the loop ended. *)
Fixpoint for_each (instances : list Instance) : list B * result unit :=
  match instances with
  | [] => ([], Ok tt)
  | entry :: rest =>
      match body entry with
      | Ok item => let (out, r) := for_each rest in (item :: out, r)
      | Raise e => ([], Raise e)
      end
  end.

(** [FlatMapTransformation.__call__] over the remaining entries, pulled by
    that loop: the entries that gave no instance are counted, and more
    than [max_idle_transforms] of them in a row are an [Exception].  The
    result lists what the consumer yielded, how the iteration ended, and
    the random state it left. *)
Fixpoint __call__ (sp : InstanceSplitter) (rng : R) (num_idle_transforms : Z)
  (data_it : list DataEntry) : list B * result unit * R :=
  match data_it with
  | [] => ([], Ok tt, rng)
  | data_entry :: rest =>
      let num_idle_transforms := num_idle_transforms + 1 in
      let '(r, sp, rng) := flatmap_transform_checked sp rng data_entry in
      match r with
      | Raise e => ([], Raise e, rng)
      | Ok instances =>
          let (out, r) := for_each instances in
          match r with
          | Raise e => (out, Raise e, rng)
          | Ok _ =>
              let num_idle_transforms :=
                match instances with
                | [] => num_idle_transforms
                | _ :: _ => 0
                end in
              if num_idle_transforms >? max_idle_transforms
              then (out, Raise Exception, rng)
              else
                let '(out', r, rng) :=
                  __call__ sp rng num_idle_transforms rest in
                (out ++ out', r, rng)
          end
      end
  end.

End Consumer.

(** Whether the counter of idle entries stays within the limit, for a
    stream whose entries are marked as giving an instance or not. *)
Fixpoint idle_within_limit (num_idle_transforms : Z) (productive : list bool)
  : bool :=
  match productive with
  | [] => true
  | p :: rest =>
      let n := if p then 0 else num_idle_transforms + 1 in
      (n <=? max_idle_transforms) && idle_within_limit n rest
  end.

End WithValues.
End GluonTS.

(** ** [ChronosFineTuningDataset] *)

Module ChronosFineTuningDataset.
Section WithValues.

Variable A : Type.
Variable nan : A.
Variable R : Type.
Variable random_where : R -> Z -> Q -> list Z * R.

(** A [ChronosTokenizer] and the dictionary it produces for an instance:
    [context_input_transform] and [label_input_transform] followed by the
    masking of the labels; the tokenizer may raise. *)
Variable Tokenizer Tokenized : Type.
Variable tokenize : Tokenizer -> list A -> list A -> result Tokenized.

Local Abbreviation DataEntry := (GluonTS.DataEntry A).
Local Abbreviation Instance := (GluonTS.Instance A).
Local Abbreviation InstanceSplitter := (GluonTS.InstanceSplitter A).

Inductive Mode : Type := training | validation.

Inductive Item : Type :=
| ChronosFormat (input_ids_attention_mask_labels : Tokenized)
| ChronosBoltFormat (context target : list A).

Record t : Type := mk {
  gluonts_dataset : list DataEntry;
  tokenizer : option Tokenizer;
  context_length : Z;
  prediction_length : Z;
  mode : Mode
}.

(** Modelled from the spec: [SimpleGluonTSDataset] iterates over the series
    collection in input order, one entry per series, whose target is the
    series; it can be iterated any number of times. *)
Definition SimpleGluonTSDataset (target_df : list (list A)) : list DataEntry :=
  map (@GluonTS.mkEntry A) target_df.

Definition __init__ (target_df : list (list A)) (context_length : Z)
  (prediction_length : Z) (tokenizer : option Tokenizer) (mode : Mode) : t :=
  {| gluonts_dataset := SimpleGluonTSDataset target_df;
     tokenizer := tokenizer;
     context_length := context_length;
     prediction_length := prediction_length;
     mode := mode |}.

Definition _create_instance_splitter (self : t) (mode : Mode)
  : InstanceSplitter :=
  let instance_sampler :=
    match mode with
    | training =>
        GluonTS.ExpectedNumInstanceSampler 1 (prediction_length self) 0 0
    | validation =>
        GluonTS.ValidationSplitSampler (prediction_length self)
    end in
  {| GluonTS.instance_sampler := instance_sampler;
     GluonTS.past_length := context_length self;
     GluonTS.future_length := prediction_length self;
     GluonTS.dummy_value := nan |}.

(** [while True: yield from data], cut after [passes] passes. *)
Fixpoint _infinite_iterable (passes : nat) (data : list DataEntry)
  : list DataEntry :=
  match passes with
  | O => []
  | S passes => data ++ _infinite_iterable passes data
  end.

(** The instances of the training stream over the first [passes] passes,
    entry by entry, as the splitter cuts them. *)
Definition _create_training_trace (self : t) (passes : nat) (rng : R)
  (data : list DataEntry) : list (DataEntry * list Instance) * R :=
  let data := _infinite_iterable passes data in
  let split_transform := _create_instance_splitter self training in
  GluonTS.apply_trace random_where split_transform rng data.

Definition _create_training_data (self : t) (passes : nat) (rng : R)
  (data : list DataEntry) : list Instance * R :=
  let data := _infinite_iterable passes data in
  let split_transform := _create_instance_splitter self training in
  GluonTS.apply random_where split_transform rng data.

Definition _create_validation_data (self : t) (rng : R)
  (data : list DataEntry) : list Instance * R :=
  GluonTS.apply random_where (_create_instance_splitter self validation)
    rng data.

Definition to_chronos_format (self : t) (entry : Instance) : result Item :=
  match tokenizer self with
  | None => Raise AssertionError
  | Some tok =>
      tokenized <- tokenize tok (GluonTS.past_target entry)
                     (GluonTS.future_target entry) ;;
      Ok (ChronosFormat tokenized)
  end.

Definition to_chronos_bolt_format (self : t) (entry : Instance) : result Item :=
  Ok (ChronosBoltFormat (GluonTS.past_target entry)
        (GluonTS.future_target entry)).

(** [self.to_chronos_format if self.tokenizer is not None else
    self.to_chronos_bolt_format]. *)
Definition format_transform_fn (self : t) : Instance -> result Item :=
  match tokenizer self with
  | Some _ => to_chronos_format self
  | None => to_chronos_bolt_format self
  end.

(** One iteration of the dataset, as a consumer runs it.  The iterable
    that [_create_training_data] or [_create_validation_data] returns is
    lazy: the splitter is constructed, with its assertion, when the
    iteration begins, and the entries are split as the loop
    [for entry in iterable: yield format_transform_fn(entry)] pulls them.
    Training mode is observed over the first [passes] passes of its
    unbounded stream.  Besides the items yielded and the way the iteration
    ended, the result carries the random state and the dataset object, none
    of whose fields [__iter__] assigns. *)
Definition __iter__ (self : t) (passes : nat) (rng : R)
  : list Item * result unit * R * t :=
  let data :=
    match mode self with
    | training => _infinite_iterable passes (gluonts_dataset self)
    | validation => gluonts_dataset self
    end in
  match
    GluonTS.InstanceSplitter__init__ (_create_instance_splitter self (mode self))
  with
  | Raise e => ([], Raise e, rng, self)
  | Ok split_transform =>
      let '(items, r, rng) :=
        GluonTS.__call__ random_where (format_transform_fn self)
          split_transform rng 0 data in
      (items, r, rng, self)
  end.

(** The validation window of a series: the instance cut where exactly
    [prediction_length] observations remain as the future. *)
Definition validation_window (self : t) (series : list A) : Instance :=
  GluonTS.split_at (_create_instance_splitter self validation) series
    (Py.len series - prediction_length self).

(** Two properties a validation dataset may have: one item per series;
    and no items from a second iteration of the dataset object as the
    first iteration left it. *)
Definition one_window_per_series (self : t) (rng : R) : Prop :=
  let '(items, _, _, _) := __iter__ self 0 rng in
  length items = length (gluonts_dataset self).

Definition exhausted_after_one_pass (self : t) (rng : R) : Prop :=
  let '(_, _, rng, self) := __iter__ self 0 rng in
  let '(items, _, _, _) := __iter__ self 0 rng in
  items = [].

(** A property a dataset would have if the errors of its configuration
    were all raised at construction: its iteration never ends with the
    assertion error of a length that the configuration got wrong. *)
Definition configuration_checked_eagerly (self : t) (rng : R) : Prop :=
  forall passes,
    snd (fst (fst (__iter__ self passes rng))) <> Raise AssertionError.

(** The result of [shuffle]: the dataset itself, or a shuffling wrapper. *)
Inductive Shuffled (G : Type) : Type :=
| Self (self : t)
| Wrapped (d : PseudoShuffledIterableDataset.t G t).

Definition shuffle (G : Type) (torch_Generator : G) (self : t)
  (shuffle_buffer_size : option Z) : result (Shuffled G) :=
  if match shuffle_buffer_size with
     | None => true
     | Some size => size >=? 0
     end
  then
    match shuffle_buffer_size with
    | None | Some 0 => Ok (Self G self)
    | Some size =>
        Ok (Wrapped
              (PseudoShuffledIterableDataset.__init__
                 torch_Generator self size))
    end
  else Raise AssertionError.

(** Iterating what [shuffle] returned, given the iteration [iter_self] of
    the dataset itself. *)
Definition iter_shuffled (G : Type) (randint : G -> Z -> Z * G)
  (iter_self : t -> list Item) (d : Shuffled G) : list Item * result unit :=
  match d with
  | Self _ self => (iter_self self, Ok tt)
  | Wrapped d =>
      let (out, r) := PseudoShuffledIterableDataset.__iter__ randint iter_self d in
      (out, _ <- r ;; Ok tt)
  end.

End WithValues.
End ChronosFineTuningDataset.

(** ** [timeout_callback] and [ChronosInferenceDataLoader] *)

(** A callback is called with no argument; what it does depends on the
    reading of [time.monotonic()] at the moment of the call. *)
Definition Callback : Type := Q -> result unit.

Section Clock.

(** The readings of [time.monotonic()] and the time limits are floats,
    taken as the rationals they denote.  [fsub x y] is the float that the
    subtraction [x - y] of two floats gives: the difference, rounded.
    Comparisons of floats are exact. *)
Variable fsub : Q -> Q -> Q.

(** [timeout_callback(seconds)], constructed when the clock reads
    [start_time]. *)
Definition timeout_callback (seconds : option Q) (start_time : Q) : Callback :=
  fun now =>
    match seconds with
    | Some seconds =>
        if Qlt_le_dec seconds (fsub now start_time)
        then Raise TimeLimitExceeded
        else Ok tt
    | None => Ok tt
    end.

End Clock.

Module ChronosInferenceDataLoader.
Section WithBatches.

(** A collated batch, as [torch.utils.data.DataLoader.__iter__] yields it. *)
Variable Batch : Type.

Record t : Type := mk {
  batches : list Batch;
  callback : Callback
}.

(** [kwargs.pop("on_batch", lambda: None)]; [batches] is what the
    underlying [DataLoader] yields for the remaining arguments. *)
Definition __init__ (batches : list Batch) (on_batch : option Callback) : t :=
  {| batches := batches;
     callback := match on_batch with
                 | Some f => f
                 | None => fun _ => Ok tt
                 end |}.

Inductive event : Type :=
| Yielded (item : Batch)
| Called (now : Q).

(** The loop of [__iter__] over the remaining batches.  [clock k] is the
    reading of the clock when the consumer resumes the generator after
    its [k]-th batch. *)
Fixpoint iter_from (callback : Callback) (clock : nat -> Q) (k : nat)
  (items : list Batch) : list event * result unit :=
  match items with
  | [] => ([], Ok tt)
  | item :: rest =>
      match callback (clock k) with
      | Ok _ =>
          let (evs, r) := iter_from callback clock (S k) rest in
          (Yielded item :: Called (clock k) :: evs, r)
      | Raise e => ([Yielded item; Called (clock k)], Raise e)
      end
  end.

Definition __iter__ (self : t) (clock : nat -> Q) : list event * result unit :=
  iter_from (callback self) clock 0%nat (batches self).

(** The batches a consumer receives. *)
Fixpoint yielded (evs : list event) : list Batch :=
  match evs with
  | [] => []
  | Yielded item :: evs => item :: yielded evs
  | Called _ :: evs => yielded evs
  end.

(** The events are pairs: a batch is yielded, then the callback is called. *)
Fixpoint callbacks_follow_yields (evs : list event) : bool :=
  match evs with
  | [] => true
  | Yielded _ :: Called _ :: evs => callbacks_follow_yields evs
  | _ => false
  end.

End WithBatches.
End ChronosInferenceDataLoader.

(** ** Trainer callbacks *)

Record TrainerState : Type := mkState {
  global_step : Z;
  max_steps : Z
}.

Record TrainerControl : Type := mkControl {
  should_training_stop : bool;
  should_log : bool;
  should_evaluate : bool;
  should_save : bool
}.

Inductive LogRecord : Type :=
| warning_time_limit_exceeded (time_limit : Q)
| warning_context_length_exceeds (context_length maximum : Z).

Module EvaluateAndSaveFinalStepCallback.

Definition on_step_end (state : TrainerState) (control : TrainerControl)
  : TrainerControl :=
  if global_step state >=? max_steps state then
    {| should_training_stop := should_training_stop control;
       should_log := true;
       should_evaluate := true;
       should_save := true |}
  else control.

End EvaluateAndSaveFinalStepCallback.

Module TimeLimitCallback.

Record t : Type := mk {
  time_limit : Q;
  start_time : option Q
}.

Definition __init__ (time_limit : Q) : t :=
  {| time_limit := time_limit; start_time := None |}.

(** [now] is the reading of [time.monotonic()] during the call. *)
Definition on_train_begin (self : t) (now : Q) : t :=
  {| time_limit := time_limit self; start_time := Some now |}.

Section WithClock.

(** The subtraction of floats, as for [timeout_callback]. *)
Variable fsub : Q -> Q -> Q.

(** The control object after the call and the records logged, or the
    exception raised: subtracting [None] from a number is a [TypeError]. *)
Definition on_step_end (self : t) (now : Q) (control : TrainerControl)
  : result (TrainerControl * list LogRecord) :=
  match start_time self with
  | None => Raise TypeError
  | Some start_time =>
      let elapsed_time := fsub now start_time in
      if Qle_bool (time_limit self) elapsed_time
      then Ok ({| should_training_stop := true;
                  should_log := should_log control;
                  should_evaluate := should_evaluate control;
                  should_save := should_save control |},
               [warning_time_limit_exceeded (time_limit self)])
      else Ok (control, [])
  end.

End WithClock.

End TimeLimitCallback.

(** ** [ChronosModel]: the context length *)

Module ChronosModel.

Definition maximum_context_length : Z := 2048.

Record t : Type := mk {
  context_length : option Z
}.

(** The part of [__init__] that reads [hyperparameters.get("context_length")]. *)
Definition __init__ (hyperparameters_context_length : option Z)
  : t * list LogRecord :=
  match hyperparameters_context_length with
  | Some c =>
      if c >? maximum_context_length
      then ({| context_length := Some maximum_context_length |},
            [warning_context_length_exceeds c maximum_context_length])
      else ({| context_length := Some c |}, [])
  | None => ({| context_length := None |}, [])
  end.

(** [data.num_timesteps_per_item().max()]; [None] is the not-a-number that
    pandas returns for data without items. *)
Definition max_num_timesteps (num_timesteps_per_item : list Z) : option Z :=
  match num_timesteps_per_item with
  | [] => None
  | x :: r => Some (fold_left Z.max r x)
  end.

(** [min(m, maximum)] where [m] may be not-a-number: Python's [min] keeps
    its first argument unless the second is smaller. *)
Definition py_min (m : option Z) (maximum : Z) : option Z :=
  match m with
  | None => None
  | Some m => Some (if maximum <? m then maximum else m)
  end.

(** [self.context_length or min(...)]: [None] and [0] are falsy. *)
Definition _get_context_length (self : t) (num_timesteps_per_item : list Z)
  : option Z :=
  match context_length self with
  | Some c =>
      if c =? 0
      then py_min (max_num_timesteps num_timesteps_per_item)
             maximum_context_length
      else Some c
  | None =>
      py_min (max_num_timesteps num_timesteps_per_item) maximum_context_length
  end.

(** [m] is the length of the longest series. *)
Definition longest (num_timesteps_per_item : list Z) (m : Z) : Prop :=
  In m num_timesteps_per_item /\
  forall x, In x num_timesteps_per_item -> x <= m.

End ChronosModel.

(** ** Concrete random sources, for running the definitions *)

(** A linear congruential generator standing for [torch.randint]. *)
Definition lcg_randint (g : Z) (high : Z) : Z * Z :=
  let g := (g * 1103515245 + 12345) mod 2 ^ 31 in
  (g mod high, g).

(** A random source standing for numpy's: it selects the single offset
    [r mod window_size]. *)
Definition lcg_random_where (r : Z) (window_size : Z) (p : Q) : list Z * Z :=
  let r := (r * 1103515245 + 12345) mod 2 ^ 31 in
  ([r mod window_size], r).

(** ** [left_pad_and_stack_1D] *)

Module Torch.
Section WithValues.

Variable A : Type.
Variable nan : A.

(** The builtin [max] over a sequence of integers: an empty sequence is a
    [ValueError]. *)
Definition py_max (l : list Z) : exn + Z :=
  match l with
  | [] => inl ValueError
  | x :: r => inr (fold_left Z.max r x)
  end.

(** [torch.full(size=(n,), fill_value=v)]: a negative size is refused. *)
Definition full (n : Z) (fill_value : A) : exn + list A :=
  if n <? 0 then inl RuntimeError else inr (repeat fill_value (Z.to_nat n)).

(** [torch.stack] of 1-D tensors: the rows of the result; it refuses an
    empty list and tensors of different sizes. *)
Definition stack (tensors : list (list A)) : exn + list (list A) :=
  match tensors with
  | [] => inl RuntimeError
  | c :: rest =>
      if forallb (fun c' => Py.len c' =? Py.len c) rest
      then inr tensors
      else inl RuntimeError
  end.

(** The loop of [left_pad_and_stack_1D] over the remaining tensors.  The
    elements are 1-D tensors, each the list of its values: of these the
    assertions [isinstance(c, torch.Tensor)] and [c.ndim == 1] hold. *)
Fixpoint pad_each (max_len : Z) (tensors padded : list (list A))
  : exn + list (list A) :=
  match tensors with
  | [] => inr padded
  | c :: rest =>
      match full (max_len - Py.len c) nan with
      | inl e => inl e
      | inr padding => pad_each max_len rest (padded ++ [padding ++ c])
      end
  end.

Definition left_pad_and_stack_1D (tensors : list (list A))
  : exn + list (list A) :=
  match py_max (map (@Py.len A) tensors) with
  | inl e => inl e
  | inr max_len =>
      match pad_each max_len tensors [] with
      | inl e => inl e
      | inr padded => stack padded
      end
  end.

End WithValues.
End Torch.

(** ** [ChronosModel._fit]: the time left for inference *)

(** [time_limit - (time.monotonic() - start_time)], where [now] is the
    reading of the clock when fitting ends and [fsub] is the subtraction of
    floats. *)
Definition inference_time_budget (fsub : Q -> Q -> Q)
  (time_limit start_time now : Q) : Q :=
  fsub time_limit (fsub now start_time).

(** ** [ChronosModel]: model paths, their configurations and the name *)

Module ChronosModelPaths.

Import Ascii String.

(** A Python [str] is the list of its characters. *)
Definition str : Type := list ascii.

Definition lit (s : string) : str := list_ascii_of_string s.

Fixpoint str_eqb (a b : str) : bool :=
  match a, b with
  | [], [] => true
  | x :: a, y :: b => Ascii.eqb x y && str_eqb a b
  | _, _ => false
  end.

(** [d.get(key)] on a dictionary listed in insertion order. *)
Fixpoint dict_get {V : Type} (d : list (str * V)) (key : str) : option V :=
  match d with
  | [] => None
  | (k, v) :: d => if str_eqb k key then Some v else dict_get d key
  end.

(** [s.split(sep)] for a one-character separator. *)
Fixpoint split (sep : ascii) (s : str) : list str :=
  match s with
  | [] => [[]]
  | c :: rest =>
      if Ascii.eqb c sep then [] :: split sep rest
      else match split sep rest with
           | segment :: segments => (c :: segment) :: segments
           | [] => [[c]]
           end
  end.

(** [s.replace(old, new)] for a one-character [old]. *)
Fixpoint replace (old : ascii) (new : str) (s : str) : str :=
  match s with
  | [] => []
  | c :: rest =>
      if Ascii.eqb c old then new ++ replace old new rest
      else c :: replace old new rest
  end.

Record Config : Type := mkConfig {
  num_gpus : Z;
  default_torch_dtype : str;
  default_batch_size : Z
}.

Definition MODEL_CONFIGS : list (str * Config) :=
  [(lit "chronos-t5-tiny", mkConfig 0 (lit "auto") 16);
   (lit "chronos-t5-mini", mkConfig 0 (lit "auto") 16);
   (lit "chronos-t5-small", mkConfig 1 (lit "bfloat16") 16);
   (lit "chronos-t5-base", mkConfig 1 (lit "bfloat16") 16);
   (lit "chronos-t5-large", mkConfig 1 (lit "bfloat16") 8);
   (lit "chronos-bolt-mini", mkConfig 0 (lit "auto") 256);
   (lit "chronos-bolt-small", mkConfig 0 (lit "auto") 256);
   (lit "chronos-bolt-base", mkConfig 0 (lit "auto") 256)].

Definition MODEL_ALIASES : list (str * str) :=
  [(lit "tiny", lit "autogluon/chronos-t5-tiny");
   (lit "mini", lit "autogluon/chronos-t5-mini");
   (lit "small", lit "autogluon/chronos-t5-small");
   (lit "base", lit "autogluon/chronos-t5-base");
   (lit "large", lit "autogluon/chronos-t5-large");
   (lit "bolt-mini", lit "autogluon/chronos-bolt-mini");
   (lit "bolt-small", lit "autogluon/chronos-bolt-small");
   (lit "bolt-base", lit "autogluon/chronos-bolt-base")].

Definition default_model_path : str := lit "autogluon/chronos-t5-small".

Definition fine_tuned_ckpt_name : str := lit "fine-tuned-ckpt".

(** The model path that [__init__] stores:
    [MODEL_ALIASES.get(model_path_input, model_path_input)], where the
    input is [hyperparameters.get("model_path", default_model_path)]. *)
Definition model_path_input (hyperparameters_model_path : option str) : str :=
  match hyperparameters_model_path with
  | Some p => p
  | None => default_model_path
  end.

Definition model_path_of (hyperparameters_model_path : option str) : str :=
  let model_path_input := model_path_input hyperparameters_model_path in
  match dict_get MODEL_ALIASES model_path_input with
  | Some p => p
  | None => model_path_input
  end.

(** [ag_default_config]; [None] is the empty dictionary returned for a
    model that is not configured. *)
Definition ag_default_config (model_path : str) : result (option Config) :=
  model_name <- Py.getitem (split "/" model_path) (-1) ;;
  Ok (dict_get MODEL_CONFIGS model_name).

Definition config_get {V : Type} (field : Config -> V) (default : V)
  (config : option Config) : V :=
  match config with
  | Some c => field c
  | None => default
  end.

Definition min_num_gpus (model_path : str) : result Z :=
  c <- ag_default_config model_path ;; Ok (config_get num_gpus 0 c).

Definition default_batch_size_of (model_path : str) : result Z :=
  c <- ag_default_config model_path ;; Ok (config_get default_batch_size 8 c).

Definition default_torch_dtype_of (model_path : str) : result str :=
  c <- ag_default_config model_path ;;
  Ok (config_get default_torch_dtype (lit "auto") c).

(** [get_minimum_resources]: the dictionary returned. *)
Definition get_minimum_resources (model_path : str) (is_gpu_available : bool)
  : result (list (str * Z)) :=
  let minimum_resources := [(lit "num_cpus", 1)] in
  if is_gpu_available then
    n <- min_num_gpus model_path ;;
    Ok (minimum_resources ++ [(lit "num_gpus", n)])
  else Ok minimum_resources.

(** The check with which [load_model_pipeline] begins: [inl RuntimeError]
    when the model needs a GPU and none is available. *)
Definition load_model_pipeline_check (model_path : str) (gpu_available : bool)
  : result (exn + unit) :=
  n <- min_num_gpus model_path ;;
  Ok (if negb gpu_available && (n >? 0) then inl RuntimeError else inr tt).

(** The part of the model name that [__init__] makes of the model path:
    [str(model_path_input).replace("/", "__").replace(os.path.sep, "__")[-50:]]. *)
Definition model_path_safe (os_path_sep : ascii) (model_path_input : str) : str :=
  Py.slice
    (replace os_path_sep (lit "__") (replace "/" (lit "__") model_path_input))
    (Some (-50)) None.

(** [(name if name is not None else "Chronos") + f"[{model_path_safe}]"]. *)
Definition model_name (os_path_sep : ascii) (name : option str)
  (model_path_input : str) : str :=
  (match name with Some n => n | None => lit "Chronos" end)
    ++ lit "[" ++ model_path_safe os_path_sep model_path_input ++ lit "]".

End ChronosModelPaths.

(** ** [ChronosModel._get_model_params] and the trainer arguments of [_fit] *)

Module ChronosModelParams.

Import Ascii String ChronosModelPaths.

(** The Python values found in the hyperparameters. *)
#[warnings="-register-all"]
Inductive pyval : Type :=
| VNone
| VBool (b : bool)
| VInt (z : Z)
| VFloat (q : Q)
| VStr (s : str)
| VDict (d : list (str * pyval)).

Definition dict : Type := list (str * pyval).

Inductive dict_exn : Type :=
| KeyError
| TypeError
| ValueError.

Definition bind_sum {E A B : Type} (r : E + A) (k : A -> E + B) : E + B :=
  match r with
  | inl e => inl e
  | inr a => k a
  end.

Notation "x <-- r ;; k" := (bind_sum r (fun x => k))
  (at level 61, r at next level, right associativity).

(** The truth value of a value in a condition. *)
Definition truthy (v : pyval) : bool :=
  match v with
  | VNone => false
  | VBool b => b
  | VInt z => negb (z =? 0)
  | VFloat q => negb (Qeq_bool q 0)
  | VStr s => match s with [] => false | _ :: _ => true end
  | VDict d => match d with [] => false | _ :: _ => true end
  end.

(** [d[key] = v]: an existing key keeps its place, a new one is added last. *)
Fixpoint dict_set (d : dict) (key : str) (v : pyval) : dict :=
  match d with
  | [] => [(key, v)]
  | (k, w) :: d =>
      if str_eqb k key then (k, v) :: d else (k, w) :: dict_set d key v
  end.

(** [d.setdefault(key, v)], for its effect on [d]. *)
Definition setdefault (d : dict) (key : str) (v : pyval) : dict :=
  match dict_get d key with
  | Some _ => d
  | None => dict_set d key v
  end.

(** [d[key]]. *)
Definition getitem (d : dict) (key : str) : dict_exn + pyval :=
  match dict_get d key with
  | Some v => inr v
  | None => inl KeyError
  end.

(** [d.get(key, default)]. *)
Definition get (d : dict) (key : str) (default : pyval) : pyval :=
  match dict_get d key with
  | Some v => v
  | None => default
  end.

(** [d.update(other)]: a dictionary is merged in; the empty string is an
    empty sequence of pairs; a non-empty string is a sequence of elements
    that are not pairs; the other values are not iterable. *)
Definition update (d : dict) (other : pyval) : dict_exn + dict :=
  match other with
  | VDict o => inr (fold_left (fun acc kv => dict_set acc (fst kv) (snd kv)) o d)
  | VStr [] => inr d
  | VStr (_ :: _) => inl ValueError
  | VNone | VBool _ | VInt _ | VFloat _ => inl TypeError
  end.

(** The defaults that [_get_model_params] gives to the hyperparameters it
    does not find. *)
Definition with_defaults (params : dict) (default_batch_size : Z) : dict :=
  let init_args := params in
  let init_args := setdefault init_args (lit "fine_tune") (VBool false) in
  let init_args :=
    setdefault init_args (lit "keep_transformers_logs") (VBool false) in
  let init_args := setdefault init_args (lit "fine_tune_lr") (VFloat (1 # 10000)) in
  let init_args := setdefault init_args (lit "fine_tune_steps") (VInt 5000) in
  let init_args :=
    setdefault init_args (lit "fine_tune_batch_size") (VInt default_batch_size) in
  let init_args :=
    setdefault init_args (lit "eval_during_fine_tune") (VBool false) in
  let init_args :=
    setdefault init_args (lit "fine_tune_eval_max_items") (VInt 100) in
  setdefault init_args (lit "fine_tune_shuffle_buffer_size") (VInt 10000).

(** The dictionary [dict(output_dir=..., ...)] built before the user's
    trainer arguments are merged in. *)
Definition computed_trainer_kwargs (init_args : dict) (output_dir : str)
  (data_loader_num_workers : pyval) (has_tf32 : bool) : dict_exn + dict :=
  eval_during_fine_tune <-- getitem init_args (lit "eval_during_fine_tune") ;;
  batch_size <-- getitem init_args (lit "fine_tune_batch_size") ;;
  batch_size' <-- getitem init_args (lit "fine_tune_batch_size") ;;
  lr <-- getitem init_args (lit "fine_tune_lr") ;;
  steps <-- getitem init_args (lit "fine_tune_steps") ;;
  let ev := truthy eval_during_fine_tune in
  inr [(lit "output_dir", VStr output_dir);
       (lit "per_device_train_batch_size", batch_size);
       (lit "per_device_eval_batch_size", batch_size');
       (lit "learning_rate", lr);
       (lit "lr_scheduler_type", VStr (lit "linear"));
       (lit "warmup_ratio", VFloat 0);
       (lit "optim", VStr (lit "adamw_torch_fused"));
       (lit "logging_dir", VStr output_dir);
       (lit "logging_strategy", VStr (lit "steps"));
       (lit "logging_steps", VInt 100);
       (lit "report_to", VStr (lit "none"));
       (lit "max_steps", steps);
       (lit "gradient_accumulation_steps", VInt 1);
       (lit "dataloader_num_workers", data_loader_num_workers);
       (lit "tf32", VBool has_tf32);
       (lit "save_only_model", VBool true);
       (lit "prediction_loss_only", VBool true);
       (lit "save_total_limit", VInt 1);
       (lit "save_strategy", VStr (if ev then lit "steps" else lit "no"));
       (lit "save_steps", if ev then VInt 100 else VNone);
       (lit "evaluation_strategy", VStr (if ev then lit "steps" else lit "no"));
       (lit "eval_steps", if ev then VInt 100 else VNone);
       (lit "load_best_model_at_end", if ev then VBool true else VBool false);
       (lit "metric_for_best_model",
        if ev then VStr (lit "eval_loss") else VNone)].

(** [_get_model_params]; [params] is what [super()._get_model_params()]
    returns, [output_dir] is [str(Path(self.path) / "transformers_logs")]. *)
Definition _get_model_params (params : dict) (default_batch_size : Z)
  (output_dir : str) (data_loader_num_workers : pyval) (has_tf32 : bool)
  : dict_exn + dict :=
  let init_args := with_defaults params default_batch_size in
  fine_tune_trainer_kwargs <--
    computed_trainer_kwargs init_args output_dir data_loader_num_workers
      has_tf32 ;;
  let user_fine_tune_trainer_kwargs :=
    get init_args (lit "fine_tune_trainer_kwargs") (VDict []) in
  fine_tune_trainer_kwargs <--
    update fine_tune_trainer_kwargs user_fine_tune_trainer_kwargs ;;
  inr (dict_set init_args (lit "fine_tune_trainer_kwargs")
         (VDict fine_tune_trainer_kwargs)).

(** [pathlib.Path(v)]: a string is taken as the path; any other of the
    values is a [TypeError]. *)
Definition Path (v : pyval) : dict_exn + str :=
  match v with
  | VStr s => inr s
  | VNone | VBool _ | VInt _ | VFloat _ | VDict _ => inl TypeError
  end.

(** The trainer arguments as [_fit] adjusts them when fine-tuning:
    [disable_tqdm] gets a default, the output directory is read as a path,
    and the evaluation is turned off when there is nothing to evaluate on
    or it was not asked for. *)
Definition _fit_trainer_kwargs (fine_tune_args : dict) (val_data_given : bool)
  (verbosity : Z) : dict_exn + dict :=
  eval_during_fine_tune <--
    (if val_data_given
     then getitem fine_tune_args (lit "eval_during_fine_tune")
     else inr (VBool false)) ;;
  kwargs <-- getitem fine_tune_args (lit "fine_tune_trainer_kwargs") ;;
  match kwargs with
  | VDict fine_tune_trainer_kwargs =>
      let fine_tune_trainer_kwargs :=
        dict_set fine_tune_trainer_kwargs (lit "disable_tqdm")
          (get fine_tune_trainer_kwargs (lit "disable_tqdm")
             (VBool (verbosity <? 3))) in
      output_dir_given <-- getitem fine_tune_trainer_kwargs (lit "output_dir") ;;
      output_dir <-- Path output_dir_given ;;
      if negb (truthy eval_during_fine_tune) then
        let k := dict_set fine_tune_trainer_kwargs (lit "evaluation_strategy")
                   (VStr (lit "no")) in
        let k := dict_set k (lit "eval_steps") VNone in
        let k := dict_set k (lit "load_best_model_at_end") (VBool false) in
        inr (dict_set k (lit "metric_for_best_model") VNone)
      else inr fine_tune_trainer_kwargs
  | _ => inl TypeError
  end.

End ChronosModelParams.

(** * Properties *)

(** ** Python sequences *)

Lemma len_nonneg {A : Type} (a : list A) : 0 <= Py.len a.
Proof. unfold Py.len. lia. Qed.

Lemma len_app {A : Type} (a b : list A) : Py.len (a ++ b) = Py.len a + Py.len b.
Proof. unfold Py.len. rewrite length_app. lia. Qed.

Lemma slice_within {A : Type} (a : list A) (lo hi : Z) :
  0 <= lo <= hi -> hi <= Py.len a ->
  Py.slice a (Some lo) (Some hi)
    = firstn (Z.to_nat (hi - lo)) (skipn (Z.to_nat lo) a).
Proof.
  intros Hlo Hhi. unfold Py.slice, Py.slice_bound.
  destruct (lo <? 0) eqn:E1; [lia|].
  destruct (hi <? 0) eqn:E2; [lia|].
  rewrite !Z.min_l by lia. reflexivity.
Qed.

(** The piece of [pre ++ s ++ post] between the offsets of [s] is [s]. *)
Lemma slice_middle {A : Type} (pre s post : list A) :
  Py.slice (pre ++ s ++ post) (Some (Py.len pre))
    (Some (Py.len pre + Py.len s)) = s.
Proof.
  pose proof (len_nonneg pre). pose proof (len_nonneg s).
  pose proof (len_nonneg post).
  rewrite slice_within by (rewrite ?len_app; lia).
  unfold Py.len. rewrite Nat2Z.id.
  rewrite skipn_app, skipn_all, Nat.sub_diag. simpl.
  replace (Z.to_nat _) with (length s) by lia.
  rewrite firstn_app, firstn_all, Nat.sub_diag. simpl.
  apply app_nil_r.
Qed.

Lemma astype_int32_small (z : Z) :
  - 2 ^ 31 <= z < 2 ^ 31 -> Py.astype_int32 z = z.
Proof.
  intros H. unfold Py.astype_int32.
  rewrite Z.mod_small by lia. lia.
Qed.

Lemma getitem_nat {A : Type} (a : list A) (i : nat) (x : A) :
  nth_error a i = Some x -> Py.getitem a (Z.of_nat i) = Ok x.
Proof.
  intros H. unfold Py.getitem.
  assert (i < length a)%nat by (apply nth_error_Some; congruence).
  destruct (Z.of_nat i <? 0) eqn:E; [lia|].
  replace ((0 <=? Z.of_nat i) && (Z.of_nat i <? Py.len a)) with true
    by (unfold Py.len; symmetry; apply andb_true_iff; split; lia).
  now rewrite Nat2Z.id, H.
Qed.

(** The offsets stored by [numpy.cumsum] are the lengths of the prefixes
    of the flattened array. *)
Lemma cumsum_from_nth {A : Type} (ss : list (list A)) (acc : Z) (i : nat) :
  (i <= length ss)%nat ->
  nth_error (acc :: Py.cumsum_from acc (map (@Py.len A) ss)) i
    = Some (acc + Py.len (concat (firstn i ss))).
Proof.
  revert acc i. induction ss as [|s ss IH]; intros acc i Hi.
  - destruct i; [|simpl in Hi; lia]. simpl. f_equal. unfold Py.len. simpl. lia.
  - destruct i as [|i].
    + simpl. f_equal. unfold Py.len. simpl. lia.
    + simpl in Hi. change (nth_error (acc :: ?l) (S i)) with (nth_error l i).
      simpl map. simpl Py.cumsum_from. rewrite IH by lia.
      simpl firstn. simpl concat. rewrite len_app. f_equal. lia.
Qed.

Lemma nth_error_split_concat {A : Type} (ss : list (list A)) (i : nat)
  (s : list A) :
  nth_error ss i = Some s ->
  concat ss = concat (firstn i ss) ++ s ++ concat (skipn (S i) ss) /\
  concat (firstn (S i) ss) = concat (firstn i ss) ++ s.
Proof.
  revert i. induction ss as [|s0 ss IH]; intros [|i] H; try discriminate.
  - injection H as ->. simpl. now rewrite app_nil_r.
  - destruct (IH _ H) as [E1 E2]. simpl firstn. simpl skipn. simpl concat.
    rewrite <- !app_assoc. split; f_equal; assumption.
Qed.

Lemma len_concat_firstn_le {A : Type} (ss : list (list A)) (i : nat) :
  0 <= Py.len (concat (firstn i ss)) <= Py.len (concat ss).
Proof.
  split; [apply len_nonneg|].
  rewrite <- (firstn_skipn i ss) at 2. rewrite concat_app, len_app.
  pose proof (len_nonneg (concat (skipn i ss))). lia.
Qed.

(** ** [ChronosInferenceDataset]: the last window of a series *)

Section InferenceDataset.

Import ChronosInferenceDataset.

Variable A : Type.
Variable nan : A.
Variable float32 : A -> A.

(** [_get_context] keeps the tail of the array and pads it on the left. *)
Lemma get_context_last_window (self : t A) (a : list A) :
  0 < context_length self ->
  last_window nan (context_length self) a (_get_context self a nan).
Proof.
  intros HW. set (W := context_length self) in *.
  unfold last_window, _get_context. fold W.
  pose proof (len_nonneg a) as HL.
  assert (Hs : Py.slice a (Some (- W)) None
               = skipn (Z.to_nat (Py.len a - Z.min (Py.len a) W)) a).
  { unfold Py.slice, Py.slice_bound.
    destruct (- W <? 0) eqn:E; [|lia].
    replace (Z.max 0 (- W + Py.len a)) with (Py.len a - Z.min (Py.len a) W)
      by lia.
    apply firstn_all2. rewrite length_skipn. unfold Py.len in *. lia. }
  rewrite Hs. clear Hs.
  set (k := Z.to_nat (Py.len a - Z.min (Py.len a) W)).
  assert (Hk : Py.len (skipn k a) = Z.min (Py.len a) W).
  { unfold Py.len in *. rewrite length_skipn. subst k. lia. }
  rewrite Hk.
  destruct (W - Z.min (Py.len a) W >? 0) eqn:Hpad.
  - (* the series is shorter than the window: pad on the left *)
    assert (Hlt : Py.len a < W) by lia.
    rewrite Z.min_l in * by lia.
    replace k with 0%nat by (subst k; lia). simpl skipn.
    replace (Z.max 0 (W - Py.len a)) with (W - Py.len a) by lia.
    repeat split.
    + rewrite len_app. unfold Py.len at 1. rewrite repeat_length. lia.
    + rewrite skipn_app, skipn_all2 by (rewrite repeat_length; lia).
      rewrite repeat_length, Nat.sub_diag. reflexivity.
    + rewrite firstn_app, firstn_all2 by (rewrite repeat_length; lia).
      rewrite repeat_length, Nat.sub_diag. simpl. apply app_nil_r.
  - (* the series fills the window: no padding *)
    assert (Hge : W <= Py.len a) by lia.
    rewrite Z.min_r in * by lia.
    replace (Z.max 0 (W - Py.len a)) with 0 by lia.
    replace (Z.to_nat (W - W)) with 0%nat by lia.
    repeat split; assumption || reflexivity.
Qed.

Lemma len_map (f : A -> A) (a : list A) : Py.len (map f a) = Py.len a.
Proof. unfold Py.len. now rewrite length_map. Qed.

Lemma freq_of_series (target_df : list (list A)) (i : nat) (series : list A) :
  nth_error target_df i = Some series -> freq target_df = Ok tt.
Proof. destruct target_df; [destruct i; discriminate | reflexivity]. Qed.

(** As long as the end offset of series [i] is within the range of the
    32-bit offsets, item [i] of the dataset is the slice of the flattened
    array that holds the series. *)
Lemma getitem_slice (target_df : list (list A)) (W : Z) (i : nat)
  (series : list A) :
  0 < W ->
  Py.len (concat (firstn (S i) target_df)) < 2 ^ 31 ->
  nth_error target_df i = Some series ->
  exists self,
    __init__ float32 target_df W = Ok self /\
    context_length self = W /\
    __getitem__ nan self (Z.of_nat i)
      = Ok (_get_context self (map float32 series) nan).
Proof.
  intros HW Hsmall Hnth.
  unfold __init__. destruct (W >? 0) eqn:E; [|lia].
  rewrite (freq_of_series _ _ Hnth). cbv beta iota delta [bind].
  eexists. split; [reflexivity|]. split; [reflexivity|].
  assert (Hi : (i < length target_df)%nat)
    by (apply nth_error_Some; congruence).
  destruct (nth_error_split_concat _ _ Hnth) as [Hcat Hpre].
  pose proof (len_nonneg (concat (firstn i target_df))) as B1.
  pose proof (len_nonneg series) as B2.
  rewrite Hpre, len_app in Hsmall.
  unfold __getitem__, indptr, target_array, to_numpy, num_timesteps_per_item,
    Py.cumsum.
  rewrite (getitem_nat _ i (x := Py.len (concat (firstn i target_df)))).
  2:{ rewrite nth_error_map, cumsum_from_nth by lia. unfold option_map.
      now rewrite astype_int32_small by lia. }
  replace (Z.of_nat i + 1) with (Z.of_nat (S i)) by lia.
  rewrite (getitem_nat _ (S i) (x := Py.len (concat (firstn (S i) target_df)))).
  2:{ rewrite nth_error_map, cumsum_from_nth by lia. unfold option_map.
      rewrite Hpre, len_app. now rewrite astype_int32_small by lia. }
  cbv beta iota delta [bind]. rewrite Hpre, len_app.
  assert (Hslice : Py.slice (map float32 (concat target_df))
                     (Some (Py.len (concat (firstn i target_df))))
                     (Some (Py.len (concat (firstn i target_df))
                            + Py.len series)) = map float32 series).
  { rewrite Hcat at 1. rewrite !map_app.
    rewrite <- (len_map float32 (concat (firstn i target_df))).
    rewrite <- (len_map float32 series). apply slice_middle. }
  now rewrite Hslice.
Qed.

(** Every series whose end offset in the flattened array is below 2^31 is
    served as the specification promises. *)
Lemma getitem_spec_in_range (target_df : list (list A)) (W : Z) (i : nat) :
  0 < W ->
  Py.len (concat (firstn (S i) target_df)) < 2 ^ 31 ->
  getitem_spec nan float32 target_df W i.
Proof.
  intros HW Hsmall series Hnth.
  destruct (getitem_slice target_df i HW Hsmall Hnth)
    as (self & Hinit & Hctx & Hget).
  exists self, (_get_context self (map float32 series) nan).
  split; [exact Hinit|]. split; [exact Hget|].
  rewrite <- Hctx. apply get_context_last_window. lia.
Qed.

End InferenceDataset.

(** The examples of the specification. *)
Example getitem_pads_short_series :
  (self <- ChronosInferenceDataset.__init__ (fun x => x)
             [[Some 1; Some 2; Some 3]] 5 ;;
   ChronosInferenceDataset.__getitem__ None self 0)
  = Ok [None; None; Some 1; Some 2; Some 3].
Proof. reflexivity. Qed.

Example getitem_truncates_long_series :
  (self <- ChronosInferenceDataset.__init__ (fun x => x)
             [[1; 2; 3; 4; 5; 6]] 3 ;;
   ChronosInferenceDataset.__getitem__ 0 self 0)
  = Ok [4; 5; 6].
Proof. reflexivity. Qed.

(** The comment of [__init__] announces pointers to the start and the end
    of each series.  When a single series holds 2^31 observations, its end
    offset wraps to -2^31 in the 32-bit offset array, the slice taken by
    [__getitem__] is empty and the window is padding only. *)
Lemma getitem_wrapped (A : Type) (nan : A) (float32 : A -> A) (s : list A)
  (W : Z) (self : ChronosInferenceDataset.t A) :
  0 < W ->
  Py.len s = 2 ^ 31 ->
  ChronosInferenceDataset.__init__ float32 [s] W = Ok self ->
  ChronosInferenceDataset.__getitem__ nan self 0
    = Ok (repeat nan (Z.to_nat W)).
Proof.
  intros HW Hlen Hinit.
  unfold ChronosInferenceDataset.__init__ in Hinit.
  destruct (W >? 0) eqn:E; [|lia].
  cbn [ChronosInferenceDataset.freq bind] in Hinit.
  injection Hinit as <-.
  unfold ChronosInferenceDataset.__getitem__,
    ChronosInferenceDataset.indptr, ChronosInferenceDataset.target_array,
    ChronosInferenceDataset.to_numpy,
    ChronosInferenceDataset.num_timesteps_per_item, Py.cumsum.
  cbn [map Py.cumsum_from concat]. rewrite app_nil_r, Hlen.
  replace (Py.astype_int32 0) with 0 by reflexivity.
  replace (Py.astype_int32 (2 ^ 31)) with (- 2 ^ 31) by reflexivity.
  replace (Py.getitem [0; - 2 ^ 31] 0) with (Ok (A := Z) 0) by reflexivity.
  replace (Py.getitem [0; - 2 ^ 31] (0 + 1)) with (Ok (A := Z) (- 2 ^ 31))
    by reflexivity.
  cbv beta iota delta [bind].
  assert (Hempty : Py.slice (map float32 s) (Some 0) (Some (- 2 ^ 31)) = []).
  { unfold Py.slice, Py.slice_bound.
    replace (Py.len (map float32 s)) with (2 ^ 31)
      by (unfold Py.len in *; now rewrite length_map).
    change (0 <? 0) with false. change (- 2 ^ 31 <? 0) with true.
    cbv beta iota. change (Z.max 0 (- 2 ^ 31 + 2 ^ 31)) with 0.
    change (Z.min 0 (2 ^ 31)) with 0. reflexivity. }
  rewrite Hempty.
  unfold ChronosInferenceDataset._get_context,
    ChronosInferenceDataset.context_length.
  assert (Hnil : Py.slice (@nil A) (Some (- W)) None = [])
    by (unfold Py.slice; now rewrite skipn_nil, firstn_nil).
  rewrite Hnil. change (Py.len (@nil A)) with 0.
  replace (W - 0) with W by lia. rewrite E. now rewrite app_nil_r.
Qed.

Lemma getitem_wrapped_one (A : Type) (nan x : A) (float32 : A -> A) (n : nat) :
  Z.of_nat n = 2 ^ 31 ->
  exists self,
    ChronosInferenceDataset.__init__ float32 [repeat x n] 1 = Ok self /\
    ChronosInferenceDataset.__getitem__ nan self 0 = Ok [nan].
Proof.
  intros Hlen.
  assert (Hinit : exists self,
             ChronosInferenceDataset.__init__ float32 [repeat x n] 1 = Ok self)
    by (eexists; reflexivity).
  destruct Hinit as [self Hinit]. exists self. split; [exact Hinit|].
  rewrite (@getitem_wrapped _ nan float32 (repeat x n) 1 self);
    [reflexivity | lia | unfold Py.len; now rewrite repeat_length
    | exact Hinit].
Qed.

Lemma getitem_wrapped_not_tail (n : nat) :
  Z.of_nat n = 2 ^ 31 ->
  ~ ChronosInferenceDataset.getitem_spec None (fun x => x)
      [repeat (Some 1) n] 1 0.
Proof.
  intros Hlen H.
  destruct (H (repeat (Some 1) n) eq_refl)
    as (self & out & Hinit & Hget & _ & Htail & _).
  change (Z.of_nat 0) with 0 in Hget.
  rewrite (@getitem_wrapped _ None (fun x => x) (repeat (Some 1) n) 1 self)
    in Hget;
    [| lia | unfold Py.len; now rewrite repeat_length | exact Hinit].
  injection Hget as <-.
  rewrite map_id in Htail.
  unfold Py.len in Htail. rewrite repeat_length in Htail.
  destruct n as [|n]; [discriminate Hlen|]. clear Hlen Hinit H.
  replace (Z.to_nat (Z.of_nat (S n) - Z.min (Z.of_nat (S n)) 1)) with n
    in Htail by lia.
  replace (Z.to_nat (1 - Z.min (Z.of_nat (S n)) 1)) with 0%nat
    in Htail by lia.
  replace (S n) with (n + 1)%nat in Htail by lia.
  rewrite repeat_app, skipn_app in Htail.
  rewrite (@skipn_all2 _ n (repeat (Some 1) n)) in Htail
    by (rewrite repeat_length; lia).
  rewrite repeat_length, Nat.sub_diag in Htail.
  discriminate Htail.
Qed.

(** C1 holds of the specification and fails of the code, which stores the
    offsets of the series as 32-bit integers: for a dataset holding one
    series of 2^31 observations and a context length of 1, the dataset is
    constructed and the window returned for the series is the missing-value
    sentinel, where its last entry should be the last observation. *)
Theorem getitem_int32_wrap (A : Type) (nan x : A) (float32 : A -> A) :
  exists self,
    ChronosInferenceDataset.__init__ float32
      [repeat x (Z.to_nat (2 ^ 31))] 1 = Ok self /\
    ChronosInferenceDataset.__getitem__ nan self 0 = Ok [nan].
Proof.
  apply getitem_wrapped_one. apply Z2Nat.id. lia.
Qed.

(** With observations 1.0 that window is not the one promised. *)
Lemma getitem_int32_wrap_not_last_window :
  ~ ChronosInferenceDataset.getitem_spec None (fun x => x)
      [repeat (Some 1) (Z.to_nat (2 ^ 31))] 1 0.
Proof.
  apply getitem_wrapped_not_tail. apply Z2Nat.id. lia.
Qed.

(** X28: within the range of the 32-bit offsets the code does as
    promised: for every context length W > 0 and every stored series whose end offset in
    the flattened array is below 2^31, [__getitem__] returns exactly W
    values, the last min(L, W) of which are the last min(L, W) stored
    observations of the series in order and the first max(0, W - L) of
    which are the missing-value sentinel. *)
Theorem getitem_last_window (A : Type) (nan : A) (float32 : A -> A)
  (target_df : list (list A)) (W : Z) (i : nat) :
  0 < W ->
  Py.len (concat (firstn (S i) target_df)) < 2 ^ 31 ->
  ChronosInferenceDataset.getitem_spec nan float32 target_df W i.
Proof.
  intros HW Hsmall. now apply getitem_spec_in_range.
Qed.

Lemma getitem_last_window_witness :
  0 < 5 /\
  Py.len (concat (firstn 1 [[1; 2; 3]; [4; 5; 6; 7; 8; 9]])) < 2 ^ 31 /\
  ChronosInferenceDataset.getitem_spec 0 (fun x => x)
    [[1; 2; 3]; [4; 5; 6; 7; 8; 9]] 5 0.
Proof.
  split; [lia|]. split; [reflexivity|].
  apply getitem_last_window; [lia | reflexivity].
Defined.

(** ** [PseudoShuffledIterableDataset]: what is yielded *)

Lemma pop_in_range {A : Type} (a : list A) (i : Z) :
  0 <= i < Py.len a ->
  exists x, nth_error a (Z.to_nat i) = Some x /\
    Py.pop a i = Ok (x, firstn (Z.to_nat i) a ++ skipn (S (Z.to_nat i)) a).
Proof.
  intros Hi. unfold Py.pop.
  destruct (i <? 0) eqn:E; [lia|].
  replace ((0 <=? i) && (i <? Py.len a)) with true
    by (symmetry; apply andb_true_iff; split; lia).
  destruct (nth_error a (Z.to_nat i)) as [x|] eqn:Hnth.
  - now exists x.
  - apply nth_error_None in Hnth. unfold Py.len in Hi. lia.
Qed.

Lemma nth_error_remove_perm {A : Type} (a : list A) (j : nat) (x : A) :
  nth_error a j = Some x ->
  Permutation a (x :: firstn j a ++ skipn (S j) a).
Proof.
  revert j. induction a as [|y a IH]; intros [|j] H; try discriminate.
  - injection H as ->. reflexivity.
  - simpl. rewrite perm_swap. apply perm_skip. now apply IH.
Qed.

Section PseudoShuffle.

Import PseudoShuffledIterableDataset.

Variable G : Type.
Variable randint : G -> Z -> Z * G.

(** [torch.randint(high)] draws from [0 .. high - 1]. *)
Hypothesis randint_range :
  forall g high, 0 < high -> 0 <= fst (randint g high) < high.

Variable A : Type.

(** Popping at a drawn index succeeds and removes one element. *)
Lemma pop_randint (buf : list A) (g : G) :
  buf <> [] ->
  exists x rest,
    Py.pop buf (fst (randint g (Py.len buf))) = Ok (x, rest) /\
    Permutation buf (x :: rest) /\
    (length buf = S (length rest))%nat.
Proof.
  intros Hne.
  assert (Hpos : 0 < Py.len buf)
    by (destruct buf; [congruence | unfold Py.len; simpl; lia]).
  destruct (pop_in_range buf (randint_range g Hpos)) as (x & Hnth & Hpop).
  eexists x, _. split; [exact Hpop|].
  pose proof (nth_error_remove_perm _ _ Hnth) as Hperm.
  split; [exact Hperm|].
  apply Permutation_length in Hperm. exact Hperm.
Qed.

Lemma while_loop_cons (b : A) (bs : list A) (g : G) :
  while_loop randint (b :: bs) g
  = match Py.pop (b :: bs) (fst (randint g (Py.len (b :: bs)))) with
    | Ok (x, rest) =>
        let (out, r) :=
          while_loop randint rest (snd (randint g (Py.len (b :: bs)))) in
        (x :: out, r)
    | Raise e => ([], Raise e)
    end.
Proof.
  rewrite while_loop_equation_2.
  set (rhs := match Py.pop _ _ with Ok _ => _ | Raise _ => _ end).
  destruct (inspect _) as [y Heq].
  assert (Hr : rhs = match y with
                     | Ok (x, rest) =>
                         let (out, r) :=
                           while_loop randint rest
                             (snd (randint g (Py.len (b :: bs)))) in
                         (x :: out, r)
                     | Raise e => ([], Raise e)
                     end)
    by (subst rhs; now rewrite Heq).
  rewrite Hr. clear Hr rhs.
  destruct y as [[x rest]|e]; reflexivity.
Qed.

(** The [while] loop ends without an exception and yields the buffer's
    elements, each once. *)
Lemma while_loop_drains (n : nat) :
  forall (buf : list A) (g : G), length buf = n ->
    exists out g',
      while_loop randint buf g = (out, Ok g') /\ Permutation buf out.
Proof.
  induction n as [|n IH]; intros buf g Hlen.
  - destruct buf; [|discriminate]. exists [], g.
    now rewrite while_loop_equation_1.
  - destruct buf as [|b bs]; [discriminate|].
    destruct (pop_randint (buf := b :: bs) g) as (x & rest & Hpop & Hperm & Hl);
      [discriminate|].
    rewrite while_loop_cons, Hpop.
    destruct (IH rest (snd (randint g (Py.len (b :: bs))))) as (out & g' & Hw & Hp);
      [lia|].
    rewrite Hw. exists (x :: out), g'. split; [reflexivity|].
    rewrite Hperm. now apply perm_skip.
Qed.

(** The [for] loop ends without an exception; what it yields and what it
    leaves in the buffer are the buffer and the elements consumed. *)
Lemma for_loop_keeps (size : Z) (elements : list A) :
  forall (buf : list A) (g : G),
    exists out buf' g',
      for_loop randint size elements buf g = (out, Ok (buf', g')) /\
      Permutation (buf ++ elements) (out ++ buf').
Proof.
  induction elements as [|element rest IH]; intros buf g.
  - exists [], buf, g. split; [reflexivity|]. now rewrite app_nil_r.
  - simpl for_loop. destruct (Py.len (buf ++ [element]) >=? size).
    + destruct (pop_randint (buf := buf ++ [element]) g)
        as (x & buf1 & Hpop & Hperm & _);
        [now destruct buf|].
      destruct (randint g (Py.len (buf ++ [element]))) as [idx g1] eqn:Hr.
      simpl fst in Hpop. rewrite Hpop.
      destruct (IH buf1 g1) as (out & buf' & g' & Hf & Hp).
      rewrite Hf. exists (x :: out), buf', g'. split; [reflexivity|].
      replace (buf ++ element :: rest) with ((buf ++ [element]) ++ rest)
        by now rewrite <- app_assoc.
      rewrite Hperm. simpl. now apply perm_skip.
    + destruct (IH (buf ++ [element]) g) as (out & buf' & g' & Hf & Hp).
      exists out, buf', g'. split; [exact Hf|].
      now rewrite <- Hp, <- app_assoc.
Qed.

Variable D : Type.
Variable iter_base : D -> list A.

(** One iteration yields every element of the base dataset exactly once
    and ends without an exception, whatever the buffer size. *)
Lemma iter_permutation (self : t G D) :
  exists out g',
    __iter__ randint iter_base self = (out, Ok g') /\
    Permutation (iter_base (base_dataset self)) out.
Proof.
  unfold __iter__.
  destruct (for_loop_keeps (shuffle_buffer_size self)
              (iter_base (base_dataset self)) [] (generator self))
    as (out1 & buf & g1 & Hf & Hp1).
  rewrite Hf.
  destruct (while_loop_drains buf g1 eq_refl) as (out2 & g2 & Hw & Hp2).
  rewrite Hw. exists (out1 ++ out2), g2. split; [reflexivity|].
  simpl in Hp1. rewrite Hp1. now apply Permutation_app_head.
Qed.

(** With a buffer of capacity 1 every element is yielded as soon as it is
    buffered. *)
Lemma for_loop_size_one (elements : list A) :
  forall g, exists g',
    for_loop randint 1 elements [] g = (elements, Ok ([], g')).
Proof.
  induction elements as [|element rest IH]; intros g.
  - now exists g.
  - simpl for_loop. change (Py.len [element] >=? 1) with true. cbv iota.
    pose proof (@randint_range g (Py.len [element]) eq_refl) as Hidx.
    destruct (randint g (Py.len [element])) as [idx g1].
    simpl fst in Hidx. change (Py.len [element]) with 1 in Hidx.
    replace idx with 0 by lia. change (Py.pop [element] 0)
      with (Ok (element, @nil A)). cbv iota beta.
    destruct (IH g1) as (g' & Hf). rewrite Hf. now exists g'.
Qed.

End PseudoShuffle.

(** C2: for every buffer size B >= 0 and every input sequence of N > B
    elements, iterating the pseudo-shuffled dataset ends normally, yields
    exactly N elements, and the yielded elements are a permutation of the
    input (none lost, none duplicated). *)
Theorem pseudo_shuffle_multiset (G : Type) (randint : G -> Z -> Z * G)
  (D A : Type) (iter_base : D -> list A)
  (self : PseudoShuffledIterableDataset.t G D) :
  (forall g high, 0 < high -> 0 <= fst (randint g high) < high) ->
  0 <= PseudoShuffledIterableDataset.shuffle_buffer_size self ->
  PseudoShuffledIterableDataset.shuffle_buffer_size self
    < Py.len (iter_base (PseudoShuffledIterableDataset.base_dataset self)) ->
  exists out g',
    PseudoShuffledIterableDataset.__iter__ randint iter_base self
      = (out, Ok g') /\
    Py.len out
      = Py.len (iter_base (PseudoShuffledIterableDataset.base_dataset self)) /\
    Permutation
      (iter_base (PseudoShuffledIterableDataset.base_dataset self)) out.
Proof.
  intros Hrange _ _.
  destruct (@iter_permutation G randint Hrange A D iter_base self)
    as (out & g' & Hit & Hp).
  exists out, g'. split; [exact Hit|]. split; [|exact Hp].
  unfold Py.len. f_equal. symmetry. now apply Permutation_length.
Qed.

Lemma lcg_randint_range (g high : Z) :
  0 < high -> 0 <= fst (lcg_randint g high) < high.
Proof. intros H. unfold lcg_randint. simpl. apply Z.mod_pos_bound. exact H. Qed.

Lemma pseudo_shuffle_multiset_witness :
  let self :=
    PseudoShuffledIterableDataset.__init__ 42 [1; 2; 3; 4; 5; 6; 7] 3 in
  0 <= PseudoShuffledIterableDataset.shuffle_buffer_size self /\
  PseudoShuffledIterableDataset.shuffle_buffer_size self < Py.len [1; 2; 3; 4; 5; 6; 7] /\
  exists out g',
    PseudoShuffledIterableDataset.__iter__ lcg_randint (fun d => d) self
      = (out, Ok g') /\
    Py.len out = 7 /\
    Permutation [1; 2; 3; 4; 5; 6; 7] out.
Proof.
  intros self. split; [simpl; lia|]. split; [reflexivity|].
  apply (@pseudo_shuffle_multiset Z lcg_randint (list Z) Z (fun d => d) self
           lcg_randint_range); [simpl; lia | reflexivity].
Defined.

(** ** [ChronosFineTuningDataset.shuffle] *)

Section Shuffle.

Import ChronosFineTuningDataset.

Variables A Tokenizer Tokenized G : Type.
Variable randint : G -> Z -> Z * G.
Variable torch_Generator : G.
Variable iter_self : t A Tokenizer -> list (Item A Tokenized).

(** C5: with [shuffle_buffer_size] equal to 0 or omitted, [shuffle] returns
    the dataset itself, so that what is iterated is the input sequence,
    element for element and in the same order. *)
Theorem shuffle_disabled_identity (self : t A Tokenizer) :
  shuffle torch_Generator self None = Ok (Self G self) /\
  shuffle torch_Generator self (Some 0) = Ok (Self G self) /\
  (d <- shuffle torch_Generator self None ;;
   Ok (iter_shuffled randint iter_self d)) = Ok (iter_self self, Ok tt) /\
  (d <- shuffle torch_Generator self (Some 0) ;;
   Ok (iter_shuffled randint iter_self d)) = Ok (iter_self self, Ok tt).
Proof. repeat split. Qed.

(** C10: with [shuffle_buffer_size = 1] a shuffling wrapper is constructed,
    and iterating it yields the elements in exactly the input order. *)
Theorem shuffle_buffer_one_identity (self : t A Tokenizer) :
  (forall g high, 0 < high -> 0 <= fst (randint g high) < high) ->
  shuffle torch_Generator self (Some 1)
    = Ok (Wrapped
            (PseudoShuffledIterableDataset.__init__ torch_Generator self 1)) /\
  (d <- shuffle torch_Generator self (Some 1) ;;
   Ok (iter_shuffled randint iter_self d)) = Ok (iter_self self, Ok tt).
Proof.
  intros Hrange. split; [reflexivity|].
  simpl. unfold PseudoShuffledIterableDataset.__iter__. simpl.
  destruct (@for_loop_size_one G randint Hrange _ (iter_self self)
              torch_Generator)
    as (g' & Hf).
  rewrite Hf, PseudoShuffledIterableDataset.while_loop_equation_1.
  now rewrite app_nil_r.
Qed.

End Shuffle.

Lemma shuffle_buffer_one_identity_witness :
  let self :=
    ChronosFineTuningDataset.__init__ [[1; 2; 3]; [4; 5]] 2 1 (@None unit)
      ChronosFineTuningDataset.validation in
  let items :=
    [ChronosFineTuningDataset.ChronosBoltFormat unit [1; 2] [3];
     ChronosFineTuningDataset.ChronosBoltFormat unit [0; 4] [5]] in
  (d <- ChronosFineTuningDataset.shuffle 42 self (Some 1) ;;
   Ok (ChronosFineTuningDataset.iter_shuffled lcg_randint (fun _ => items) d))
  = Ok (items, Ok tt).
Proof.
  intros self items.
  apply (@shuffle_buffer_one_identity Z unit unit Z lcg_randint 42
           (fun _ => items) self lcg_randint_range).
Defined.

(** ** [ChronosFineTuningDataset]: the windows of the two modes *)

Section Splitter.

Variable A : Type.
Variable R : Type.
Variable random_where : R -> Z -> Q -> list Z * R.

Import GluonTS.

(** The sampler keeps its [min_future], and the splitter its lengths. *)
Lemma flatmap_transform_keeps (sp : InstanceSplitter A) (rng : R)
  (data : DataEntry A) :
  let sp' := snd (fst (flatmap_transform random_where sp rng data)) in
  min_future_of (instance_sampler sp') = min_future_of (instance_sampler sp).
Proof.
  unfold flatmap_transform, sample, _get_bounds.
  destruct (instance_sampler sp) as [num m total n | m]; simpl.
  - destruct (_ <=? 0); [reflexivity|].
    destruct (Qle_bool _ _); [reflexivity|].
    now destruct (random_where _ _ _).
  - reflexivity.
Qed.

(** No split point can be sampled in a series shorter than [min_future]. *)
Lemma flatmap_transform_short (sp : InstanceSplitter A) (rng : R)
  (data : DataEntry A) :
  Py.len (target data) < min_future_of (instance_sampler sp) ->
  fst (fst (flatmap_transform random_where sp rng data)) = [].
Proof.
  intros Hshort. unfold flatmap_transform, sample, _get_bounds.
  destruct (instance_sampler sp) as [num m total n | m]; simpl in *.
  - destruct (_ <=? 0) eqn:E; [reflexivity | lia].
  - destruct (0 <=? _) eqn:E; [lia | reflexivity].
Qed.

Lemma apply_trace_entries (data : list (DataEntry A)) :
  forall sp rng, map fst (fst (apply_trace random_where sp rng data)) = data.
Proof.
  induction data as [|entry rest IH]; intros sp rng; [reflexivity|].
  simpl. destruct (flatmap_transform _ _ _ _) as [[instances sp'] rng'].
  specialize (IH sp' rng').
  destruct (apply_trace _ _ _ _) as [tr rng'']. simpl in *. now f_equal.
Qed.

Lemma apply_trace_short (data : list (DataEntry A)) :
  forall sp rng entry instances,
    In (entry, instances) (fst (apply_trace random_where sp rng data)) ->
    Py.len (target entry) < min_future_of (instance_sampler sp) ->
    instances = [].
Proof.
  induction data as [|e rest IH]; intros sp rng entry instances Hin Hshort;
    [contradiction|].
  simpl in Hin.
  pose proof (flatmap_transform_keeps sp rng e) as Hkeep.
  pose proof (@flatmap_transform_short sp rng e) as Hnone.
  destruct (flatmap_transform _ _ _ _) as [[ws sp'] rng']. simpl in Hkeep, Hnone.
  specialize (IH sp' rng' entry instances).
  destruct (apply_trace _ _ _ _) as [tr rng'']. simpl in Hin, IH.
  destruct Hin as [Heq | Hin].
  - injection Heq as -> ->. now apply Hnone.
  - apply IH; [exact Hin | now rewrite Hkeep].
Qed.

(** The validation sampler has no state: the splitter is left as it was,
    and a series gives its single last split point if it is long enough. *)
Lemma flatmap_transform_validation (sp : InstanceSplitter A) (rng : R)
  (data : DataEntry A) (m : Z) :
  instance_sampler sp = ValidationSplitSampler m ->
  flatmap_transform random_where sp rng data
  = (if m <=? Py.len (target data)
     then [split_at sp (target data) (Py.len (target data) - m)]
     else [],
     sp, rng).
Proof.
  intros Hs. unfold flatmap_transform, sample, _get_bounds.
  destruct sp as [s pl fl d]. simpl in *. subst s. simpl.
  destruct (0 <=? _) eqn:E1; destruct (m <=? _) eqn:E2; try lia; reflexivity.
Qed.

Lemma apply_validation (sp : InstanceSplitter A) (rng : R) (m : Z)
  (target_df : list (list A)) :
  instance_sampler sp = ValidationSplitSampler m ->
  apply random_where sp rng (map (@mkEntry A) target_df)
  = (map (fun s => split_at sp s (Py.len s - m))
       (filter (fun s => m <=? Py.len s) target_df),
     rng).
Proof.
  intros Hs. unfold apply.
  assert (Htr : fst (apply_trace random_where sp rng (map (@mkEntry A) target_df))
                = map (fun s => (mkEntry s,
                                 if m <=? Py.len s
                                 then [split_at sp s (Py.len s - m)]
                                 else [])) target_df
                /\ snd (apply_trace random_where sp rng
                          (map (@mkEntry A) target_df)) = rng).
  { induction target_df as [|s rest IH]; [now split|].
    simpl. rewrite (@flatmap_transform_validation sp rng _ m Hs).
    destruct (apply_trace _ _ _ _) as [tr rng']. simpl in *.
    destruct IH as [-> ->]. now split. }
  destruct (apply_trace _ _ _ _) as [tr rng']. simpl in Htr.
  destruct Htr as [-> ->]. f_equal.
  clear. induction target_df as [|s rest IH]; [reflexivity|].
  simpl. destruct (m <=? Py.len s); simpl; now rewrite IH.
Qed.

(** The splitter that passes the assertion of the constructor. *)
Lemma InstanceSplitter_init_ok (sp : InstanceSplitter A) :
  0 < future_length sp -> InstanceSplitter__init__ sp = Ok sp.
Proof.
  intros H. unfold InstanceSplitter__init__.
  destruct (future_length sp >? 0) eqn:E; [reflexivity | lia].
Qed.

Lemma InstanceSplitter_init_fails (sp : InstanceSplitter A) :
  future_length sp <= 0 -> InstanceSplitter__init__ sp = Raise AssertionError.
Proof.
  intros H. unfold InstanceSplitter__init__.
  destruct (future_length sp >? 0) eqn:E; [lia | reflexivity].
Qed.

(** The validation stream as it is consumed: with a non-negative
    [past_length], as long as the counter of idle entries stays within its
    limit and the consumer accepts the windows, every series that is long
    enough gives its window, in order. *)
Lemma call_validation (B : Type) (body : Instance A -> result B)
  (sp : InstanceSplitter A) (rng : R) (m : Z) (target_df : list (list A)) :
  instance_sampler sp = ValidationSplitSampler m ->
  0 <= past_length sp ->
  forall (n : Z) (items : list B),
    idle_within_limit n (map (fun s => m <=? Py.len s) target_df) = true ->
    Forall2 (fun w item => body w = Ok item)
      (map (fun s => split_at sp s (Py.len s - m))
         (filter (fun s => m <=? Py.len s) target_df)) items ->
    __call__ random_where body sp rng n (map (@mkEntry A) target_df)
    = (items, Ok tt, rng).
Proof.
  intros Hs Hpast.
  induction target_df as [|s rest IH]; intros n items Hidle Hbody.
  - inversion Hbody. reflexivity.
  - cbn [map __call__]. unfold flatmap_transform_checked.
    rewrite (@flatmap_transform_validation sp rng _ m Hs).
    cbn [target map filter idle_within_limit] in *.
    apply andb_true_iff in Hidle. destruct Hidle as [Hn Hidle].
    destruct (m <=? Py.len s) eqn:E.
    + destruct (past_length sp <? 0) eqn:Ep; [lia|].
      cbn [map] in Hbody.
      inversion Hbody as [|w item ws items' Hitem Hrest]; subst.
      cbn [for_each]. rewrite Hitem.
      change (0 >? max_idle_transforms) with false. cbv iota.
      rewrite (IH 0 items' Hidle Hrest). reflexivity.
    + cbn [for_each].
      destruct (n + 1 >? max_idle_transforms) eqn:En; [lia|].
      rewrite (IH (n + 1) items Hidle Hbody). reflexivity.
Qed.

(** A stream of at most [max_idle_transforms] entries cannot exceed the
    limit of idle entries. *)
Lemma idle_within_limit_few (productive : list bool) (n : Z) :
  0 <= n ->
  n + Z.of_nat (length productive) <= max_idle_transforms ->
  idle_within_limit n productive = true.
Proof.
  revert n. induction productive as [|p rest IH]; intros n Hn Hlen;
    [reflexivity|].
  cbn [idle_within_limit length] in *. apply andb_true_iff.
  unfold max_idle_transforms in *.
  destruct p; (split; [lia | apply IH; lia]).
Qed.

End Splitter.

Section FineTuningDataset.

Import ChronosFineTuningDataset.

Variable A : Type.
Variable nan : A.
Variable R : Type.
Variable random_where : R -> Z -> Q -> list Z * R.
Variables Tokenizer Tokenized : Type.
Variable tokenize : Tokenizer -> list A -> list A -> result Tokenized.

(** Without a tokenizer every window is put into the ChronosBolt format. *)
Lemma bolt_format_all (self : t A Tokenizer)
  (windows : list (GluonTS.Instance A)) :
  tokenizer self = None ->
  Forall2 (fun w item => format_transform_fn tokenize self w = Ok item)
    windows
    (map (fun w => ChronosBoltFormat Tokenized (GluonTS.past_target w)
                     (GluonTS.future_target w)) windows).
Proof.
  intros Htok. induction windows as [|w ws IH]; constructor; [|exact IH].
  unfold format_transform_fn. now rewrite Htok.
Qed.

(** An assertion error of [to_chronos_format] is no outcome of [__iter__]:
    that format is selected only when there is a tokenizer. *)
Lemma format_transform_fn_asserts_nothing (self : t A Tokenizer)
  (w : GluonTS.Instance A) :
  format_transform_fn tokenize self w
  = match tokenizer self with
    | Some tok =>
        tokenized <- tokenize tok (GluonTS.past_target w)
                       (GluonTS.future_target w) ;;
        Ok (ChronosFormat A tokenized)
    | None =>
        Ok (ChronosBoltFormat Tokenized (GluonTS.past_target w)
              (GluonTS.future_target w))
    end.
Proof.
  unfold format_transform_fn, to_chronos_format, to_chronos_bolt_format.
  now destruct (tokenizer self).
Qed.

(** One iteration in validation mode, whatever [passes] is. *)
Lemma validation_iter (target_df : list (list A))
  (context_length prediction_length : Z) (tok : option Tokenizer)
  (passes : nat) (rng : R) (items : list (Item A Tokenized)) :
  let self :=
    __init__ target_df context_length prediction_length tok validation in
  0 < prediction_length ->
  0 <= context_length ->
  GluonTS.idle_within_limit 0
    (map (fun s => prediction_length <=? Py.len s) target_df) = true ->
  Forall2 (fun w item => format_transform_fn tokenize self w = Ok item)
    (map (validation_window nan self)
       (filter (fun s => prediction_length <=? Py.len s) target_df)) items ->
  __iter__ nan random_where tokenize self passes rng
  = (items, Ok tt, rng, self).
Proof.
  intros self Hpl HW Hidle Hfmt. unfold __iter__.
  change (mode self) with validation. cbv iota.
  change (gluonts_dataset self) with (map (@GluonTS.mkEntry A) target_df).
  rewrite InstanceSplitter_init_ok by exact Hpl.
  rewrite (@call_validation A R random_where _
             (format_transform_fn tokenize self)
             (_create_instance_splitter nan self validation) rng
             prediction_length target_df eq_refl HW 0 items Hidle Hfmt).
  reflexivity.
Qed.

(** A non-positive [prediction_length] is found when the iteration begins:
    the assertion of the splitter's constructor fails before any entry is
    read. *)
Lemma iter_asserts_prediction_length (target_df : list (list A))
  (context_length prediction_length : Z) (tok : option Tokenizer)
  (mode : Mode) (passes : nat) (rng : R) :
  let self := __init__ target_df context_length prediction_length tok mode in
  prediction_length <= 0 ->
  __iter__ nan random_where tokenize self passes rng
  = ([], Raise AssertionError, rng, self).
Proof.
  intros self Hpl. unfold __iter__.
  rewrite InstanceSplitter_init_fails; [reflexivity|].
  subst self. now destruct mode.
Qed.

(** C3, for the series that are long enough: with a positive
    [prediction_length] and a non-negative [context_length], as long as no
    more than 100 series in a row are shorter than [prediction_length] and
    the tokenizer, if there is one, accepts the windows, iterating a
    validation-mode dataset ends normally and yields exactly one window
    for each series that has at least [prediction_length] observations, in
    the input order of the series, and none for a shorter series; the
    iteration leaves the dataset object and the random state as they were,
    and iterating the object again yields the same windows again. *)
Theorem validation_iter_windows (target_df : list (list A))
  (context_length prediction_length : Z) (tok : option Tokenizer)
  (passes : nat) (rng : R) (items : list (Item A Tokenized)) :
  let self :=
    __init__ target_df context_length prediction_length tok validation in
  let windows :=
    map (validation_window nan self)
      (filter (fun s => prediction_length <=? Py.len s) target_df) in
  0 < prediction_length ->
  0 <= context_length ->
  GluonTS.idle_within_limit 0
    (map (fun s => prediction_length <=? Py.len s) target_df) = true ->
  Forall2 (fun w item => format_transform_fn tokenize self w = Ok item)
    windows items ->
  __iter__ nan random_where tokenize self passes rng
    = (items, Ok tt, rng, self) /\
  length items
    = length (filter (fun s => prediction_length <=? Py.len s) target_df) /\
  (tok = None ->
   items = map (fun w => ChronosBoltFormat Tokenized (GluonTS.past_target w)
                           (GluonTS.future_target w)) windows) /\
  (forall passes',
     let '(_, _, rng', self') :=
       __iter__ nan random_where tokenize self passes rng in
     __iter__ nan random_where tokenize self' passes' rng'
       = (items, Ok tt, rng, self)).
Proof.
  intros self windows Hpl HW Hidle Hfmt.
  pose proof (@validation_iter target_df context_length prediction_length tok)
    as Hiter. cbv zeta in Hiter. fold self in Hiter.
  split; [|split; [|split]].
  - now apply Hiter.
  - rewrite <- (Forall2_length Hfmt). subst windows. now rewrite length_map.
  - intros ->. clear Hiter Hidle. subst windows.
    set (ws := map _ _) in *. clearbody ws.
    induction Hfmt as [|w item ws items Hw _ IH]; [reflexivity|].
    cbn [map]. rewrite IH. f_equal.
    unfold format_transform_fn, to_chronos_bolt_format in Hw.
    cbn in Hw. congruence.
  - intros passes'. rewrite (Hiter passes rng items Hpl HW Hidle Hfmt).
    now apply Hiter.
Qed.

(** C6: in training mode, over any number of passes, a series shorter than
    [prediction_length] gives rise to no window: the trace of the training
    stream lists every entry consumed, pass after pass, and the entries of
    such series are listed with no instance. *)
Theorem training_skips_short_series (self : t A Tokenizer) (passes : nat)
  (rng : R) (entry : GluonTS.DataEntry A)
  (instances : list (GluonTS.Instance A)) :
  let trace :=
    fst (_create_training_trace nan random_where self passes rng
           (gluonts_dataset self)) in
  In (entry, instances) trace ->
  Py.len (GluonTS.target entry) < prediction_length self ->
  instances = [] /\
  map fst trace = _infinite_iterable passes (gluonts_dataset self) /\
  fst (_create_training_data nan random_where self passes rng
         (gluonts_dataset self)) = concat (map snd trace).
Proof.
  intros trace Hin Hshort. split; [|split].
  - exact (apply_trace_short _ _ _ _ _ _ Hin Hshort).
  - apply apply_trace_entries.
  - unfold _create_training_data, GluonTS.apply. subst trace.
    unfold _create_training_trace.
    now destruct (GluonTS.apply_trace _ _ _ _).
Qed.

End FineTuningDataset.

Lemma validation_iter_windows_witness :
  let tokenize :=
    fun (_ : unit) (past future : list Z) => Ok (past ++ future) in
  let target_df := [[1; 2; 3]; [4]; [5; 6; 7; 8; 9]] in
  let self :=
    ChronosFineTuningDataset.__init__ target_df 3 2 None
      ChronosFineTuningDataset.validation in
  let items :=
    [ChronosFineTuningDataset.ChronosBoltFormat (list Z) [0; 0; 1] [2; 3];
     ChronosFineTuningDataset.ChronosBoltFormat (list Z) [5; 6; 7] [8; 9]] in
  0 < 2 /\ 0 <= 3 /\
  GluonTS.idle_within_limit 0 (map (fun s => 2 <=? Py.len s) target_df)
    = true /\
  ChronosFineTuningDataset.__iter__ 0 lcg_random_where tokenize self 0 7
    = (items, Ok tt, 7, self) /\
  length items = 2%nat.
Proof.
  intros tokenize target_df self items.
  split; [lia|]. split; [lia|]. split; [reflexivity|].
  destruct (@validation_iter_windows Z 0 Z lcg_random_where unit (list Z)
              tokenize target_df 3 2 None 0 7 items)
    as (Hiter & Hlen & _);
    [lia | lia | reflexivity | repeat constructor |].
  split; [exact Hiter | exact Hlen].
Defined.

Lemma training_skips_short_series_witness :
  let self :=
    ChronosFineTuningDataset.__init__
      [[1; 2; 3]; [4]; [5; 6; 7; 8; 9; 10]] 4 2 (@None unit)
      ChronosFineTuningDataset.training in
  let trace :=
    fst (ChronosFineTuningDataset._create_training_trace 0 lcg_random_where
           self 2 7 (ChronosFineTuningDataset.gluonts_dataset self)) in
  In (GluonTS.mkEntry [4], []) trace /\
  Py.len [4] < 2 /\
  (@nil (GluonTS.Instance Z) = [] /\
   map fst trace
     = ChronosFineTuningDataset._infinite_iterable 2
         (ChronosFineTuningDataset.gluonts_dataset self) /\
   fst (ChronosFineTuningDataset._create_training_data 0 lcg_random_where
          self 2 7 (ChronosFineTuningDataset.gluonts_dataset self))
     = concat (map snd trace)).
Proof.
  intros self trace.
  assert (Hin : In (GluonTS.mkEntry [4], []) trace)
    by (right; left; reflexivity).
  assert (Hshort : Py.len [4] < 2) by reflexivity.
  split; [exact Hin|]. split; [exact Hshort|].
  exact (@training_skips_short_series Z 0 Z lcg_random_where unit self 2 7
           (GluonTS.mkEntry [4]) [] Hin Hshort).
Defined.

(** C3 fails for short series and for repeated iteration: a validation
    dataset whose only series has one observation, with
    [prediction_length = 2], yields no window; and a
    validation dataset with one series of three observations, iterated a
    second time, yields its window again. *)
Lemma validation_counterexample :
  ~ ChronosFineTuningDataset.one_window_per_series 0 lcg_random_where
      (fun (_ : unit) (past future : list Z) => Ok (past, future))
      (ChronosFineTuningDataset.__init__ [[1]] 3 2 None
         ChronosFineTuningDataset.validation) 7 /\
  ~ ChronosFineTuningDataset.exhausted_after_one_pass 0 lcg_random_where
      (fun (_ : unit) (past future : list Z) => Ok (past, future))
      (ChronosFineTuningDataset.__init__ [[1; 2; 3]] 2 1 None
         ChronosFineTuningDataset.validation) 7.
Proof.
  split; intros H; vm_compute in H; discriminate H.
Qed.

(** ** Where the errors of a configuration are raised *)

(** C7, as the code has it: a non-positive [context_length] makes the
    construction of the inference dataset fail, and a negative
    [shuffle_buffer_size] makes [shuffle] fail, in both cases with the
    assertion error and before anything can be iterated; the lengths of a
    fine-tuning dataset are not looked at when it is constructed, and a
    non-positive [prediction_length] fails with the assertion error when
    the iteration of the dataset begins, before any item is yielded. *)
Theorem configuration_errors_raised (A Tokenizer Tokenized G R : Type)
  (nan : A) (float32 : A -> A) (random_where : R -> Z -> Q -> list Z * R)
  (tokenize : Tokenizer -> list A -> list A -> result Tokenized)
  (target_df : list (list A)) (context_length : Z)
  (torch_Generator : G) (self : ChronosFineTuningDataset.t A Tokenizer)
  (shuffle_buffer_size : Z)
  (train_data : list (list A)) (W prediction_length : Z)
  (tok : option Tokenizer) (mode : ChronosFineTuningDataset.Mode)
  (passes : nat) (rng : R) :
  context_length <= 0 ->
  shuffle_buffer_size < 0 ->
  prediction_length <= 0 ->
  ChronosInferenceDataset.__init__ float32 target_df context_length
    = Raise AssertionError /\
  ChronosFineTuningDataset.shuffle torch_Generator self
    (Some shuffle_buffer_size) = Raise AssertionError /\
  ChronosFineTuningDataset.__iter__ nan random_where tokenize
    (ChronosFineTuningDataset.__init__ train_data W prediction_length tok mode)
    passes rng
  = ([], Raise AssertionError, rng,
     ChronosFineTuningDataset.__init__ train_data W prediction_length tok mode).
Proof.
  intros HW HB Hpl. split; [|split].
  - unfold ChronosInferenceDataset.__init__.
    destruct (context_length >? 0) eqn:E; [lia | reflexivity].
  - unfold ChronosFineTuningDataset.shuffle.
    destruct (shuffle_buffer_size >=? 0) eqn:E; [lia | reflexivity].
  - now apply iter_asserts_prediction_length.
Qed.

Lemma configuration_errors_raised_witness :
  0 <= 0 /\ -1 < 0 /\ 0 <= 0 /\
  ChronosInferenceDataset.__init__ (fun x => x) [[1; 2; 3]] 0
    = Raise AssertionError /\
  ChronosFineTuningDataset.shuffle 42
    (ChronosFineTuningDataset.__init__ [[1; 2; 3]] 2 1 (@None unit)
       ChronosFineTuningDataset.training)
    (Some (-1)) = Raise AssertionError /\
  ChronosFineTuningDataset.__iter__ 0 lcg_random_where
    (fun (_ : unit) (past future : list Z) => Ok (past, future))
    (ChronosFineTuningDataset.__init__ [[1; 2; 3]] 2 0 None
       ChronosFineTuningDataset.validation) 0 7
  = ([], Raise AssertionError, 7,
     ChronosFineTuningDataset.__init__ [[1; 2; 3]] 2 0 None
       ChronosFineTuningDataset.validation).
Proof.
  split; [lia|]. split; [lia|]. split; [lia|].
  apply configuration_errors_raised; lia.
Defined.

(** C7 fails for the fine-tuning dataset: a validation dataset with
    [prediction_length = 0] is constructed without an error, and the
    assertion error of that length is raised when the dataset is
    iterated. *)
Lemma configuration_error_counterexample :
  ~ ChronosFineTuningDataset.configuration_checked_eagerly 0 lcg_random_where
      (fun (_ : unit) (past future : list Z) => Ok (past, future))
      (ChronosFineTuningDataset.__init__ [[1; 2; 3]] 2 0 None
         ChronosFineTuningDataset.validation) 7.
Proof.
  intros H. apply (H 0%nat). reflexivity.
Qed.

(** ** Time budgets *)

Section DataLoader.

Import ChronosInferenceDataLoader.

Variable Batch : Type.
Variable fsub : Q -> Q -> Q.

Lemma timeout_callback_raises (seconds : option Q) (start_time now : Q) :
  timeout_callback fsub seconds start_time now = Raise TimeLimitExceeded
  <-> exists T, seconds = Some T /\ (T < fsub now start_time)%Q.
Proof.
  unfold timeout_callback. destruct seconds as [T|].
  - destruct (Qlt_le_dec T (fsub now start_time)) as [Hlt | Hle]; split.
    + intros _. now exists T.
    + reflexivity.
    + discriminate.
    + intros (T' & HT & Hlt). injection HT as <-.
      exfalso. exact (Qlt_not_le _ _ Hlt Hle).
  - split; [discriminate|]. intros (T & HT & _). discriminate.
Qed.

Lemma timeout_callback_outcome (seconds : option Q) (start_time now : Q) :
  timeout_callback fsub seconds start_time now = Ok tt \/
  timeout_callback fsub seconds start_time now = Raise TimeLimitExceeded.
Proof.
  unfold timeout_callback. destruct seconds as [T|]; [|now left].
  destruct (Qlt_le_dec _ _); [now right | now left].
Qed.

Lemma iter_from_ordered (callback : Callback) (clock : nat -> Q)
  (items : list Batch) :
  forall k,
    callbacks_follow_yields (fst (iter_from callback clock k items)) = true /\
    exists rest,
      items = yielded (fst (iter_from callback clock k items)) ++ rest.
Proof.
  induction items as [|item rest IH]; intros k.
  - split; [reflexivity|]. now exists [].
  - simpl. destruct (callback (clock k)).
    + specialize (IH (S k)).
      destruct (iter_from callback clock (S k) rest) as [evs r]. simpl in *.
      destruct IH as [Hord (rest' & Hrest)]. split; [exact Hord|].
      exists rest'. now f_equal.
    + simpl. split; [reflexivity|]. now exists rest.
Qed.

Lemma iter_from_no_deadline (start_time : Q) (clock : nat -> Q)
  (items : list Batch) :
  forall k,
    snd (iter_from (timeout_callback fsub None start_time) clock k items)
      = Ok tt /\
    yielded
      (fst (iter_from (timeout_callback fsub None start_time) clock k items))
      = items.
Proof.
  induction items as [|item rest IH]; intros k; [now split|].
  simpl. specialize (IH (S k)).
  destruct (iter_from _ clock (S k) rest) as [evs r]. simpl in *.
  destruct IH as [-> ->]. now split.
Qed.

Lemma iter_from_all_pass (callback : Callback) (clock : nat -> Q)
  (items : list Batch) :
  forall k,
    (forall j, (j < length items)%nat -> callback (clock (k + j)%nat) = Ok tt) ->
    snd (iter_from callback clock k items) = Ok tt /\
    yielded (fst (iter_from callback clock k items)) = items.
Proof.
  induction items as [|item rest IH]; intros k Hpass; [now split|].
  simpl. pose proof (Hpass 0%nat ltac:(simpl; lia)) as H0.
  rewrite Nat.add_0_r in H0. rewrite H0.
  destruct (IH (S k)) as [Hr Hy].
  { intros j Hj. replace (S k + j)%nat with (k + S j)%nat by lia.
    apply Hpass. simpl. lia. }
  destruct (iter_from callback clock (S k) rest) as [evs r]. simpl in *.
  split; [exact Hr | now f_equal].
Qed.

Lemma iter_from_first_raise (callback : Callback) (clock : nat -> Q)
  (items : list Batch) :
  forall k n e,
    (n < length items)%nat ->
    (forall j, (j < n)%nat -> callback (clock (k + j)%nat) = Ok tt) ->
    callback (clock (k + n)%nat) = Raise e ->
    snd (iter_from callback clock k items) = Raise e /\
    yielded (fst (iter_from callback clock k items)) = firstn (S n) items.
Proof.
  induction items as [|item rest IH]; intros k n e Hn Hpass Hraise;
    [simpl in Hn; lia|].
  destruct n as [|n].
  - rewrite Nat.add_0_r in Hraise. simpl. rewrite Hraise. now split.
  - simpl iter_from. pose proof (Hpass 0%nat ltac:(lia)) as H0.
    rewrite Nat.add_0_r in H0. rewrite H0.
    destruct (IH (S k) n e) as [Hr Hy].
    + simpl in Hn. lia.
    + intros j Hj. replace (S k + j)%nat with (k + S j)%nat by lia.
      apply Hpass. lia.
    + now replace (S k + n)%nat with (k + S n)%nat by lia.
    + destruct (iter_from callback clock (S k) rest) as [evs r]. simpl in *.
      split; [exact Hr | now f_equal].
Qed.

(** C4: the callback is called only directly after a batch has been
    yielded, and the batches yielded are an initial segment of the batches
    of the underlying loader; the callback that the loader was given is the
    one called, at the clock reading of each call: the iteration ends with
    the exception of the first call that raises, after exactly the batches
    up to that call, and ends normally after every batch when no call
    raises; the callback of [timeout_callback] raises [TimeLimitExceeded]
    if and only if a time limit was given and the time elapsed since the
    callback was constructed, as the difference of the two clock readings
    that the code computes, exceeds it, and does nothing otherwise; with no
    time limit the iteration never raises and yields every batch; and with
    any time limit the first batch is yielded before the first check,
    however late the clock reads then. *)
Theorem loader_deadline_after_yield :
  (forall (batches : list Batch) (on_batch : option Callback) clock,
     let evs := fst (__iter__ (__init__ batches on_batch) clock) in
     callbacks_follow_yields evs = true /\
     exists rest, batches = yielded evs ++ rest) /\
  (forall (batches : list Batch) (on_batch : Callback) clock,
     let r := __iter__ (__init__ batches (Some on_batch)) clock in
     (forall n e,
        (n < length batches)%nat ->
        (forall j, (j < n)%nat -> on_batch (clock j) = Ok tt) ->
        on_batch (clock n) = Raise e ->
        snd r = Raise e /\ yielded (fst r) = firstn (S n) batches) /\
     ((forall j, (j < length batches)%nat -> on_batch (clock j) = Ok tt) ->
      snd r = Ok tt /\ yielded (fst r) = batches)) /\
  (forall seconds start_time now,
     (timeout_callback fsub seconds start_time now = Raise TimeLimitExceeded
      <-> exists T, seconds = Some T /\ (T < fsub now start_time)%Q) /\
     (timeout_callback fsub seconds start_time now = Ok tt \/
      timeout_callback fsub seconds start_time now
      = Raise TimeLimitExceeded)) /\
  (forall (batches : list Batch) start_time clock,
     let self :=
       __init__ batches (Some (timeout_callback fsub None start_time)) in
     snd (__iter__ self clock) = Ok tt /\
     yielded (fst (__iter__ self clock)) = batches) /\
  (forall (first : Batch) (others : list Batch) T start_time clock,
     let self :=
       __init__ (first :: others)
         (Some (timeout_callback fsub (Some T) start_time)) in
     exists evs,
       fst (__iter__ self clock)
       = Yielded first :: Called Batch (clock 0%nat) :: evs).
Proof.
  split; [|split; [|split; [|split]]].
  - intros batches on_batch clock. apply iter_from_ordered.
  - intros batches on_batch clock r. subst r. unfold __iter__, __init__.
    cbn [ChronosInferenceDataLoader.callback
         ChronosInferenceDataLoader.batches].
    split.
    + intros n e Hn Hpass Hraise. now apply iter_from_first_raise.
    + intros Hpass. now apply iter_from_all_pass.
  - intros seconds start_time now. split.
    + apply timeout_callback_raises.
    + apply timeout_callback_outcome.
  - intros batches start_time clock. apply iter_from_no_deadline.
  - intros first others T start_time clock.
    unfold __iter__, __init__. cbn [callback batches iter_from].
    destruct (timeout_callback fsub (Some T) start_time (clock 0%nat)).
    + destruct (iter_from _ clock 1 others) as [evs r]. now exists evs.
    + now exists [].
Qed.

End DataLoader.

(** A first batch that alone takes longer than the limit is still yielded. *)
Example loader_slow_first_batch :
  ChronosInferenceDataLoader.__iter__
    (ChronosInferenceDataLoader.__init__ [1; 2; 3]
       (Some (timeout_callback Qminus (Some 5%Q) 0%Q)))
    (fun _ => 100%Q)
  = ([ChronosInferenceDataLoader.Yielded 1;
      ChronosInferenceDataLoader.Called Z 100%Q],
     Raise TimeLimitExceeded).
Proof. reflexivity. Qed.

Lemma loader_deadline_after_yield_witness :
  let r :=
    ChronosInferenceDataLoader.__iter__
      (ChronosInferenceDataLoader.__init__ [1; 2; 3]
         (Some (timeout_callback Qminus (Some 5%Q) 0%Q)))
      (fun k : nat => inject_Z (6 * Z.of_nat k)) in
  snd r = Raise TimeLimitExceeded /\
  ChronosInferenceDataLoader.yielded (fst r) = [1; 2].
Proof.
  intros r.
  apply (proj1 (proj1 (proj2 (loader_deadline_after_yield Z Qminus))
                  [1; 2; 3] (timeout_callback Qminus (Some 5%Q) 0%Q)
                  (fun k : nat => inject_Z (6 * Z.of_nat k))) 1%nat).
  - simpl. lia.
  - intros j Hj. destruct j as [|j]; [reflexivity | lia].
  - reflexivity.
Defined.

(** C8: the callback keeps the time limit it was constructed with;
    [on_train_begin] records the start time, and after it [on_step_end]
    never raises; it requests the stop of the training and logs its
    warning if and only if the time elapsed since the start, as the
    difference of the two clock readings that the code computes, has
    reached the time limit, and otherwise leaves the control object as it
    was. *)
Theorem time_limit_callback_soft_stop (fsub : Q -> Q -> Q)
  (time_limit begin now : Q) (control : TrainerControl) :
  let self := TimeLimitCallback.__init__ time_limit in
  let self' := TimeLimitCallback.on_train_begin self begin in
  TimeLimitCallback.time_limit self = time_limit /\
  TimeLimitCallback.start_time self = None /\
  TimeLimitCallback.start_time self' = Some begin /\
  TimeLimitCallback.time_limit self' = time_limit /\
  exists control' log,
    TimeLimitCallback.on_step_end fsub self' now control
      = Ok (control', log) /\
    (log = [warning_time_limit_exceeded time_limit]
     <-> (time_limit <= fsub now begin)%Q) /\
    (log = [] <-> ~ (time_limit <= fsub now begin)%Q) /\
    (should_training_stop control' = true
     <-> (time_limit <= fsub now begin)%Q
         \/ should_training_stop control = true) /\
    (~ (time_limit <= fsub now begin)%Q -> control' = control) /\
    should_log control' = should_log control /\
    should_evaluate control' = should_evaluate control /\
    should_save control' = should_save control.
Proof.
  intros self self'. do 4 (split; [reflexivity|]).
  unfold TimeLimitCallback.on_step_end. subst self' self. simpl.
  destruct (Qle_bool time_limit (fsub now begin)) eqn:E.
  - apply Qle_bool_iff in E. eexists _, _. split; [reflexivity|].
    simpl. repeat split; auto; try discriminate; try contradiction.
  - assert (Hn : ~ (time_limit <= fsub now begin)%Q)
      by (intros H; apply Qle_bool_iff in H; congruence).
    exists control, []. split; [reflexivity|].
    repeat split; auto; try discriminate; try contradiction.
    intros [H | H]; [contradiction | exact H].
Qed.

Lemma time_limit_callback_soft_stop_witness :
  exists control' log,
    TimeLimitCallback.on_step_end Qminus
      (TimeLimitCallback.on_train_begin (TimeLimitCallback.__init__ 60%Q) 10%Q)
      70%Q (mkControl false false false false) = Ok (control', log) /\
    should_training_stop control' = true.
Proof.
  destruct (time_limit_callback_soft_stop Qminus 60%Q
              10%Q 70%Q (mkControl false false false false))
    as (_ & _ & _ & _ & control' & log & Hstep & _ & _ & Hstop & _).
  exists control', log. split; [exact Hstep|].
  apply Hstop. left. vm_compute. discriminate.
Defined.

(** Before [on_train_begin] there is no start time to subtract. *)
Example on_step_end_before_begin :
  TimeLimitCallback.on_step_end Qminus (TimeLimitCallback.__init__ 60%Q) 70%Q
    (mkControl false false false false) = Raise TypeError.
Proof. reflexivity. Qed.

(** ** [ChronosModel]: the context length is capped *)

Lemma fold_left_max_longest (r : list Z) (x : Z) :
  ChronosModel.longest (x :: r) (fold_left Z.max r x).
Proof.
  unfold ChronosModel.longest. revert x.
  induction r as [|y r IH]; intros x.
  - simpl. split; [now left|]. intros z [<- | []]. lia.
  - simpl fold_left. destruct (IH (Z.max x y)) as [Hin Hmax]. split.
    + destruct Hin as [Heq | Hin]; [|now right; right].
      rewrite <- Heq.
      destruct (Z.max_spec x y) as [[_ ->] | [_ ->]];
        [right; now left | now left].
    + pose proof (Hmax (Z.max x y) (or_introl eq_refl)) as Hxy.
      intros z [Hz | [Hz | Hz]]; [lia | lia |].
      apply Hmax. now right.
Qed.

Lemma longest_unique (l : list Z) (m m' : Z) :
  ChronosModel.longest l m -> ChronosModel.longest l m' -> m = m'.
Proof.
  intros [Hin Hmax] [Hin' Hmax'].
  specialize (Hmax _ Hin'). specialize (Hmax' _ Hin). lia.
Qed.

(** C9: a configured context length above 2048 is reduced to 2048 when the
    model is constructed, a smaller one is kept; the context length used
    never exceeds 2048; and when none is configured it is the minimum of
    the longest series length in the data and 2048. *)
Theorem context_length_capped (hyperparameters_context_length : option Z)
  (num_timesteps_per_item : list Z) :
  let self := fst (ChronosModel.__init__ hyperparameters_context_length) in
  (forall c, ChronosModel.context_length self = Some c -> c <= 2048) /\
  (forall c, hyperparameters_context_length = Some c ->
     ChronosModel.context_length self = Some (Z.min c 2048)) /\
  (forall c,
     ChronosModel._get_context_length self num_timesteps_per_item = Some c ->
     c <= 2048) /\
  (forall m, hyperparameters_context_length = None ->
     ChronosModel.longest num_timesteps_per_item m ->
     ChronosModel._get_context_length self num_timesteps_per_item
       = Some (Z.min m 2048)).
Proof.
  intros self.
  assert (Hcap : forall c, ChronosModel.context_length self = Some c ->
                           c <= 2048).
  { subst self. unfold ChronosModel.__init__, ChronosModel.maximum_context_length.
    destruct hyperparameters_context_length as [c0|]; [|discriminate].
    destruct (c0 >? 2048) eqn:E; simpl; intros c Hc; injection Hc as <-; lia. }
  assert (Hmin : forall c,
             ChronosModel.py_min
               (ChronosModel.max_num_timesteps num_timesteps_per_item)
               ChronosModel.maximum_context_length = Some c -> c <= 2048).
  { unfold ChronosModel.py_min, ChronosModel.maximum_context_length.
    destruct (ChronosModel.max_num_timesteps _) as [m|]; [|discriminate].
    intros c Hc. injection Hc as <-. destruct (2048 <? m) eqn:E; lia. }
  split; [exact Hcap|]. split; [|split].
  - intros c ->. subst self.
    unfold ChronosModel.__init__, ChronosModel.maximum_context_length.
    destruct (c >? 2048) eqn:E; simpl; f_equal; lia.
  - unfold ChronosModel._get_context_length.
    destruct (ChronosModel.context_length self) as [c0|] eqn:Hc0.
    + destruct (c0 =? 0); [exact Hmin|].
      intros c Hc. injection Hc as <-. now apply Hcap.
    + exact Hmin.
  - intros m -> Hm. subst self. unfold ChronosModel._get_context_length.
    simpl. destruct num_timesteps_per_item as [|x r].
    + destruct Hm as [[] _].
    + unfold ChronosModel.max_num_timesteps, ChronosModel.py_min,
        ChronosModel.maximum_context_length.
      rewrite (longest_unique Hm (fold_left_max_longest r x)).
      f_equal. destruct (2048 <? _) eqn:E; lia.
Qed.

Lemma context_length_capped_witness :
  ChronosModel.longest [30; 5000; 12] 5000 /\
  ChronosModel._get_context_length (fst (ChronosModel.__init__ None))
    [30; 5000; 12] = Some 2048.
Proof.
  assert (Hm : ChronosModel.longest [30; 5000; 12] 5000).
  { split; [right; left; reflexivity|].
    intros x [<- | [<- | [<- | []]]]; lia. }
  split; [exact Hm|].
  exact (proj2 (proj2 (proj2 (context_length_capped None [30; 5000; 12])))
           5000 eq_refl Hm).
Defined.

(** * Further properties of the code *)

(** ** [left_pad_and_stack_1D] *)

Section LeftPad.

Variable A : Type.
Variable nan : A.

(** The row that [left_pad_and_stack_1D] makes of a tensor. *)
Let row (max_len : Z) (c : list A) : list A :=
  repeat nan (Z.to_nat (max_len - Py.len c)) ++ c.

Lemma pad_each_rows (max_len : Z) (tensors : list (list A)) :
  forall padded,
    Forall (fun c => Py.len c <= max_len) tensors ->
    Torch.pad_each nan max_len tensors padded
    = inr (padded ++ map (row max_len) tensors).
Proof.
  induction tensors as [|c rest IH]; intros padded Hle.
  - simpl. now rewrite app_nil_r.
  - inversion Hle as [|? ? Hc Hrest]; subst. simpl. unfold Torch.full.
    destruct (max_len - Py.len c <? 0) eqn:E; [lia|].
    rewrite IH by assumption. now rewrite <- app_assoc.
Qed.

Lemma row_len (max_len : Z) (c : list A) :
  Py.len c <= max_len -> Py.len (row max_len c) = max_len.
Proof.
  intros H. unfold row. rewrite len_app. unfold Py.len in *.
  rewrite repeat_length. lia.
Qed.

Lemma stack_same_len (max_len : Z) (rows : list (list A)) :
  rows <> [] ->
  Forall (fun r => Py.len r = max_len) rows ->
  Torch.stack rows = inr rows.
Proof.
  intros Hne Hall. destruct rows as [|r rest]; [congruence|].
  inversion Hall as [|? ? Hr Hrest]; subst. unfold Torch.stack.
  replace (forallb _ rest) with true; [reflexivity|].
  symmetry. apply forallb_forall. intros r' Hin.
  rewrite Forall_forall in Hrest. apply Z.eqb_eq. now apply Hrest.
Qed.

Lemma left_pad_and_stack_nonempty (tensors : list (list A)) :
  tensors <> [] ->
  exists max_len,
    ChronosModel.longest (map (@Py.len A) tensors) max_len /\
    Torch.left_pad_and_stack_1D nan tensors
    = inr (map (row max_len) tensors).
Proof.
  intros Hne. destruct tensors as [|c rest]; [congruence|].
  pose proof (fold_left_max_longest (map (@Py.len A) rest) (Py.len c)) as Hm.
  exists (fold_left Z.max (map (@Py.len A) rest) (Py.len c)).
  split; [exact Hm|].
  unfold Torch.left_pad_and_stack_1D. cbn [map Torch.py_max].
  set (m := fold_left Z.max _ _) in *.
  assert (Hle : Forall (fun c0 => Py.len c0 <= m) (c :: rest)).
  { apply Forall_forall. intros c0 Hin. apply (proj2 Hm).
    now apply (in_map (@Py.len A)) in Hin. }
  rewrite (pad_each_rows _ Hle). cbn [app].
  apply stack_same_len with (max_len := m); [discriminate|].
  apply Forall_forall. intros r Hin.
  change (In r (map (row m) (c :: rest))) in Hin. apply in_map_iff in Hin.
  destruct Hin as (c0 & <- & Hin). apply row_len.
  rewrite Forall_forall in Hle. now apply Hle.
Qed.

(** X1: for a non-empty list of tensors, [left_pad_and_stack_1D] returns
    one row per tensor, in the order of the tensors; every row has the
    length of the longest tensor and is the tensor preceded by NaN
    padding. *)
Theorem left_pad_and_stack_rows (tensors : list (list A)) :
  tensors <> [] ->
  exists max_len rows,
    Torch.left_pad_and_stack_1D nan tensors = inr rows /\
    ChronosModel.longest (map (@Py.len A) tensors) max_len /\
    Forall2 (fun c r =>
               r = repeat nan (Z.to_nat (max_len - Py.len c)) ++ c /\
               Py.len r = max_len) tensors rows.
Proof.
  intros Hne.
  destruct (left_pad_and_stack_nonempty Hne) as (m & Hm & Heq).
  exists m, (map (row m) tensors). split; [exact Heq|]. split; [exact Hm|].
  assert (Hle : forall c, In c tensors -> Py.len c <= m).
  { intros c Hin. apply (proj2 Hm). now apply (in_map (@Py.len A)) in Hin. }
  clear Heq Hm Hne. induction tensors as [|c rest IH]; constructor.
  - split; [reflexivity|]. apply row_len. apply Hle. now left.
  - apply IH. intros c0 Hin. apply Hle. now right.
Qed.


End LeftPad.

Lemma left_pad_and_stack_rows_witness :
  [[Some 1; Some 2; Some 3]; [Some 4]] <> [] /\
  exists max_len rows,
    Torch.left_pad_and_stack_1D None [[Some 1; Some 2; Some 3]; [Some 4]]
    = inr rows /\
    ChronosModel.longest
      (map (@Py.len (option Z)) [[Some 1; Some 2; Some 3]; [Some 4]])
      max_len /\
    Forall2 (fun c r =>
               r = repeat None (Z.to_nat (max_len - Py.len c)) ++ c /\
               Py.len r = max_len)
      [[Some 1; Some 2; Some 3]; [Some 4]] rows.
Proof.
  split; [discriminate|].
  apply left_pad_and_stack_rows. discriminate.
Defined.

Example left_pad_and_stack_example :
  Torch.left_pad_and_stack_1D None [[Some 1; Some 2; Some 3]; [Some 4]]
  = inr [[Some 1; Some 2; Some 3]; [None; None; Some 4]].
Proof. reflexivity. Qed.

(** ** [ChronosInferenceDataset]: indices and repeated windowing *)

Lemma cumsum_from_length (l : list Z) :
  forall acc, length (Py.cumsum_from acc l) = length l.
Proof. induction l as [|x r IH]; intros acc; simpl; [|rewrite IH]; reflexivity. Qed.

Lemma getitem_in_range {A : Type} (a : list A) (i : Z) :
  - Py.len a <= i < Py.len a -> exists x, Py.getitem a i = Ok x.
Proof.
  intros Hi. unfold Py.getitem.
  set (j := if i <? 0 then i + Py.len a else i).
  assert (Hj : 0 <= j < Py.len a) by (subst j; destruct (i <? 0) eqn:E; lia).
  replace ((0 <=? j) && (j <? Py.len a)) with true
    by (symmetry; apply andb_true_iff; split; lia).
  destruct (nth_error a (Z.to_nat j)) as [x|] eqn:Hnth; [now exists x|].
  apply nth_error_None in Hnth. unfold Py.len in Hj. lia.
Qed.

Lemma getitem_out_of_range {A : Type} (a : list A) (i : Z) :
  i < - Py.len a \/ Py.len a <= i -> Py.getitem a i = Raise IndexError.
Proof.
  intros Hi. unfold Py.getitem.
  set (j := if i <? 0 then i + Py.len a else i).
  pose proof (len_nonneg a).
  assert (Hj : j < 0 \/ Py.len a <= j)
    by (subst j; destruct (i <? 0) eqn:E; lia).
  replace ((0 <=? j) && (j <? Py.len a)) with false; [reflexivity|].
  symmetry. apply andb_false_iff. destruct Hj; [left | right]; lia.
Qed.

Section InferenceIndices.

Import ChronosInferenceDataset.

Variable A : Type.
Variable nan : A.
Variable float32 : A -> A.

Lemma get_context_of_window (self : t A) (a : list A) :
  0 < context_length self ->
  Py.len a = context_length self ->
  _get_context self a nan = a.
Proof.
  intros HW Hlen. unfold _get_context, Py.slice, Py.slice_bound.
  destruct (- context_length self <? 0) eqn:E; [|lia].
  rewrite Hlen. replace (Z.max 0 (- context_length self + context_length self))
    with 0 by lia.
  simpl skipn. rewrite firstn_all2 by (unfold Py.len in Hlen; lia).
  rewrite Hlen. destruct (context_length self - context_length self >? 0) eqn:E2;
    [lia | reflexivity].
Qed.

(** X3: taking the context of a context changes nothing: [_get_context]
    is idempotent. *)
Theorem get_context_idempotent (self : t A) (a : list A) :
  0 < context_length self ->
  _get_context self (_get_context self a nan) nan = _get_context self a nan.
Proof.
  intros HW. apply get_context_of_window; [exact HW|].
  exact (proj1 (get_context_last_window nan self a HW)).
Qed.

Lemma init_fields (target_df : list (list A)) (W : Z) (self : t A) :
  __init__ float32 target_df W = Ok self ->
  0 < W /\
  self = {| context_length := W;
            target_array := to_numpy float32 target_df;
            indptr := map Py.astype_int32
                        (0 :: Py.cumsum (num_timesteps_per_item target_df)) |}.
Proof.
  unfold __init__. destruct (W >? 0) eqn:E; [|discriminate].
  destruct (freq target_df); [|discriminate].
  cbv beta iota delta [bind]. intros Hinit. injection Hinit as <-.
  split; [lia | reflexivity].
Qed.

Lemma init_indptr_len (target_df : list (list A)) (W : Z) (self : t A) :
  __init__ float32 target_df W = Ok self ->
  Py.len (indptr self) = Py.len target_df + 1 /\
  0 < context_length self /\
  nth_error (indptr self) 0 = Some 0.
Proof.
  intros Hinit. destruct (init_fields _ _ Hinit) as [HW ->].
  simpl. split; [|split; [lia|reflexivity]].
  unfold Py.len. simpl. rewrite length_map. unfold Py.cumsum.
  rewrite cumsum_from_length. unfold num_timesteps_per_item.
  rewrite length_map. lia.
Qed.

(** X4: a dataset of K series has length K, and [__getitem__] raises
    [IndexError] exactly for the indices outside [-(K+1) .. K-1]; for every
    other index it returns a window. *)
Theorem getitem_index_error_iff (target_df : list (list A)) (W : Z)
  (self : t A) (idx : Z) :
  __init__ float32 target_df W = Ok self ->
  let K := Py.len target_df in
  __len__ self = K /\
  (__getitem__ nan self idx = Raise IndexError
   <-> idx < - (K + 1) \/ K <= idx) /\
  ((exists out, __getitem__ nan self idx = Ok out)
   <-> - (K + 1) <= idx < K).
Proof.
  intros Hinit K. destruct (init_indptr_len _ _ Hinit) as (Hlen & _ & _).
  fold K in Hlen. split; [unfold __len__; lia|].
  assert (HK : 0 <= K) by apply len_nonneg.
  unfold __getitem__.
  assert (Hcases : idx < - (K + 1) \/ - (K + 1) <= idx < K \/ idx = K
                   \/ K < idx) by lia.
  destruct Hcases as [Hc | [Hc | [Hc | Hc]]].
  - rewrite getitem_out_of_range by lia. simpl.
    split; split; intros H; try lia; try reflexivity.
    destruct H as [out H]. discriminate H.
  - destruct (@getitem_in_range _ (indptr self) idx) as [s Hs]; [lia|].
    destruct (@getitem_in_range _ (indptr self) (idx + 1)) as [e He]; [lia|].
    rewrite Hs, He. simpl.
    split; split; intros H; try lia; try discriminate H.
    eexists. reflexivity.
  - destruct (@getitem_in_range _ (indptr self) idx) as [s Hs]; [lia|].
    rewrite Hs, getitem_out_of_range by lia. simpl.
    split; split; intros H; try lia; try reflexivity.
    destruct H as [out H]. discriminate H.
  - rewrite getitem_out_of_range by lia. simpl.
    split; split; intros H; try lia; try reflexivity.
    destruct H as [out H]. discriminate H.
Qed.

(** X5: index [-1] does not address the last series: the offsets read are
    the last and the first one, the slice between them is empty, and the
    window returned is padding only. *)
Theorem getitem_minus_one_is_padding (target_df : list (list A)) (W : Z)
  (self : t A) :
  __init__ float32 target_df W = Ok self ->
  __getitem__ nan self (-1) = Ok (repeat nan (Z.to_nat W)).
Proof.
  intros Hinit. destruct (init_indptr_len _ _ Hinit) as (Hlen & HW & H0).
  pose proof (len_nonneg target_df) as HK.
  assert (HWeq : context_length self = W)
    by (destruct (init_fields _ _ Hinit) as [_ ->]; reflexivity).
  unfold __getitem__.
  destruct (@getitem_in_range _ (indptr self) (-1)) as [v Hv]; [lia|].
  rewrite Hv. change (-1 + 1) with (Z.of_nat 0).
  rewrite (getitem_nat _ _ H0). simpl.
  assert (Hempty : Py.slice (target_array self) (Some v) (Some 0) = []).
  { unfold Py.slice. pose proof (len_nonneg (target_array self)) as Hn.
    set (n := Py.len (target_array self)) in *.
    assert (Hlo : 0 <= Py.slice_bound n v)
      by (unfold Py.slice_bound; destruct (v <? 0) eqn:E; lia).
    assert (Hhi : Py.slice_bound n 0 = 0)
      by (unfold Py.slice_bound; change (0 <? 0) with false; lia).
    rewrite Hhi.
    replace (Z.to_nat (0 - Py.slice_bound n v)) with 0%nat by lia.
    reflexivity. }
  rewrite Hempty. unfold _get_context.
  assert (Hnil : Py.slice (@nil A) (Some (- context_length self)) None = [])
    by (unfold Py.slice; now rewrite skipn_nil, firstn_nil).
  rewrite Hnil. change (Py.len (@nil A)) with 0.
  rewrite HWeq. destruct (W - 0 >? 0) eqn:E; [|lia].
  rewrite app_nil_r. do 2 f_equal. lia.
Qed.

End InferenceIndices.

Lemma get_context_idempotent_witness :
  let self := ChronosInferenceDataset.mk 5 [1; 2; 3] [0; 3] in
  0 < ChronosInferenceDataset.context_length self /\
  ChronosInferenceDataset._get_context self
    (ChronosInferenceDataset._get_context self [1; 2; 3] 0) 0
  = ChronosInferenceDataset._get_context self [1; 2; 3] 0.
Proof.
  intros self. split; [reflexivity|].
  apply get_context_idempotent. reflexivity.
Defined.

Lemma getitem_index_error_iff_witness :
  exists self,
    ChronosInferenceDataset.__init__ (fun x => x) [[1; 2; 3]; [4; 5]] 2
      = Ok self /\
    ChronosInferenceDataset.__len__ self = 2 /\
    ChronosInferenceDataset.__getitem__ 0 self 2 = Raise IndexError.
Proof.
  eexists. split; [reflexivity|].
  destruct (@getitem_index_error_iff Z 0 (fun x => x) [[1; 2; 3]; [4; 5]] 2 _ 2
              eq_refl)
    as (Hlen & Herr & _).
  split; [exact Hlen|]. apply Herr. right. reflexivity.
Defined.

Lemma getitem_minus_one_is_padding_witness :
  exists self,
    ChronosInferenceDataset.__init__ (fun x => x) [[1; 2; 3]; [4; 5]] 2
      = Ok self /\
    ChronosInferenceDataset.__getitem__ 0 self (-1) = Ok [0; 0].
Proof.
  eexists. split; [reflexivity|].
  exact (@getitem_minus_one_is_padding Z 0 (fun x => x) [[1; 2; 3]; [4; 5]] 2 _
           eq_refl).
Defined.

(** ** [PseudoShuffledIterableDataset]: streaming *)

Section PseudoShuffleStream.

Import PseudoShuffledIterableDataset.

Variable G : Type.
Variable randint : G -> Z -> Z * G.
Variable A : Type.

(** The [for] loop over a concatenated input is the loop over the first
    part, continued on the second part with the buffer and generator it
    left. *)
Lemma for_loop_app (size : Z) (xs ys : list A) :
  forall buf g,
    for_loop randint size (xs ++ ys) buf g
    = let (out1, r) := for_loop randint size xs buf g in
      match r with
      | Ok (buf1, g1) =>
          let (out2, r2) := for_loop randint size ys buf1 g1 in
          (out1 ++ out2, r2)
      | Raise e => (out1, Raise e)
      end.
Proof.
  induction xs as [|x xs IH]; intros buf g.
  - simpl. now destruct (for_loop randint size ys buf g).
  - simpl. destruct (Py.len (buf ++ [x]) >=? size).
    + destruct (randint g (Py.len (buf ++ [x]))) as [idx g1].
      destruct (Py.pop (buf ++ [x]) idx) as [[y buf1]|e]; [|reflexivity].
      rewrite IH. destruct (for_loop randint size xs buf1 g1) as [out1 [[b g2]|e]];
        [|reflexivity].
      now destruct (for_loop randint size ys b g2).
    + apply IH.
Qed.

Hypothesis randint_range :
  forall g high, 0 < high -> 0 <= fst (randint g high) < high.

(** Between two reads the buffer holds at most [size - 1] elements: the
    [for] loop leaves [min (|buf| + |elements|) (max (size - 1) 0)]
    elements in it and has yielded the others. *)
Lemma for_loop_buffer (size : Z) (elements : list A) :
  forall buf g,
    Py.len buf <= Z.max (size - 1) 0 ->
    exists out buf' g',
      for_loop randint size elements buf g = (out, Ok (buf', g')) /\
      Permutation (buf ++ elements) (out ++ buf') /\
      Py.len buf' = Z.min (Py.len buf + Py.len elements) (Z.max (size - 1) 0).
Proof.
  induction elements as [|x rest IH]; intros buf g Hcap.
  - exists [], buf, g. split; [reflexivity|]. split; [now rewrite app_nil_r|].
    unfold Py.len in *. simpl. lia.
  - simpl for_loop. destruct (Py.len (buf ++ [x]) >=? size) eqn:Hfull.
    + destruct (@pop_randint G randint randint_range A (buf ++ [x]) g)
        as (y & buf1 & Hpop & Hperm & Hlen); [now destruct buf|].
      destruct (randint g (Py.len (buf ++ [x]))) as [idx g1] eqn:Hr.
      simpl fst in Hpop. rewrite Hpop.
      assert (Hb1 : Py.len buf1 = Py.len buf)
        by (unfold Py.len in *; rewrite length_app in Hlen; simpl in Hlen; lia).
      destruct (IH buf1 g1) as (out & buf' & g' & Hf & Hp & Hl); [lia|].
      rewrite Hf. exists (y :: out), buf', g'. split; [reflexivity|]. split.
      * replace (buf ++ x :: rest) with ((buf ++ [x]) ++ rest)
          by now rewrite <- app_assoc.
        rewrite Hperm. simpl. now apply perm_skip.
      * rewrite Hl, Hb1. rewrite len_app in Hfull. apply Z.geb_le in Hfull.
        unfold Py.len in *. simpl length in *. lia.
    + rewrite len_app, Z.geb_leb in Hfull. apply Z.leb_gt in Hfull.
      change (Py.len [x]) with 1 in Hfull.
      destruct (IH (buf ++ [x]) g) as (out & buf' & g' & Hf & Hp & Hl).
      { rewrite len_app. change (Py.len [x]) with 1. lia. }
      exists out, buf', g'. split; [exact Hf|]. split.
      * now rewrite <- Hp, <- app_assoc.
      * rewrite Hl, len_app. change (Py.len [x]) with 1.
        unfold Py.len. simpl length. lia.
Qed.

Variable D : Type.
Variable iter_base : D -> list A.

(** X6: the shuffle is a stream transformer with a bounded delay.  When
    the base dataset yields [xs] followed by [ys], the elements yielded
    begin with a segment [out1] produced while only [xs] had been read: its
    elements are elements of [xs] (with the buffered ones they are a
    permutation of [xs]), and it lacks exactly the
    [min |xs| (max (size - 1) 0)] elements that the buffer still holds. *)
Theorem shuffle_bounded_delay (self : t G D) (xs ys : list A) :
  iter_base (base_dataset self) = xs ++ ys ->
  exists out1 out2 buf g',
    __iter__ randint iter_base self = (out1 ++ out2, Ok g') /\
    Permutation xs (out1 ++ buf) /\
    Py.len buf = Z.min (Py.len xs) (Z.max (shuffle_buffer_size self - 1) 0) /\
    Py.len out1 = Py.len xs - Py.len buf.
Proof.
  intros Hbase. unfold __iter__. rewrite Hbase, for_loop_app.
  destruct (@for_loop_buffer (shuffle_buffer_size self) xs [] (generator self))
    as (out1 & buf & g1 & Hf1 & Hp1 & Hl1);
    [unfold Py.len; simpl; lia|].
  rewrite Hf1.
  destruct (@for_loop_keeps G randint randint_range A
              (shuffle_buffer_size self) ys buf g1)
    as (out2 & buf2 & g2 & Hf2 & _).
  rewrite Hf2.
  destruct (@while_loop_drains G randint randint_range A _ buf2 g2 eq_refl)
    as (out3 & g3 & Hw & _).
  rewrite Hw. exists out1, (out2 ++ out3), buf, g3.
  split; [now rewrite app_assoc|]. split; [exact Hp1|].
  change (Py.len (@nil A)) with 0 in Hl1. split; [rewrite Hl1; f_equal|].
  apply Permutation_length in Hp1. simpl in Hp1.
  rewrite length_app in Hp1. unfold Py.len. lia.
Qed.

(** With a buffer size of at most 1 the [for] loop yields every element as
    soon as it is read. *)
Lemma for_loop_size_le_one (size : Z) (elements : list A) :
  size <= 1 ->
  forall g, exists g',
    for_loop randint size elements [] g = (elements, Ok ([], g')).
Proof.
  intros Hsize. induction elements as [|element rest IH]; intros g.
  - now exists g.
  - simpl for_loop. change (Py.len [element]) with 1.
    destruct (1 >=? size) eqn:E; [|lia].
    pose proof (@randint_range g 1 eq_refl) as Hidx.
    destruct (randint g 1) as [idx g1]. simpl fst in Hidx.
    replace idx with 0 by lia.
    change (Py.pop [element] 0) with (Ok (element, @nil A)). cbv iota beta.
    destruct (IH g1) as (g' & Hf). rewrite Hf. now exists g'.
Qed.

(** X7: a shuffling wrapper constructed with a buffer size of at most 1
    (zero and negative sizes included, which [shuffle] never passes on)
    yields the elements of the base dataset in their order. *)
Theorem shuffle_wrapper_small_buffer_identity (self : t G D) :
  shuffle_buffer_size self <= 1 ->
  exists g',
    __iter__ randint iter_base self = (iter_base (base_dataset self), Ok g').
Proof.
  intros Hsize. unfold __iter__.
  destruct (for_loop_size_le_one (iter_base (base_dataset self)) Hsize
              (generator self)) as (g' & Hf).
  rewrite Hf, while_loop_equation_1. exists g'. now rewrite app_nil_r.
Qed.

End PseudoShuffleStream.

Lemma shuffle_bounded_delay_witness :
  let self :=
    PseudoShuffledIterableDataset.__init__ 42 [1; 2; 3; 4; 5; 6; 7] 3 in
  exists out1 out2 buf g',
    PseudoShuffledIterableDataset.__iter__ lcg_randint (fun d => d) self
    = (out1 ++ out2, Ok g') /\
    Permutation [1; 2; 3; 4] (out1 ++ buf) /\
    Py.len buf = 2 /\
    Py.len out1 = 2.
Proof.
  intros self.
  destruct (@shuffle_bounded_delay Z lcg_randint Z lcg_randint_range (list Z)
              (fun d => d) self [1; 2; 3; 4] [5; 6; 7] eq_refl)
    as (out1 & out2 & buf & g' & Hit & Hperm & Hbuf & Hout).
  exists out1, out2, buf, g'.
  split; [exact Hit|]. split; [exact Hperm|]. split; [exact Hbuf|].
  rewrite Hout, Hbuf. reflexivity.
Defined.

Lemma shuffle_wrapper_small_buffer_identity_witness :
  let self :=
    PseudoShuffledIterableDataset.__init__ 42 [1; 2; 3; 4; 5; 6; 7] 0 in
  PseudoShuffledIterableDataset.shuffle_buffer_size self <= 1 /\
  exists g',
    PseudoShuffledIterableDataset.__iter__ lcg_randint (fun d => d) self
    = ([1; 2; 3; 4; 5; 6; 7], Ok g').
Proof.
  intros self. split; [simpl; lia|].
  apply (@shuffle_wrapper_small_buffer_identity Z lcg_randint Z
           lcg_randint_range (list Z) (fun d => d) self).
  simpl. lia.
Defined.

(** ** [ChronosFineTuningDataset]: the shape of the windows *)

Section Windows.

Variable A : Type.

Import GluonTS.

(** The context cut at a split point is the window that the inference
    dataset takes of the history before that point. *)
Lemma split_at_past (sp : InstanceSplitter A) (ts : list A) (i : Z)
  (self : ChronosInferenceDataset.t A) :
  ChronosInferenceDataset.context_length self = past_length sp ->
  0 < past_length sp ->
  0 <= i <= Py.len ts ->
  past_target (split_at sp ts i)
  = ChronosInferenceDataset._get_context self (firstn (Z.to_nat i) ts)
      (dummy_value sp).
Proof.
  intros Hself HW Hi. set (W := past_length sp) in *.
  set (h := firstn (Z.to_nat i) ts).
  assert (Hh : Py.len h = i)
    by (subst h; unfold Py.len in *; rewrite length_firstn; lia).
  unfold ChronosInferenceDataset._get_context. rewrite Hself.
  unfold split_at. fold W. cbn [past_target].
  assert (Hslice : Py.slice h (Some (- W)) None
                   = skipn (Z.to_nat (i - Z.min i W)) h).
  { unfold Py.slice, Py.slice_bound. rewrite Hh.
    destruct (- W <? 0) eqn:E; [|lia].
    replace (Z.max 0 (- W + i)) with (i - Z.min i W) by lia.
    apply firstn_all2. rewrite length_skipn. unfold Py.len in Hh. lia. }
  rewrite Hslice.
  assert (Hlen : Py.len (skipn (Z.to_nat (i - Z.min i W)) h) = Z.min i W)
    by (unfold Py.len in *; rewrite length_skipn; lia).
  rewrite Hlen.
  assert (Hprefix : Py.slice ts None (Some i) = h).
  { unfold Py.slice, Py.slice_bound. destruct (i <? 0) eqn:E; [lia|].
    rewrite Z.min_l by lia. now rewrite Z.sub_0_r. }
  destruct (i >? W) eqn:Hgt.
  - rewrite Z.min_r by lia. destruct (W - W >? 0) eqn:E; [lia|].
    rewrite slice_within by lia. unfold h.
    replace (Z.to_nat i) with (Z.to_nat (i - W) + Z.to_nat (i - (i - W)))%nat
      by lia.
    now rewrite firstn_skipn_comm.
  - destruct (i <? W) eqn:Hlt.
    + rewrite Z.min_l by lia. destruct (W - i >? 0) eqn:E; [|lia].
      rewrite Hprefix. replace (i - i) with 0 by lia. simpl skipn.
      now replace (Z.max (W - i) 0) with (W - i) by lia.
    + rewrite Z.min_l by lia. destruct (W - i >? 0) eqn:E; [lia|].
      rewrite Hprefix. now replace (i - i) with 0 by lia.
Qed.

(** The future cut at a split point that leaves [future_length]
    observations is exactly these observations. *)
Lemma split_at_future (sp : InstanceSplitter A) (ts : list A) (i : Z) :
  0 <= future_length sp ->
  0 <= i <= Py.len ts - future_length sp ->
  future_target (split_at sp ts i)
  = firstn (Z.to_nat (future_length sp)) (skipn (Z.to_nat i) ts) /\
  Py.len (future_target (split_at sp ts i)) = future_length sp.
Proof.
  intros Hpl Hi. unfold split_at. cbn [future_target].
  rewrite slice_within by lia.
  replace (i + future_length sp - i) with (future_length sp) by lia.
  split; [reflexivity|].
  unfold Py.len in *. rewrite length_firstn, length_skipn. lia.
Qed.

Variable R : Type.
Variable random_where : R -> Z -> Q -> list Z * R.

(** [numpy.where] lists positions of the sampled array. *)
Hypothesis random_where_range :
  forall rng window_size p i,
    0 < window_size ->
    In i (fst (random_where rng window_size p)) -> 0 <= i < window_size.

(** Every sampled split point leaves [min_future] observations after it. *)
Lemma sample_bounds (s : InstanceSampler) (rng : R) (ts : list A) (i : Z) :
  In i (fst (fst (sample random_where s rng ts))) ->
  0 <= i <= Py.len ts - min_future_of s.
Proof.
  unfold sample, _get_bounds.
  destruct s as [num m total n | m]; simpl min_future_of.
  - destruct (Py.len ts - m - 0 + 1 <=? 0) eqn:E; [intros []|].
    destruct (Qle_bool _ _); [intros []|].
    pose proof (@random_where_range rng (Py.len ts - m - 0 + 1)
                  (num / (inject_Z (total + (Py.len ts - m - 0 + 1))
                          / inject_Z (n + 1)))) as Hr.
    destruct (random_where _ _ _) as [indices rng']. simpl in *.
    intros Hin. apply in_map_iff in Hin. destruct Hin as (j & <- & Hj).
    assert (Hpos : 0 < Py.len ts - m - 0 + 1) by lia.
    specialize (Hr j Hpos Hj). lia.
  - destruct (0 <=? Py.len ts - m) eqn:E; simpl; [|intros []].
    intros [<- | []]. lia.
Qed.

Lemma flatmap_transform_fields (sp : InstanceSplitter A) (rng : R)
  (data : DataEntry A) :
  let sp' := snd (fst (flatmap_transform random_where sp rng data)) in
  past_length sp' = past_length sp /\
  future_length sp' = future_length sp /\
  dummy_value sp' = dummy_value sp.
Proof.
  unfold flatmap_transform.
  destruct (sample _ _ _ _) as [[indices s] rng']. now simpl.
Qed.

(** Every instance of the stream is cut from its entry at a split point
    that leaves [min_future] observations after it. *)
Lemma apply_trace_split_points (data : list (DataEntry A)) :
  forall sp rng entry instances w,
    In (entry, instances) (fst (apply_trace random_where sp rng data)) ->
    In w instances ->
    exists i,
      0 <= i <= Py.len (target entry) - min_future_of (instance_sampler sp) /\
      past_target w = past_target (split_at sp (target entry) i) /\
      future_target w = future_target (split_at sp (target entry) i).
Proof.
  induction data as [|e rest IH]; intros sp rng entry instances w Hin Hw;
    [contradiction|].
  simpl in Hin.
  pose proof (flatmap_transform_keeps random_where sp rng e) as Hkeep.
  pose proof (flatmap_transform_fields sp rng e) as Hfields.
  assert (Hhere : forall w0,
             In w0 (fst (fst (flatmap_transform random_where sp rng e))) ->
             exists i,
               0 <= i <= Py.len (target e) - min_future_of (instance_sampler sp) /\
               w0 = split_at sp (target e) i).
  { unfold flatmap_transform. intros w0.
    pose proof (@sample_bounds (instance_sampler sp) rng (target e)) as Hb.
    destruct (sample _ _ _ _) as [[indices s] rng']. simpl in *.
    intros Hw0. apply in_map_iff in Hw0. destruct Hw0 as (i & <- & Hi).
    exists i. split; [now apply Hb | reflexivity]. }
  destruct (flatmap_transform _ _ _ _) as [[ws sp'] rng'].
  simpl in Hkeep, Hfields, Hhere.
  specialize (IH sp' rng' entry instances w).
  destruct (apply_trace _ _ _ _) as [tr rng'']. simpl in Hin, IH.
  destruct Hin as [Heq | Hin].
  - injection Heq as -> ->. destruct (Hhere w Hw) as (i & Hi & ->).
    exists i. now repeat split.
  - destruct (IH Hin Hw) as (i & Hi & Hp & Hf).
    exists i. rewrite Hkeep in Hi. split; [exact Hi|].
    destruct Hfields as (H1 & H2 & H3).
    unfold split_at in *. rewrite H1, H2, H3 in *. now split.
Qed.

(** A series too short for the sampler leaves the splitter and the random
    state untouched. *)
Lemma flatmap_transform_short_unchanged (sp : InstanceSplitter A) (rng : R)
  (data : DataEntry A) :
  Py.len (target data) < min_future_of (instance_sampler sp) ->
  flatmap_transform random_where sp rng data = ([], sp, rng).
Proof.
  intros Hshort. unfold flatmap_transform, sample, _get_bounds.
  destruct sp as [s W pl d]. simpl in *.
  destruct s as [num m total n | m]; simpl in *.
  - destruct (Py.len (target data) - m - 0 + 1 <=? 0) eqn:E;
      [reflexivity | lia].
  - destruct (0 <=? Py.len (target data) - m) eqn:E; [lia | reflexivity].
Qed.

Lemma apply_filter_short (data : list (DataEntry A)) :
  forall sp rng,
    apply random_where sp rng data
    = apply random_where sp rng
        (filter (fun e => min_future_of (instance_sampler sp)
                          <=? Py.len (target e)) data).
Proof.
  unfold apply.
  induction data as [|e rest IH]; intros sp rng; [reflexivity|].
  cbn [filter].
  destruct (min_future_of (instance_sampler sp) <=? Py.len (target e)) eqn:E.
  - cbn [apply_trace].
    pose proof (flatmap_transform_keeps random_where sp rng e) as Hkeep.
    destruct (flatmap_transform _ _ _ _) as [[ws sp'] rng'].
    simpl in Hkeep. specialize (IH sp' rng'). rewrite Hkeep in IH.
    destruct (apply_trace random_where sp' rng' rest) as [tr1 r1].
    destruct (apply_trace random_where sp' rng' (filter _ rest)) as [tr2 r2].
    injection IH as H1 H2. simpl. now rewrite H1, H2.
  - cbn [apply_trace].
    rewrite flatmap_transform_short_unchanged by lia.
    specialize (IH sp rng).
    destruct (apply_trace random_where sp rng rest) as [tr1 r1].
    destruct (apply_trace random_where sp rng (filter _ rest)) as [tr2 r2].
    simpl in *. exact IH.
Qed.

Lemma for_each_prefix (B : Type) (body : Instance A -> result B)
  (instances : list (Instance A)) :
  exists pre post,
    instances = pre ++ post /\
    Forall2 (fun w item => body w = Ok item) pre
      (fst (for_each body instances)) /\
    (snd (for_each body instances) = Ok tt -> post = []).
Proof.
  induction instances as [|w ws IH].
  - exists [], []. repeat split. constructor.
  - cbn [for_each]. destruct (body w) as [item|e] eqn:Hw.
    + destruct IH as (pre & post & -> & Hpre & Hpost).
      destruct (for_each body (pre ++ post)) as [out r]. simpl in *.
      exists (w :: pre), post. repeat split; [|exact Hpost].
      now constructor.
    + exists [], (w :: ws). simpl. repeat split; [constructor | discriminate].
Qed.

(** What a consumer is given of the stream is an initial part of the
    instances that the splitter cuts: the checks of the library only stop
    the stream. *)
Lemma call_yields_prefix (B : Type) (body : Instance A -> result B)
  (data : list (DataEntry A)) :
  forall sp rng n,
    exists instances rest,
      fst (apply random_where sp rng data) = instances ++ rest /\
      Forall2 (fun w item => body w = Ok item) instances
        (fst (fst (__call__ random_where body sp rng n data))).
Proof.
  induction data as [|e others IH]; intros sp rng n.
  - exists [], []. split; [reflexivity | constructor].
  - unfold apply. cbn [apply_trace __call__].
    unfold flatmap_transform_checked.
    destruct (flatmap_transform random_where sp rng e) as [[ws sp'] rng'].
    specialize (IH sp' rng'). unfold apply in IH.
    destruct (apply_trace random_where sp' rng' others) as [tr rng''].
    cbn [fst snd map concat] in *.
    destruct ws as [|w ws].
    + cbn [for_each].
      destruct (n + 1 >? max_idle_transforms).
      * exists [], (concat (map snd tr)). split; [reflexivity | constructor].
      * destruct (IH (n + 1)) as (instances & rest & Heq & Hall).
        destruct (__call__ random_where body sp' rng' (n + 1) others)
          as [[out r] rng3]. simpl in *.
        exists instances, rest. now split.
    + destruct (past_length sp <? 0).
      * exists [], ((w :: ws) ++ concat (map snd tr)).
        split; [reflexivity | constructor].
      * destruct (for_each_prefix body (w :: ws))
          as (pre & post & Hsplit & Hpre & Hpost).
        destruct (for_each body (w :: ws)) as [out [[]|err]];
          cbn [fst snd] in *.
        -- rewrite (Hpost eq_refl), app_nil_r in Hsplit.
           change (0 >? max_idle_transforms) with false. cbv iota.
           destruct (IH 0) as (instances & rest & Heq & Hall).
           destruct (__call__ random_where body sp' rng' 0 others)
             as [[out' r] rng3]. cbn [fst snd] in *.
           exists (pre ++ instances), rest. split.
           ++ rewrite Heq, Hsplit. now rewrite app_assoc.
           ++ now apply Forall2_app.
        -- exists pre, (post ++ concat (map snd tr)). split; [|exact Hpre].
           rewrite Hsplit. now rewrite app_assoc.
Qed.

(** A run of more than [max_idle_transforms] entries that are too short
    for the sampler stops the stream with the exception of the limit. *)
Lemma call_idle_prefix (B : Type) (body : Instance A -> result B)
  (prefix rest : list (DataEntry A)) :
  forall sp rng n,
    0 <= n <= max_idle_transforms ->
    max_idle_transforms < n + Z.of_nat (length prefix) ->
    Forall (fun e => Py.len (target e) < min_future_of (instance_sampler sp))
      prefix ->
    __call__ random_where body sp rng n (prefix ++ rest)
    = ([], Raise Exception, rng).
Proof.
  induction prefix as [|e prefix IH]; intros sp rng n Hn Hlen Hshort.
  - simpl in Hlen. lia.
  - inversion Hshort as [|? ? He Hrest]; subst.
    cbn [app __call__]. unfold flatmap_transform_checked.
    rewrite flatmap_transform_short_unchanged by exact He.
    cbn [for_each].
    destruct (n + 1 >? max_idle_transforms) eqn:En; [reflexivity|].
    rewrite IH; [reflexivity | lia | | exact Hrest].
    cbn [length] in Hlen. lia.
Qed.

Lemma for_each_raise (B : Type) (body : Instance A -> result B)
  (instances : list (Instance A)) (e : exn) :
  snd (for_each body instances) = Raise e ->
  exists w, In w instances /\ body w = Raise e.
Proof.
  induction instances as [|w ws IH]; [discriminate|].
  cbn [for_each]. destruct (body w) as [item|e'] eqn:Hw.
  - destruct (for_each body ws) as [out r]. simpl. intros Hr.
    destruct (IH Hr) as (w' & Hin & Hw'). exists w'. split; [now right|].
    exact Hw'.
  - simpl. intros Hr. injection Hr as ->. exists w. split; [now left|].
    exact Hw.
Qed.

(** Where the exception that stops the stream comes from: the padding
    indicator of a negative length, the limit of idle entries, or the body
    of the consumer's loop. *)
Lemma call_raise_origin (B : Type) (body : Instance A -> result B)
  (data : list (DataEntry A)) :
  forall sp rng n e,
    snd (fst (__call__ random_where body sp rng n data)) = Raise e ->
    (e = ValueError /\ past_length sp < 0) \/
    e = Exception \/
    exists w, body w = Raise e.
Proof.
  induction data as [|entry rest IH]; intros sp rng n e Hr; [discriminate|].
  cbn [__call__] in Hr. unfold flatmap_transform_checked in Hr.
  pose proof (flatmap_transform_fields sp rng entry) as (Hpast & _ & _).
  destruct (flatmap_transform random_where sp rng entry) as [[ws sp'] rng'].
  simpl in Hpast.
  assert (Hrest : forall k,
             snd (fst (let '(out', r, rng0) :=
                         __call__ random_where body sp' rng' k rest in
                       (@nil B ++ out', r, rng0))) = Raise e ->
             (e = ValueError /\ past_length sp < 0) \/
             e = Exception \/ (exists w, body w = Raise e)).
  { intros k Hk. rewrite <- Hpast. apply (IH sp' rng' k).
    now destruct (__call__ random_where body sp' rng' k rest) as [[o r] g]. }
  destruct ws as [|w ws].
  - cbn [for_each] in Hr.
    destruct (n + 1 >? max_idle_transforms).
    + simpl in Hr. injection Hr as <-. right. now left.
    + now apply (Hrest (n + 1)).
  - destruct (past_length sp <? 0) eqn:Ep.
    + simpl in Hr. injection Hr as <-. left. split; [reflexivity | lia].
    + pose proof (@for_each_raise B body (w :: ws)) as Hbody.
      destruct (for_each body (w :: ws)) as [out [[]|err]].
      * change (0 >? max_idle_transforms) with false in Hr. cbv iota in Hr.
        rewrite <- Hpast. apply (IH sp' rng' 0).
        now destruct (__call__ random_where body sp' rng' 0 rest)
          as [[o r] g].
      * simpl in Hr. injection Hr as <-.
        destruct (Hbody err eq_refl) as (w' & _ & Hw').
        right. right. now exists w'.
Qed.

(** The stream as it is consumed, with and without the series that are
    too short for the sampler: these series only add to the counter of idle
    entries, so that, unless the stream is stopped by the limit of idle
    entries, it is consumed in the same way without them. *)
Lemma call_filter_short (B : Type) (body : Instance A -> result B)
  (data : list (DataEntry A)) :
  forall sp rng n n',
    n' <= n ->
    snd (fst (__call__ random_where body sp rng n data)) <> Raise Exception ->
    __call__ random_where body sp rng n'
      (filter (fun e => min_future_of (instance_sampler sp)
                        <=? Py.len (target e)) data)
    = __call__ random_where body sp rng n data.
Proof.
  induction data as [|e rest IH]; intros sp rng n n' Hn Hok; [reflexivity|].
  cbn [filter].
  destruct (min_future_of (instance_sampler sp) <=? Py.len (target e)) eqn:E.
  - cbn [__call__] in *. unfold flatmap_transform_checked in *.
    pose proof (flatmap_transform_keeps random_where sp rng e) as Hkeep.
    destruct (flatmap_transform _ _ _ _) as [[ws sp'] rng'].
    simpl in Hkeep. rewrite <- Hkeep.
    destruct ws as [|w ws].
    + cbn [for_each] in *.
      destruct (n + 1 >? max_idle_transforms) eqn:En;
        [now contradiction Hok|].
      destruct (n' + 1 >? max_idle_transforms) eqn:En'; [lia|].
      rewrite (IH sp' rng' (n + 1) (n' + 1)); [reflexivity | lia |].
      destruct (__call__ random_where body sp' rng' (n + 1) rest)
        as [[out r] rng'']. exact Hok.
    + destruct (past_length sp <? 0); [reflexivity|].
      destruct (for_each body (w :: ws)) as [out [[]|err]]; [|reflexivity].
      change (0 >? max_idle_transforms) with false in *. cbv iota in *.
      rewrite (IH sp' rng' 0 0); [reflexivity | lia |].
      destruct (__call__ random_where body sp' rng' 0 rest)
        as [[out' r] rng'']. exact Hok.
  - cbn [__call__] in Hok |- *. unfold flatmap_transform_checked in *.
    rewrite flatmap_transform_short_unchanged in * by lia.
    cbn [for_each] in *.
    destruct (n + 1 >? max_idle_transforms) eqn:En;
      [now contradiction Hok|].
    rewrite (IH sp rng (n + 1) n'); [| lia |].
    + now destruct (__call__ random_where body sp rng (n + 1) rest)
        as [[out r] rng''].
    + destruct (__call__ random_where body sp rng (n + 1) rest)
        as [[out r] rng'']. exact Hok.
Qed.

End Windows.

Section FineTuningWindows.

Import ChronosFineTuningDataset.

Variable A : Type.
Variable nan : A.
Variable R : Type.
Variable random_where : R -> Z -> Q -> list Z * R.
Variable Tokenizer : Type.

(** The inference dataset's windowing with the context length of [self]. *)
Let context_of (self : t A Tokenizer) (history : list A) : list A :=
  ChronosInferenceDataset._get_context
    (ChronosInferenceDataset.mk (context_length self) [] []) history nan.

(** X9: the validation window of a series with at least
    [prediction_length] observations has as its future exactly the last
    [prediction_length] observations, and as its context the window that
    the inference dataset takes, with the same context length, of the
    series without these observations. *)
Theorem validation_window_parts (self : t A Tokenizer) (series : list A) :
  0 < context_length self ->
  0 <= prediction_length self <= Py.len series ->
  let history_length := Z.to_nat (Py.len series - prediction_length self) in
  let w := validation_window nan self series in
  GluonTS.future_target w = skipn history_length series /\
  Py.len (GluonTS.future_target w) = prediction_length self /\
  GluonTS.past_target w = context_of self (firstn history_length series) /\
  Py.len (GluonTS.past_target w) = context_length self.
Proof.
  intros HW Hpl history_length w. subst w. unfold validation_window.
  set (sp := _create_instance_splitter nan self validation).
  destruct (@split_at_future A sp series (Py.len series - prediction_length self))
    as [Hf Hfl]; [simpl; lia | simpl; lia |].
  rewrite (@split_at_past A sp series (Py.len series - prediction_length self)
             (ChronosInferenceDataset.mk (context_length self) [] []))
    by (simpl; auto; lia).
  split; [|split; [exact Hfl | split; [reflexivity|]]].
  - rewrite Hf. apply firstn_all2. rewrite length_skipn.
    unfold Py.len in *. simpl. lia.
  - exact (proj1 (@get_context_last_window A nan
                    (ChronosInferenceDataset.mk (context_length self) [] [])
                    (firstn history_length series) HW)).
Qed.

Hypothesis random_where_range :
  forall rng window_size p i,
    0 < window_size ->
    In i (fst (random_where rng window_size p)) -> 0 <= i < window_size.

(** X10: every window of the training stream is cut from its series at a
    split point that is followed by at least [prediction_length]
    observations: its future holds exactly the [prediction_length]
    observations after the split point, with no padding, and its context is
    the inference window of the observations before it. *)
Theorem training_windows_full_future (self : t A Tokenizer) (passes : nat)
  (rng : R) (entry : GluonTS.DataEntry A)
  (instances : list (GluonTS.Instance A)) (w : GluonTS.Instance A) :
  0 < context_length self ->
  0 <= prediction_length self ->
  In (entry, instances)
    (fst (_create_training_trace nan random_where self passes rng
            (gluonts_dataset self))) ->
  In w instances ->
  exists i,
    0 <= i <= Py.len (GluonTS.target entry) - prediction_length self /\
    GluonTS.future_target w
    = firstn (Z.to_nat (prediction_length self))
        (skipn (Z.to_nat i) (GluonTS.target entry)) /\
    Py.len (GluonTS.future_target w) = prediction_length self /\
    GluonTS.past_target w
    = context_of self (firstn (Z.to_nat i) (GluonTS.target entry)) /\
    Py.len (GluonTS.past_target w) = context_length self.
Proof.
  intros HW Hpl Hin Hw. unfold _create_training_trace in Hin.
  set (sp := _create_instance_splitter nan self training) in *.
  destruct (@apply_trace_split_points A R random_where random_where_range
              _ sp rng entry instances w Hin Hw) as (i & Hi & Hp & Hf).
  simpl in Hi. exists i. split; [exact Hi|].
  destruct (@split_at_future A sp (GluonTS.target entry) i) as [Hf1 Hf2];
    [simpl; lia | simpl; lia |].
  rewrite Hf, Hp.
  rewrite (@split_at_past A sp (GluonTS.target entry) i
             (ChronosInferenceDataset.mk (context_length self) [] []))
    by (simpl; auto; lia).
  split; [exact Hf1|]. split; [exact Hf2|]. split; [reflexivity|].
  exact (proj1 (@get_context_last_window A nan
                  (ChronosInferenceDataset.mk (context_length self) [] [])
                  _ HW)).
Qed.

End FineTuningWindows.

Section FineTuningFilter.

Import ChronosFineTuningDataset.

Variable A : Type.
Variable nan : A.
Variable R : Type.
Variable random_where : R -> Z -> Q -> list Z * R.
Variables Tokenizer Tokenized : Type.
Variable tokenize : Tokenizer -> list A -> list A -> result Tokenized.

Lemma infinite_iterable_filter (f : GluonTS.DataEntry A -> bool)
  (passes : nat) (data : list (GluonTS.DataEntry A)) :
  _infinite_iterable passes (filter f data)
  = filter f (_infinite_iterable passes data).
Proof.
  induction passes as [|p IH]; [reflexivity|].
  simpl. now rewrite filter_app, IH.
Qed.

Lemma dataset_filter (f : list A -> bool) (target_df : list (list A)) :
  SimpleGluonTSDataset (filter f target_df)
  = filter (fun e => f (GluonTS.target e)) (SimpleGluonTSDataset target_df).
Proof.
  unfold SimpleGluonTSDataset.
  induction target_df as [|s rest IH]; [reflexivity|].
  simpl. destruct (f s); simpl; now rewrite IH.
Qed.

(** The items that [__iter__] yields are the formatted instances of an
    initial part of the stream that [_create_training_data] or
    [_create_validation_data] describes. *)
Lemma iter_items_from_stream (self : t A Tokenizer) (passes : nat) (rng : R) :
  exists instances rest,
    fst (match mode self with
         | training =>
             _create_training_data nan random_where self passes rng
               (gluonts_dataset self)
         | validation =>
             _create_validation_data nan random_where self rng
               (gluonts_dataset self)
         end) = instances ++ rest /\
    Forall2 (fun w item => format_transform_fn tokenize self w = Ok item)
      instances
      (fst (fst (fst (__iter__ nan random_where tokenize self passes rng)))).
Proof.
  unfold __iter__, GluonTS.InstanceSplitter__init__.
  destruct (GluonTS.future_length _ >? 0).
  - destruct (@call_yields_prefix A R random_where _
                (format_transform_fn tokenize self)
                (match mode self with
                 | training => _infinite_iterable passes (gluonts_dataset self)
                 | validation => gluonts_dataset self
                 end)
                (_create_instance_splitter nan self (mode self)) rng 0)
      as (instances & rest & Heq & Hall).
    exists instances, rest. split.
    + rewrite <- Heq. unfold _create_training_data, _create_validation_data.
      now destruct (mode self).
    + now destruct (GluonTS.__call__ _ _ _ _ _ _) as [[items r] rng'].
  - exists [], (fst (match mode self with
                     | training =>
                         _create_training_data nan random_where self passes
                           rng (gluonts_dataset self)
                     | validation =>
                         _create_validation_data nan random_where self rng
                           (gluonts_dataset self)
                     end)).
    split; [reflexivity | constructor].
Qed.

(** X8: every exception that ends an iteration of the fine-tuning
    dataset, in either mode, has one of four origins: the assertion of the
    splitter on a non-positive [prediction_length], the [ValueError] of a
    negative [context_length], the [Exception] of the limit of idle
    entries, or the tokenizer; the assertion of [to_chronos_format] itself
    cannot fail from [__iter__], with or without a tokenizer. *)
Theorem iter_exception_origin (self : t A Tokenizer) (passes : nat)
  (rng : R) (e : exn) :
  snd (fst (fst (__iter__ nan random_where tokenize self passes rng)))
    = Raise e ->
  (e = AssertionError /\ prediction_length self <= 0) \/
  (e = ValueError /\ context_length self < 0) \/
  e = Exception \/
  exists tok w,
    tokenizer self = Some tok /\
    tokenize tok (GluonTS.past_target w) (GluonTS.future_target w) = Raise e.
Proof.
  unfold __iter__, GluonTS.InstanceSplitter__init__.
  destruct (GluonTS.future_length (_create_instance_splitter nan self (mode self))
            >? 0) eqn:Epl.
  - intros Hr.
    destruct (@call_raise_origin A R random_where _
                (format_transform_fn tokenize self)
                (match mode self with
                 | training => _infinite_iterable passes (gluonts_dataset self)
                 | validation => gluonts_dataset self
                 end)
                (_create_instance_splitter nan self (mode self)) rng 0 e)
      as [[-> HW] | [-> | (w & Hw)]].
    + now destruct (GluonTS.__call__ _ _ _ _ _ _) as [[items r] rng'].
    + right. left. split; [reflexivity | exact HW].
    + right. right. now left.
    + right. right. right.
      rewrite format_transform_fn_asserts_nothing in Hw.
      destruct (tokenizer self) as [tok|]; [|discriminate].
      exists tok, w. split; [reflexivity|].
      destruct (tokenize tok _ _); [discriminate Hw|].
      simpl in Hw. now injection Hw as ->.
  - simpl. intros Hr. injection Hr as <-. left. split; [reflexivity|].
    simpl in Epl. lia.
Qed.

(** X29: more than 100 series in a row that are shorter than
    [prediction_length], at the beginning of the data, stop the iteration
    of the dataset, in either mode, before any item is yielded: it ends
    with the [Exception] of the limit of idle entries, whatever series
    follow. *)
Theorem idle_limit_stops_iteration (short_series rest : list (list A))
  (context_length prediction_length : Z) (tok : option Tokenizer)
  (mode : Mode) (passes : nat) (rng : R) :
  0 < prediction_length ->
  (100 < length short_series)%nat ->
  Forall (fun s => Py.len s < prediction_length) short_series ->
  (mode = training -> (0 < passes)%nat) ->
  let self :=
    __init__ (short_series ++ rest) context_length prediction_length tok
      mode in
  __iter__ nan random_where tokenize self passes rng
  = ([], Raise Exception, rng, self).
Proof.
  intros Hpl Hlen Hshort Hpasses self. unfold __iter__.
  rewrite InstanceSplitter_init_ok by (subst self; now destruct mode).
  assert (Hdata : exists others,
             match ChronosFineTuningDataset.mode self with
             | training => _infinite_iterable passes (gluonts_dataset self)
             | validation => gluonts_dataset self
             end
             = map (@GluonTS.mkEntry A) short_series ++ others).
  { change (gluonts_dataset self)
      with (map (@GluonTS.mkEntry A) (short_series ++ rest)).
    change (ChronosFineTuningDataset.mode self) with mode.
    rewrite map_app. destruct mode.
    - destruct passes as [|p]; [specialize (Hpasses eq_refl); lia|].
      cbn [_infinite_iterable]. rewrite <- app_assoc. eexists. reflexivity.
    - eexists. reflexivity. }
  destruct Hdata as [others ->].
  rewrite (@call_idle_prefix A R random_where _
             (format_transform_fn tokenize self)
             (map (@GluonTS.mkEntry A) short_series) others);
    [reflexivity | unfold GluonTS.max_idle_transforms; lia
    | rewrite length_map; unfold GluonTS.max_idle_transforms; lia |].
  apply Forall_map.
  replace (GluonTS.min_future_of
             (GluonTS.instance_sampler
                (_create_instance_splitter nan self
                   (ChronosFineTuningDataset.mode self))))
    with prediction_length by (subst self; now destruct mode).
  exact Hshort.
Qed.

(** X30: a negative [context_length] stops the iteration of a validation
    dataset at its first window: when the first series has at least
    [prediction_length] observations, the iteration yields no item and
    ends with the [ValueError] of the padding indicator. *)
Theorem negative_context_length_stops_iteration (series : list A)
  (rest : list (list A)) (context_length prediction_length : Z)
  (tok : option Tokenizer) (passes : nat) (rng : R) :
  0 < prediction_length ->
  context_length < 0 ->
  prediction_length <= Py.len series ->
  let self :=
    __init__ (series :: rest) context_length prediction_length tok
      validation in
  __iter__ nan random_where tokenize self passes rng
  = ([], Raise ValueError, rng, self).
Proof.
  intros Hpl HW Hlong self. unfold __iter__.
  change (mode self) with validation. cbv iota.
  rewrite InstanceSplitter_init_ok by exact Hpl.
  change (gluonts_dataset self)
    with (GluonTS.mkEntry series :: map (@GluonTS.mkEntry A) rest).
  cbn [GluonTS.__call__]. unfold GluonTS.flatmap_transform_checked.
  rewrite (@flatmap_transform_validation A R random_where
             (_create_instance_splitter nan self validation) rng
             (GluonTS.mkEntry series) prediction_length eq_refl).
  cbn [GluonTS.target].
  destruct (prediction_length <=? Py.len series) eqn:E; [|lia].
  change (GluonTS.past_length (_create_instance_splitter nan self validation))
    with context_length.
  destruct (context_length <? 0) eqn:EW; [reflexivity | lia].
Qed.

(** X11: the series shorter than [prediction_length] affect the training
    stream through the limit of idle entries only: unless the iteration
    over the first [passes] passes is stopped by the exception of that
    limit, the items yielded, the way the iteration ends and the random
    state it leaves are those obtained from the data without these
    series. *)
Theorem training_stream_ignores_short_series (target_df : list (list A))
  (context_length prediction_length : Z) (tok : option Tokenizer)
  (passes : nat) (rng : R) :
  let self :=
    __init__ target_df context_length prediction_length tok training in
  let self' :=
    __init__ (filter (fun s => prediction_length <=? Py.len s) target_df)
      context_length prediction_length tok training in
  snd (fst (fst (__iter__ nan random_where tokenize self passes rng)))
    <> Raise Exception ->
  fst (__iter__ nan random_where tokenize self' passes rng)
  = fst (__iter__ nan random_where tokenize self passes rng).
Proof.
  intros self self' Hok. unfold __iter__ in *.
  change (mode self') with training. change (mode self) with training in *.
  cbv iota in *.
  change (_create_instance_splitter nan self' training)
    with (_create_instance_splitter nan self training).
  change (format_transform_fn tokenize self')
    with (format_transform_fn tokenize self).
  destruct (GluonTS.InstanceSplitter__init__
              (_create_instance_splitter nan self training)) as [sp|err] eqn:Hsp;
    [|reflexivity].
  assert (Hsp' : sp = _create_instance_splitter nan self training).
  { unfold GluonTS.InstanceSplitter__init__ in Hsp.
    destruct (_ >? 0) in Hsp; [now injection Hsp as <- | discriminate]. }
  change (gluonts_dataset self')
    with (SimpleGluonTSDataset
            (filter (fun s => prediction_length <=? Py.len s) target_df)).
  rewrite dataset_filter, infinite_iterable_filter.
  change (gluonts_dataset self) with (SimpleGluonTSDataset target_df) in *.
  pose proof (@call_filter_short A R random_where _
                (format_transform_fn tokenize self)
                (_infinite_iterable passes (SimpleGluonTSDataset target_df))
                sp rng 0 0 ltac:(lia)) as Hcall.
  replace (GluonTS.min_future_of (GluonTS.instance_sampler sp))
    with prediction_length in Hcall by (now rewrite Hsp').
  destruct (GluonTS.__call__ random_where (format_transform_fn tokenize self)
              sp rng 0
              (_infinite_iterable passes (SimpleGluonTSDataset target_df)))
    as [[items r] rng'] eqn:Hrun.
  rewrite Hcall by exact Hok. reflexivity.
Qed.

End FineTuningFilter.

Lemma lcg_random_where_range (rng window_size : Z) (p : Q) (i : Z) :
  0 < window_size ->
  In i (fst (lcg_random_where rng window_size p)) -> 0 <= i < window_size.
Proof.
  intros Hpos [<- | []]. apply Z.mod_pos_bound. exact Hpos.
Qed.

Lemma validation_window_parts_witness :
  let self :=
    ChronosFineTuningDataset.__init__ [[1; 2; 3; 4; 5; 6]] 3 2 (@None unit)
      ChronosFineTuningDataset.validation in
  let w := ChronosFineTuningDataset.validation_window 0 self [1; 2; 3; 4; 5; 6] in
  GluonTS.future_target w = [5; 6] /\
  GluonTS.past_target w = [2; 3; 4].
Proof.
  intros self w.
  destruct (@validation_window_parts Z 0 unit self [1; 2; 3; 4; 5; 6])
    as (Hf & _ & Hp & _); [reflexivity | split; discriminate |].
  split; [exact Hf | exact Hp].
Defined.

Lemma training_windows_full_future_witness :
  let self :=
    ChronosFineTuningDataset.__init__
      [[1; 2; 3]; [4]; [5; 6; 7; 8; 9; 10]] 4 2 (@None unit)
      ChronosFineTuningDataset.training in
  let w := GluonTS.mkInstance [0; 5; 6; 7] [8; 9] in
  exists i,
    0 <= i <= Py.len [5; 6; 7; 8; 9; 10] - 2 /\
    GluonTS.future_target w
    = firstn 2 (skipn (Z.to_nat i) [5; 6; 7; 8; 9; 10]) /\
    Py.len (GluonTS.future_target w) = 2.
Proof.
  intros self w.
  destruct (@training_windows_full_future Z 0 Z lcg_random_where unit
              lcg_random_where_range self 2 7
              (GluonTS.mkEntry [5; 6; 7; 8; 9; 10]) [w] w)
    as (i & Hi & Hf & Hl & _);
    [reflexivity | discriminate
     | vm_compute; right; right; left; reflexivity | left; reflexivity |].
  exists i. split; [exact Hi|]. split; [exact Hf | exact Hl].
Defined.

Lemma iter_exception_origin_witness :
  let tokenize := fun (_ : unit) (past future : list Z) => Ok (past, future) in
  let self :=
    ChronosFineTuningDataset.__init__ [[1; 2; 3]] (-1) 2 None
      ChronosFineTuningDataset.validation in
  snd (fst (fst (ChronosFineTuningDataset.__iter__ 0 lcg_random_where
                   tokenize self 0 7))) = Raise ValueError /\
  ((ValueError = AssertionError /\
    ChronosFineTuningDataset.prediction_length self <= 0) \/
   (ValueError = ValueError /\
    ChronosFineTuningDataset.context_length self < 0) \/
   ValueError = Exception \/
   exists tok w,
     ChronosFineTuningDataset.tokenizer self = Some tok /\
     tokenize tok (GluonTS.past_target w) (GluonTS.future_target w)
     = Raise ValueError).
Proof.
  intros tokenize self.
  assert (Hr : snd (fst (fst (ChronosFineTuningDataset.__iter__ 0
                                lcg_random_where tokenize self 0 7)))
               = Raise ValueError) by reflexivity.
  split; [exact Hr|].
  exact (@iter_exception_origin Z 0 Z lcg_random_where unit
           (list Z * list Z) tokenize self 0 7 ValueError Hr).
Defined.

Lemma idle_limit_stops_iteration_witness :
  let tokenize := fun (_ : unit) (past future : list Z) => Ok (past, future) in
  let short_series := repeat [1] 101 in
  let self :=
    ChronosFineTuningDataset.__init__ (short_series ++ [[1; 2; 3; 4; 5]])
      3 2 None ChronosFineTuningDataset.validation in
  0 < 2 /\
  (100 < length short_series)%nat /\
  Forall (fun s => Py.len s < 2) short_series /\
  ChronosFineTuningDataset.__iter__ 0 lcg_random_where tokenize self 0 7
  = ([], Raise Exception, 7, self).
Proof.
  intros tokenize short_series self.
  assert (Hlen : (100 < length short_series)%nat)
    by (subst short_series; rewrite repeat_length; lia).
  assert (Hshort : Forall (fun s => Py.len s < 2) short_series).
  { apply Forall_forall. intros s Hs. apply repeat_spec in Hs. now subst s. }
  split; [lia|]. split; [exact Hlen|]. split; [exact Hshort|].
  apply (@idle_limit_stops_iteration Z 0 Z lcg_random_where unit
           (list Z * list Z) tokenize short_series [[1; 2; 3; 4; 5]] 3 2 None
           ChronosFineTuningDataset.validation 0 7);
    [lia | exact Hlen | exact Hshort | discriminate].
Defined.

Lemma negative_context_length_stops_iteration_witness :
  let tokenize := fun (_ : unit) (past future : list Z) => Ok (past, future) in
  let self :=
    ChronosFineTuningDataset.__init__ [[1; 2; 3]; [4; 5]] (-1) 2 None
      ChronosFineTuningDataset.validation in
  0 < 2 /\ -1 < 0 /\ 2 <= Py.len [1; 2; 3] /\
  ChronosFineTuningDataset.__iter__ 0 lcg_random_where tokenize self 0 7
  = ([], Raise ValueError, 7, self).
Proof.
  intros tokenize self.
  split; [lia|]. split; [lia|]. split; [discriminate|].
  apply (@negative_context_length_stops_iteration Z 0 Z lcg_random_where unit
           (list Z * list Z) tokenize [1; 2; 3] [[4; 5]] (-1) 2 None 0 7);
    [lia | lia | discriminate].
Defined.

Lemma training_stream_ignores_short_series_witness :
  let tokenize := fun (_ : unit) (past future : list Z) => Ok (past, future) in
  let self :=
    ChronosFineTuningDataset.__init__
      [[1; 2; 3]; [4]; [5; 6; 7; 8; 9; 10]] 4 2 None
      ChronosFineTuningDataset.training in
  let self' :=
    ChronosFineTuningDataset.__init__
      [[1; 2; 3]; [5; 6; 7; 8; 9; 10]] 4 2 None
      ChronosFineTuningDataset.training in
  snd (fst (fst (ChronosFineTuningDataset.__iter__ 0 lcg_random_where
                   tokenize self 2 7))) <> Raise Exception /\
  fst (ChronosFineTuningDataset.__iter__ 0 lcg_random_where tokenize self' 2 7)
  = fst (ChronosFineTuningDataset.__iter__ 0 lcg_random_where tokenize self 2 7).
Proof.
  intros tokenize self self'.
  assert (Hok : snd (fst (fst (ChronosFineTuningDataset.__iter__ 0
                                 lcg_random_where tokenize self 2 7)))
                <> Raise Exception)
    by (vm_compute; discriminate).
  split; [exact Hok|].
  exact (@training_stream_ignores_short_series Z 0 Z lcg_random_where unit
           (list Z * list Z) tokenize
           [[1; 2; 3]; [4]; [5; 6; 7; 8; 9; 10]] 4 2 None 2 7 Hok).
Defined.

(** ** Time budgets: where the iteration stops *)

Section LoaderStops.

Import ChronosInferenceDataLoader.

Variable Batch : Type.
Variable fsub : Q -> Q -> Q.

(** X12: the iteration of a time-limited loader stops at the first check
    that finds the limit exceeded by the time elapsed, as the difference of
    the clock readings that the code computes: if the [n]-th check is the
    first such, exactly the first [n + 1] batches are yielded, in order,
    and the iteration ends with [TimeLimitExceeded], even when these are
    all the batches there are. *)
Theorem loader_stops_at_first_late_check (batches : list Batch)
  (T start_time : Q) (clock : nat -> Q) (n : nat) :
  (n < length batches)%nat ->
  (forall j, (j < n)%nat -> ~ (T < fsub (clock j) start_time)%Q) ->
  (T < fsub (clock n) start_time)%Q ->
  let self :=
    __init__ batches (Some (timeout_callback fsub (Some T) start_time)) in
  snd (__iter__ self clock) = Raise TimeLimitExceeded /\
  yielded (fst (__iter__ self clock)) = firstn (S n) batches.
Proof.
  intros Hn Hbefore Hlate self. unfold __iter__, self, __init__.
  cbn [ChronosInferenceDataLoader.callback ChronosInferenceDataLoader.batches].
  apply iter_from_first_raise; [exact Hn | |]; cbn [Nat.add].
  - intros j Hj.
    destruct (timeout_callback_outcome fsub (Some T) start_time (clock j))
      as [Hok | Hraise]; [exact Hok|].
    apply timeout_callback_raises in Hraise.
    destruct Hraise as (T' & HT & Hlt). injection HT as <-.
    now apply Hbefore in Hlt.
  - apply timeout_callback_raises. now exists T.
Qed.

(** X13: when no check raises, whatever the callback is, the iteration
    ends normally after every batch has been yielded, in order. *)
Theorem loader_yields_all_when_checks_pass (batches : list Batch)
  (on_batch : option Callback) (clock : nat -> Q) :
  let self := __init__ batches on_batch in
  (forall j, (j < length batches)%nat -> callback self (clock j) = Ok tt) ->
  snd (__iter__ self clock) = Ok tt /\
  yielded (fst (__iter__ self clock)) = batches.
Proof.
  intros self Hpass. unfold __iter__. apply iter_from_all_pass. exact Hpass.
Qed.

(** The loader made without [on_batch] has a callback that does nothing. *)
Lemma loader_default_callback (batches : list Batch) (clock : nat -> Q) :
  let self := __init__ batches None in
  snd (__iter__ self clock) = Ok tt /\
  yielded (fst (__iter__ self clock)) = batches.
Proof.
  intros self. unfold __iter__. apply iter_from_all_pass. reflexivity.
Qed.

(** The subtraction of floats gives a difference of the right sign: the
    difference of two distinct floats is not rounded to zero. *)
Hypothesis fsub_negative : forall x y : Q, (x < y)%Q -> (fsub x y < 0)%Q.
Hypothesis fsub_nonnegative : forall x y : Q, (y <= x)%Q -> (0 <= fsub x y)%Q.

(** X14: a budget used up by fitting.  If the time that fitting took, as
    [_fit] computes it from the two clock readings, is longer than its
    time limit, the time left for inference is negative; a loader built
    with it yields its first batch and then raises [TimeLimitExceeded],
    provided only that the clock does not run backwards. *)
Theorem loader_with_exhausted_budget (first : Batch) (others : list Batch)
  (time_limit fit_start fit_end start_time : Q) (clock : nat -> Q) :
  (time_limit < fsub fit_end fit_start)%Q ->
  (start_time <= clock 0%nat)%Q ->
  let seconds := inference_time_budget fsub time_limit fit_start fit_end in
  let self :=
    __init__ (first :: others)
      (Some (timeout_callback fsub (Some seconds) start_time)) in
  (seconds < 0)%Q /\
  __iter__ self clock
  = ([Yielded first; Called Batch (clock 0%nat)], Raise TimeLimitExceeded).
Proof.
  intros Hover Hclock seconds self.
  assert (Hneg : (seconds < 0)%Q)
    by (subst seconds; unfold inference_time_budget;
        now apply fsub_negative).
  split; [exact Hneg|].
  unfold __iter__, self, __init__.
  cbn [ChronosInferenceDataLoader.callback ChronosInferenceDataLoader.batches
       iter_from].
  assert (Hraise : timeout_callback fsub (Some seconds) start_time
                     (clock 0%nat)
                   = Raise TimeLimitExceeded).
  { apply timeout_callback_raises. exists seconds. split; [reflexivity|].
    pose proof (fsub_nonnegative Hclock). lra. }
  now rewrite Hraise.
Qed.

End LoaderStops.

Lemma loader_stops_at_first_late_check_witness :
  let self :=
    ChronosInferenceDataLoader.__init__ [10; 20; 30; 40]
      (Some (timeout_callback Qminus (Some 5%Q) 0%Q)) in
  let clock := fun k : nat => inject_Z (3 * Z.of_nat k + 1) in
  snd (ChronosInferenceDataLoader.__iter__ self clock)
    = Raise TimeLimitExceeded /\
  ChronosInferenceDataLoader.yielded
    (fst (ChronosInferenceDataLoader.__iter__ self clock)) = [10; 20; 30].
Proof.
  intros self clock.
  apply (@loader_stops_at_first_late_check Z Qminus [10; 20; 30; 40] 5%Q 0%Q
           clock 2).
  - simpl. lia.
  - intros j Hj. destruct j as [|[|j]]; [| |lia]; vm_compute; discriminate.
  - reflexivity.
Defined.

Lemma loader_yields_all_when_checks_pass_witness :
  let self :=
    ChronosInferenceDataLoader.__init__ [10; 20; 30]
      (Some (timeout_callback Qminus (Some 5%Q) 0%Q)) in
  let clock := fun _ : nat => 1%Q in
  snd (ChronosInferenceDataLoader.__iter__ self clock) = Ok tt /\
  ChronosInferenceDataLoader.yielded
    (fst (ChronosInferenceDataLoader.__iter__ self clock)) = [10; 20; 30].
Proof.
  intros self clock.
  apply (@loader_yields_all_when_checks_pass Z [10; 20; 30]
           (Some (timeout_callback Qminus (Some 5%Q) 0%Q)) clock).
  intros j _. reflexivity.
Defined.

Lemma loader_with_exhausted_budget_witness :
  ChronosInferenceDataLoader.__iter__
    (ChronosInferenceDataLoader.__init__ [10; 20; 30]
       (Some (timeout_callback Qminus
                (Some (inference_time_budget Qminus 60%Q 0%Q 75%Q)) 80%Q)))
    (fun _ => 81%Q)
  = ([ChronosInferenceDataLoader.Yielded 10;
      ChronosInferenceDataLoader.Called Z 81%Q],
     Raise TimeLimitExceeded).
Proof.
  apply (@loader_with_exhausted_budget Z Qminus
           ltac:(intros x y H; lra) ltac:(intros x y H; lra)
           10 [20; 30] 60%Q 0%Q 75%Q 80%Q (fun _ => 81%Q));
    vm_compute; congruence.
Defined.

(** ** The two deadline checks and the final-step callback *)

Section Deadlines.

Variable fsub : Q -> Q -> Q.

Lemma on_step_end_stops (self : TimeLimitCallback.t) (begin now : Q)
  (control : TrainerControl) :
  (TimeLimitCallback.time_limit self <= fsub now begin)%Q ->
  exists control' log,
    TimeLimitCallback.on_step_end fsub
      (TimeLimitCallback.on_train_begin self begin) now control
    = Ok (control', log) /\
    should_training_stop control' = true.
Proof.
  intros Hle. unfold TimeLimitCallback.on_step_end. simpl.
  apply Qle_bool_iff in Hle. rewrite Hle. eexists _, _. now split.
Qed.

(** X15: the two checks differ at the boundary.  When the time elapsed, as
    the difference of the two clock readings that the code computes,
    equals the limit exactly, the training callback requests the stop,
    while the inference callback does not raise yet. *)
Theorem deadline_boundary (limit begin now : Q) (control : TrainerControl) :
  (fsub now begin == limit)%Q ->
  timeout_callback fsub (Some limit) begin now = Ok tt /\
  exists control' log,
    TimeLimitCallback.on_step_end fsub
      (TimeLimitCallback.on_train_begin (TimeLimitCallback.__init__ limit)
         begin) now control
    = Ok (control', log) /\
    should_training_stop control' = true.
Proof.
  intros Heq. split.
  - destruct (timeout_callback_outcome fsub (Some limit) begin now)
      as [Hok | Hraise]; [exact Hok|].
    apply timeout_callback_raises in Hraise.
    destruct Hraise as (T & HT & Hlt). injection HT as <-. lra.
  - apply on_step_end_stops. simpl. lra.
Qed.

(** X16: both checks are monotone in the clock, the subtraction of floats
    being monotone: once the inference callback raises, it raises at every
    later reading, and once the training callback requests the stop, it
    does so at every later step end. *)
Theorem deadline_monotone (seconds : option Q) (self : TimeLimitCallback.t)
  (begin now later : Q) (control : TrainerControl) :
  (forall x y z : Q, (x <= y)%Q -> (fsub x z <= fsub y z)%Q) ->
  (now <= later)%Q ->
  (timeout_callback fsub seconds begin now = Raise TimeLimitExceeded ->
   timeout_callback fsub seconds begin later = Raise TimeLimitExceeded) /\
  ((TimeLimitCallback.time_limit self <= fsub now begin)%Q ->
   exists control' log,
     TimeLimitCallback.on_step_end fsub
       (TimeLimitCallback.on_train_begin self begin) later control
     = Ok (control', log) /\
     should_training_stop control' = true).
Proof.
  intros Hmono Hle. pose proof (Hmono now later begin Hle) as Hsub. split.
  - intros Hraise. apply timeout_callback_raises in Hraise.
    destruct Hraise as (T & -> & Hlt).
    apply timeout_callback_raises. exists T. split; [reflexivity|]. lra.
  - intros Hlim. apply on_step_end_stops. lra.
Qed.

(** X17: the two trainer callbacks can be called in either order: the
    control object after both is the same, and so are the records logged.
    The final-step callback never alters [should_training_stop], and the
    time-limit callback never alters the other three requests. *)
Theorem trainer_callbacks_commute (self : TimeLimitCallback.t)
  (begin now : Q) (state : TrainerState) (control : TrainerControl) :
  let self' := TimeLimitCallback.on_train_begin self begin in
  (r <- TimeLimitCallback.on_step_end fsub self' now control ;;
   Ok (EvaluateAndSaveFinalStepCallback.on_step_end state (fst r), snd r))
  = TimeLimitCallback.on_step_end fsub self' now
      (EvaluateAndSaveFinalStepCallback.on_step_end state control) /\
  should_training_stop
    (EvaluateAndSaveFinalStepCallback.on_step_end state control)
  = should_training_stop control /\
  (max_steps state <= global_step state ->
   (TimeLimitCallback.time_limit self <= fsub now begin)%Q ->
   TimeLimitCallback.on_step_end fsub self' now
     (EvaluateAndSaveFinalStepCallback.on_step_end state control)
   = Ok (mkControl true true true true,
         [warning_time_limit_exceeded (TimeLimitCallback.time_limit self)])).
Proof.
  intros self'. unfold EvaluateAndSaveFinalStepCallback.on_step_end,
    TimeLimitCallback.on_step_end. subst self'. simpl.
  split; [|split].
  - destruct (Qle_bool _ _); destruct (global_step state >=? max_steps state);
      reflexivity.
  - now destruct (global_step state >=? max_steps state).
  - intros Hlast Hlim. apply Qle_bool_iff in Hlim. rewrite Hlim.
    destruct (global_step state >=? max_steps state) eqn:E; [reflexivity|].
    rewrite Z.geb_leb in E. apply Z.leb_gt in E. lia.
Qed.

End Deadlines.

Lemma deadline_boundary_witness :
  timeout_callback Qminus (Some 60%Q) 10%Q 70%Q = Ok tt /\
  exists control' log,
    TimeLimitCallback.on_step_end Qminus
      (TimeLimitCallback.on_train_begin (TimeLimitCallback.__init__ 60%Q)
         10%Q) 70%Q (mkControl false false false false)
    = Ok (control', log) /\
    should_training_stop control' = true.
Proof.
  apply (@deadline_boundary Qminus 60%Q 10%Q 70%Q).
  reflexivity.
Defined.

Lemma deadline_monotone_witness :
  timeout_callback Qminus (Some 5%Q) 0%Q 9%Q = Raise TimeLimitExceeded.
Proof.
  apply (proj1 (@deadline_monotone Qminus (Some 5%Q)
                  (TimeLimitCallback.__init__ 5%Q)
                  0%Q 6%Q 9%Q (mkControl false false false false)
                  ltac:(intros x y z H; lra)
                  ltac:(vm_compute; discriminate))).
  reflexivity.
Defined.

Lemma trainer_callbacks_commute_witness :
  TimeLimitCallback.on_step_end Qminus
    (TimeLimitCallback.on_train_begin (TimeLimitCallback.__init__ 60%Q) 0%Q)
    61%Q
    (EvaluateAndSaveFinalStepCallback.on_step_end (mkState 5000 5000)
       (mkControl false false false false))
  = Ok (mkControl true true true true, [warning_time_limit_exceeded 60%Q]).
Proof.
  apply (proj2 (proj2 (@trainer_callbacks_commute Qminus
                         (TimeLimitCallback.__init__ 60%Q) 0%Q 61%Q
                         (mkState 5000 5000)
                         (mkControl false false false false)))).
  - simpl. lia.
  - vm_compute. discriminate.
Defined.

(** ** [ChronosModel]: model paths and their configurations *)

Section ModelPaths.

Import Ascii String ChronosModelPaths.

Lemma str_eqb_eq (a b : str) : str_eqb a b = true -> a = b.
Proof.
  revert b. induction a as [|x a IH]; intros [|y b] H; try discriminate;
    [reflexivity|].
  simpl in H. apply andb_true_iff in H. destruct H as [Hxy Hab].
  apply Ascii.eqb_eq in Hxy. subst y. f_equal. now apply IH.
Qed.

Lemma dict_get_in {V : Type} (d : list (str * V)) (key : str) (v : V) :
  dict_get d key = Some v -> In (key, v) d.
Proof.
  induction d as [|[k w] d IH]; [discriminate|].
  simpl. destruct (str_eqb k key) eqn:E.
  - intros H. injection H as ->. apply str_eqb_eq in E. subst k. now left.
  - intros H. right. now apply IH.
Qed.

Lemma split_nonempty (sep : ascii) (s : str) : split sep s <> [].
Proof.
  destruct s as [|c rest]; [discriminate|]. simpl.
  destruct (Ascii.eqb c sep); [discriminate|].
  destruct (split sep rest); discriminate.
Qed.

(** A string without the separator is its own single segment. *)
Lemma split_no_sep (sep : ascii) (s : str) :
  forallb (fun c => negb (Ascii.eqb c sep)) s = true -> split sep s = [s].
Proof.
  induction s as [|c rest IH]; [reflexivity|].
  simpl. intros H. apply andb_true_iff in H. destruct H as [Hc Hrest].
  destruct (Ascii.eqb c sep); [discriminate|]. now rewrite IH.
Qed.

(** Appending characters other than the separator extends the last
    segment. *)
Lemma split_app_no_sep (sep : ascii) (d n : str) :
  forallb (fun c => negb (Ascii.eqb c sep)) n = true ->
  exists pre segment,
    split sep d = pre ++ [segment] /\
    split sep (d ++ n) = pre ++ [segment ++ n].
Proof.
  intros Hn. induction d as [|c d IH].
  - exists [], []. split; [reflexivity|]. simpl. now apply split_no_sep.
  - destruct IH as (pre & segment & Hd & Hdn). simpl.
    destruct (Ascii.eqb c sep).
    + exists ([] :: pre), segment. rewrite Hd, Hdn. now split.
    + rewrite Hd, Hdn. destruct pre as [|p pre]; simpl.
      * exists [], (c :: segment). now split.
      * exists ((c :: p) :: pre), segment. now split.
Qed.

(** The segments of [d + sep + n] are those of [d] followed by those of
    [n]. *)
Lemma split_app_sep (sep : ascii) (d n : str) :
  split sep (d ++ sep :: n) = split sep d ++ split sep n.
Proof.
  induction d as [|c d IH].
  - simpl. now rewrite Ascii.eqb_refl.
  - simpl. destruct (Ascii.eqb c sep); [now rewrite IH|].
    rewrite IH. pose proof (split_nonempty sep d) as Hne.
    now destruct (split sep d).
Qed.

Lemma getitem_last {A : Type} (pre : list A) (x : A) :
  Py.getitem (pre ++ [x]) (-1) = Ok x.
Proof.
  unfold Py.getitem. rewrite len_app. change (Py.len [x]) with 1.
  pose proof (len_nonneg pre) as Hpre. change (-1 <? 0) with true. cbv iota.
  replace ((0 <=? -1 + (Py.len pre + 1)) && (-1 + (Py.len pre + 1) <? Py.len pre + 1))
    with true by (symmetry; apply andb_true_iff; split; lia).
  replace (Z.to_nat (-1 + (Py.len pre + 1))) with (List.length pre)
    by (unfold Py.len; lia).
  now rewrite nth_error_app2, Nat.sub_diag by lia.
Qed.

Lemma configured_names (name : str) (cfg : Config) :
  dict_get MODEL_CONFIGS name = Some cfg ->
  forallb (fun c => negb (Ascii.eqb c "/")) name = true.
Proof.
  intros H. apply dict_get_in in H. unfold MODEL_CONFIGS in H. simpl in H.
  repeat (destruct H as [H | H]; [injection H as <- <-; reflexivity|]).
  contradiction.
Qed.

(** X18: the configuration of a model is found by the last segment of its
    path alone.  A path [d/name] whose last segment is a configured name
    has the configuration of that name whatever the directory [d] is;
    [min_num_gpus] is its [num_gpus], and the loading check fails with
    [RuntimeError] exactly when no GPU is available and that number is
    positive. *)
Theorem config_by_last_segment (d name : str) (cfg : Config)
  (gpu_available : bool) :
  dict_get MODEL_CONFIGS name = Some cfg ->
  let model_path := d ++ lit "/" ++ name in
  ag_default_config model_path = Ok (Some cfg) /\
  min_num_gpus model_path = Ok (num_gpus cfg) /\
  load_model_pipeline_check model_path gpu_available
  = Ok (if negb gpu_available && (num_gpus cfg >? 0)
        then inl RuntimeError else inr tt).
Proof.
  intros Hcfg model_path.
  assert (Hag : ag_default_config model_path = Ok (Some cfg)).
  { unfold ag_default_config. subst model_path.
    change (lit "/" ++ name) with ("/"%char :: name).
    rewrite split_app_sep, (split_no_sep _ _ (configured_names _ Hcfg)).
    rewrite getitem_last. cbv beta iota delta [bind]. now rewrite Hcfg. }
  split; [exact Hag|].
  unfold load_model_pipeline_check, min_num_gpus. rewrite Hag. now split.
Qed.

(** X19: every alias of [MODEL_ALIASES] stands for the path of a
    configured model: the model path stored for an alias has a
    configuration in [MODEL_CONFIGS]. *)
Theorem aliases_are_configured (alias path : str) :
  dict_get MODEL_ALIASES alias = Some path ->
  model_path_of (Some alias) = path /\
  exists cfg, ag_default_config path = Ok (Some cfg).
Proof.
  intros H. split; [unfold model_path_of, model_path_input; now rewrite H|].
  apply dict_get_in in H. unfold MODEL_ALIASES in H. simpl in H.
  repeat (destruct H as [H | H];
          [injection H as <- <-; eexists; reflexivity|]).
  contradiction.
Qed.

Lemma last_app_nonempty {A : Type} (l r : list A) (x d : A) :
  List.last (l ++ x :: r) d = List.last (x :: r) d.
Proof.
  induction l as [|y l IH]; [reflexivity|].
  simpl app. rewrite <- IH. simpl. now destruct (l ++ x :: r) eqn:E;
    [destruct l; discriminate|].
Qed.

Lemma not_configured_if_ends_with_t (segment : str) :
  dict_get MODEL_CONFIGS (segment ++ fine_tuned_ckpt_name) = None.
Proof.
  assert (Hlast : List.last (segment ++ fine_tuned_ckpt_name) " "%char
                  = "t"%char)
    by (unfold fine_tuned_ckpt_name; simpl lit; now rewrite last_app_nonempty).
  destruct (dict_get MODEL_CONFIGS (segment ++ fine_tuned_ckpt_name))
    as [cfg|] eqn:E; [|reflexivity].
  apply dict_get_in in E. unfold MODEL_CONFIGS in E. simpl in E.
  repeat (destruct E as [E | E];
          [injection E as E _; rewrite <- E in Hlast; discriminate Hlast|]).
  contradiction.
Qed.

(** X20: a model whose path ends with the name of the fine-tuned
    checkpoint, as the path set by [load] does, has no configuration,
    whatever model it was fine-tuned from: [min_num_gpus] is 0, the default
    batch size is 8, and the loading check passes without a GPU. *)
Theorem fine_tuned_checkpoint_has_no_config (d : str) (gpu_available : bool) :
  let model_path := d ++ fine_tuned_ckpt_name in
  ag_default_config model_path = Ok None /\
  min_num_gpus model_path = Ok 0 /\
  default_batch_size_of model_path = Ok 8 /\
  load_model_pipeline_check model_path gpu_available = Ok (inr tt).
Proof.
  intros model_path.
  assert (Hag : ag_default_config model_path = Ok None).
  { unfold ag_default_config. subst model_path.
    destruct (@split_app_no_sep "/" d fine_tuned_ckpt_name eq_refl)
      as (pre & segment & _ & Hsplit).
    rewrite Hsplit, getitem_last. cbv beta iota delta [bind].
    now rewrite not_configured_if_ends_with_t. }
  split; [exact Hag|].
  unfold load_model_pipeline_check, min_num_gpus, default_batch_size_of.
  rewrite Hag. simpl. repeat split; now destruct gpu_available.
Qed.

End ModelPaths.

Section ModelPathExamples.

Import Ascii String.

Lemma config_by_last_segment_witness :
  ChronosModelPaths.load_model_pipeline_check
    (ChronosModelPaths.lit "/data/models/chronos-t5-large"%string) false
  = Ok (inl RuntimeError).
Proof.
  exact (proj2 (proj2 (@config_by_last_segment
                         (ChronosModelPaths.lit "/data/models"%string)
                         (ChronosModelPaths.lit "chronos-t5-large"%string)
                         (ChronosModelPaths.mkConfig 1
                            (ChronosModelPaths.lit "bfloat16"%string) 8)
                         false eq_refl))).
Defined.

Lemma aliases_are_configured_witness :
  exists cfg,
    ChronosModelPaths.ag_default_config
      (ChronosModelPaths.lit "autogluon/chronos-bolt-base"%string) = Ok (Some cfg).
Proof.
  exact (proj2 (@aliases_are_configured
                  (ChronosModelPaths.lit "bolt-base"%string)
                  (ChronosModelPaths.lit "autogluon/chronos-bolt-base"%string)
                  eq_refl)).
Defined.

End ModelPathExamples.

(** ** [ChronosModel.__init__]: the model name *)

Lemma slice_last {A : Type} (a : list A) (W : Z) :
  0 < W ->
  Py.slice a (Some (- W)) None
  = skipn (Z.to_nat (Py.len a - Z.min (Py.len a) W)) a.
Proof.
  intros HW. pose proof (len_nonneg a) as HL.
  unfold Py.slice, Py.slice_bound. destruct (- W <? 0) eqn:E; [|lia].
  replace (Z.max 0 (- W + Py.len a)) with (Py.len a - Z.min (Py.len a) W)
    by lia.
  apply firstn_all2. rewrite length_skipn. unfold Py.len in *. lia.
Qed.

Lemma Forall_skipn_keeps {A : Type} (P : A -> Prop) (n : nat) (l : list A) :
  Forall P l -> Forall P (skipn n l).
Proof.
  revert l. induction n as [|n IH]; intros l H; [exact H|].
  destruct H as [|x l Hx Hl]; [constructor|]. simpl. now apply IH.
Qed.

Section ModelName.

Import Ascii String ChronosModelPaths.

Lemma replace_keeps (P : ascii -> Prop) (old : ascii) (new s : str) :
  Forall P new -> Forall P s -> Forall P (replace old new s).
Proof.
  intros Hnew Hs. induction Hs as [|c s Hc Hs IH]; [constructor|].
  simpl. destruct (Ascii.eqb c old).
  - apply Forall_app. now split.
  - now constructor.
Qed.

Lemma replace_removes (old : ascii) (new s : str) :
  Forall (fun c => c <> old) new ->
  Forall (fun c => c <> old) (replace old new s).
Proof.
  intros Hnew. induction s as [|c s IH]; [constructor|].
  simpl. destruct (Ascii.eqb c old) eqn:E.
  - apply Forall_app. now split.
  - constructor; [|exact IH]. now apply Ascii.eqb_neq.
Qed.

(** X21: the part of the model name made of the model path has at most 50
    characters and contains no ["/"], nor the path separator of the system
    unless that is the underscore; it is the end of the path with its
    separators replaced, and the whole of it when that has at most 50
    characters.  The model name is longer than the given name by at most 52
    characters. *)
Theorem model_name_is_path_safe (os_path_sep : ascii) (name : option str)
  (model_path_input : str) :
  let replaced :=
    replace os_path_sep (lit "__") (replace "/" (lit "__") model_path_input) in
  let safe := model_path_safe os_path_sep model_path_input in
  let given := match name with Some n => n | None => lit "Chronos" end in
  Py.len safe = Z.min (Py.len replaced) 50 /\
  Forall (fun c => c <> "/"%char) safe /\
  (os_path_sep <> "_"%char -> Forall (fun c => c <> os_path_sep) safe) /\
  (exists cut, replaced = cut ++ safe) /\
  (Py.len replaced <= 50 -> safe = replaced) /\
  Py.len (model_name os_path_sep name model_path_input)
  = Py.len given + Py.len safe + 2.
Proof.
  intros replaced safe given.
  assert (Hsafe : safe
                  = skipn (Z.to_nat (Py.len replaced
                                     - Z.min (Py.len replaced) 50)) replaced)
    by (subst safe; unfold model_path_safe; fold replaced;
        exact (@slice_last _ replaced 50 eq_refl)).
  pose proof (len_nonneg replaced) as HL.
  split; [|split; [|split; [|split; [|split]]]].
  - rewrite Hsafe. unfold Py.len in *. rewrite length_skipn. lia.
  - rewrite Hsafe. apply Forall_skipn_keeps. subst replaced.
    apply replace_keeps; [repeat constructor; discriminate|].
    apply replace_removes. repeat constructor; discriminate.
  - intros Hsep. rewrite Hsafe. apply Forall_skipn_keeps. subst replaced.
    apply replace_removes. repeat constructor; congruence.
  - exists (firstn (Z.to_nat (Py.len replaced - Z.min (Py.len replaced) 50))
              replaced).
    rewrite Hsafe. now rewrite firstn_skipn.
  - intros Hshort. rewrite Hsafe.
    now replace (Z.to_nat _) with 0%nat by lia.
  - change (Py.len (given ++ lit "[" ++ safe ++ lit "]")
            = Py.len given + Py.len safe + 2).
    rewrite !len_app.
    replace (Py.len (lit "[")) with 1 by reflexivity.
    replace (Py.len (lit "]")) with 1 by reflexivity. lia.
Qed.

Example model_name_default :
  model_name "/" None default_model_path
  = lit "Chronos[autogluon__chronos-t5-small]".
Proof. reflexivity. Qed.

End ModelName.

(** ** [ChronosModel._get_model_params]: defaults and precedence *)

Section ModelParams.

Import Ascii String ChronosModelPaths ChronosModelParams.

Lemma str_eqb_refl (a : str) : str_eqb a a = true.
Proof.
  induction a as [|x a IH]; [reflexivity|].
  simpl. now rewrite Ascii.eqb_refl, IH.
Qed.

Lemma str_eqb_neq (a b : str) : a <> b -> str_eqb a b = false.
Proof.
  intros Hne. destruct (str_eqb a b) eqn:E; [|reflexivity].
  apply str_eqb_eq in E. contradiction.
Qed.

Lemma dict_get_set_same (d : dict) (key : str) (v : pyval) :
  dict_get (dict_set d key v) key = Some v.
Proof.
  induction d as [|[k w] d IH]; simpl.
  - now rewrite str_eqb_refl.
  - destruct (str_eqb k key) eqn:E; simpl; rewrite E; [reflexivity | exact IH].
Qed.

Lemma dict_get_set_other (d : dict) (key key' : str) (v : pyval) :
  key <> key' ->
  dict_get (dict_set d key v) key' = dict_get d key'.
Proof.
  intros Hne. induction d as [|[k w] d IH]; simpl.
  - now rewrite str_eqb_neq.
  - destruct (str_eqb k key) eqn:E; simpl.
    + apply str_eqb_eq in E. subst k. now rewrite (str_eqb_neq Hne).
    + now rewrite IH.
Qed.

Lemma dict_get_set (d : dict) (key key' : str) (v : pyval) :
  dict_get (dict_set d key v) key'
  = if str_eqb key key' then Some v else dict_get d key'.
Proof.
  destruct (str_eqb key key') eqn:E.
  - apply str_eqb_eq in E. subst key'. apply dict_get_set_same.
  - apply dict_get_set_other. intros ->. now rewrite str_eqb_refl in E.
Qed.

Lemma dict_get_setdefault (d : dict) (key key' : str) (v : pyval) :
  dict_get (setdefault d key v) key'
  = match dict_get d key' with
    | Some w => Some w
    | None => if str_eqb key key' then Some v else None
    end.
Proof.
  unfold setdefault. destruct (dict_get d key) as [w|] eqn:Hkey.
  - destruct (dict_get d key') as [w'|] eqn:Hkey'; [reflexivity|].
    destruct (str_eqb key key') eqn:E; [|reflexivity].
    apply str_eqb_eq in E. subst key'. congruence.
  - rewrite dict_get_set. destruct (str_eqb key key') eqn:E.
    + apply str_eqb_eq in E. subst key'. now rewrite Hkey.
    + now destruct (dict_get d key').
Qed.

(** Merging a dictionary in: its entries win, the others stay. *)
Lemma dict_get_update (o : dict) :
  forall (d : dict) (key : str),
    NoDup (map fst o) ->
    dict_get (fold_left (fun acc kv => dict_set acc (fst kv) (snd kv)) o d) key
    = match dict_get o key with
      | Some v => Some v
      | None => dict_get d key
      end.
Proof.
  induction o as [|[k v] o IH]; intros d key Hnd; [reflexivity|].
  inversion Hnd as [|? ? Hnotin Hnd']; subst. simpl.
  rewrite IH by assumption. destruct (str_eqb k key) eqn:E.
  - apply str_eqb_eq in E. subst key.
    destruct (dict_get o k) as [w|] eqn:Hk.
    + apply dict_get_in in Hk. exfalso. apply Hnotin.
      now apply (in_map fst) in Hk.
    + apply dict_get_set_same.
  - destruct (dict_get o key); [reflexivity|].
    apply dict_get_set_other. intros ->. now rewrite str_eqb_refl in E.
Qed.

Lemma dict_get_with_defaults (params : dict) (default_batch_size : Z)
  (key : str) :
  dict_get (with_defaults params default_batch_size) key
  = match dict_get params key with
    | Some v => Some v
    | None => dict_get (with_defaults [] default_batch_size) key
    end.
Proof.
  unfold with_defaults. rewrite !dict_get_setdefault.
  destruct (dict_get params key); reflexivity.
Qed.

(** X22: [_get_model_params] never replaces a hyperparameter that is
    given, and gives eight hyperparameters a default: each key has the
    given value if there is one, and otherwise [fine_tune] and
    [keep_transformers_logs] are [False], [fine_tune_lr] is [1e-4],
    [fine_tune_steps] is 5000, [fine_tune_batch_size] is the default batch
    size of the model, [eval_during_fine_tune] is [False],
    [fine_tune_eval_max_items] is 100, [fine_tune_shuffle_buffer_size] is
    10000, and any other key is absent. *)
Theorem with_defaults_keeps_given (params : dict) (default_batch_size : Z)
  (key : str) :
  dict_get (with_defaults params default_batch_size) key
  = match dict_get params key with
    | Some v => Some v
    | None =>
        dict_get
          [(lit "fine_tune", VBool false);
           (lit "keep_transformers_logs", VBool false);
           (lit "fine_tune_lr", VFloat (1 # 10000));
           (lit "fine_tune_steps", VInt 5000);
           (lit "fine_tune_batch_size", VInt default_batch_size);
           (lit "eval_during_fine_tune", VBool false);
           (lit "fine_tune_eval_max_items", VInt 100);
           (lit "fine_tune_shuffle_buffer_size", VInt 10000)] key
    end.
Proof. rewrite dict_get_with_defaults. reflexivity. Qed.

Lemma getitem_with_defaults (params : dict) (default_batch_size : Z)
  (key : str) (default : pyval) :
  dict_get (with_defaults [] default_batch_size) key = Some default ->
  getitem (with_defaults params default_batch_size) key
  = inr (get params key default).
Proof.
  intros Hd. unfold getitem, get. rewrite dict_get_with_defaults.
  destruct (dict_get params key); [reflexivity | now rewrite Hd].
Qed.

Lemma computed_trainer_kwargs_ok (params : dict) (default_batch_size : Z)
  (output_dir : str) (workers : pyval) (has_tf32 : bool) :
  exists computed,
    computed_trainer_kwargs (with_defaults params default_batch_size)
      output_dir workers has_tf32 = inr computed /\
    dict_get computed (lit "max_steps")
    = Some (get params (lit "fine_tune_steps") (VInt 5000)) /\
    dict_get computed (lit "save_strategy")
    = Some (VStr (if truthy (get params (lit "eval_during_fine_tune")
                               (VBool false))
                  then lit "steps" else lit "no")) /\
    dict_get computed (lit "save_steps")
    = Some (if truthy (get params (lit "eval_during_fine_tune")
                         (VBool false))
            then VInt 100 else VNone).
Proof.
  unfold computed_trainer_kwargs.
  rewrite (@getitem_with_defaults params default_batch_size
             (lit "eval_during_fine_tune") (VBool false) eq_refl).
  rewrite (@getitem_with_defaults params default_batch_size
             (lit "fine_tune_batch_size") (VInt default_batch_size) eq_refl).
  rewrite (@getitem_with_defaults params default_batch_size
             (lit "fine_tune_lr") (VFloat (1 # 10000)) eq_refl).
  rewrite (@getitem_with_defaults params default_batch_size
             (lit "fine_tune_steps") (VInt 5000) eq_refl).
  cbv beta iota delta [bind_sum].
  eexists. split; [reflexivity|]. repeat split.
Qed.

Lemma get_model_params_merged (params user : dict)
  (default_batch_size : Z) (output_dir : str) (workers : pyval)
  (has_tf32 : bool) :
  get params (lit "fine_tune_trainer_kwargs") (VDict []) = VDict user ->
  NoDup (map fst user) ->
  exists computed merged init_args,
    computed_trainer_kwargs (with_defaults params default_batch_size)
      output_dir workers has_tf32 = inr computed /\
    _get_model_params params default_batch_size output_dir workers has_tf32
    = inr init_args /\
    dict_get init_args (lit "fine_tune_trainer_kwargs") = Some (VDict merged) /\
    (forall key,
       dict_get merged key
       = match dict_get user key with
         | Some v => Some v
         | None => dict_get computed key
         end) /\
    (forall key,
       key <> lit "fine_tune_trainer_kwargs" ->
       dict_get init_args key
       = dict_get (with_defaults params default_batch_size) key).
Proof.
  intros Huser Hnd.
  destruct (computed_trainer_kwargs_ok params default_batch_size output_dir
              workers has_tf32) as (computed & Hc & _).
  unfold _get_model_params. rewrite Hc. cbv beta iota delta [bind_sum].
  assert (Hget : get (with_defaults params default_batch_size)
                   (lit "fine_tune_trainer_kwargs") (VDict []) = VDict user).
  { unfold get in *. rewrite dict_get_with_defaults.
    destruct (dict_get params (lit "fine_tune_trainer_kwargs"));
      [exact Huser | exact Huser]. }
  rewrite Hget. unfold update.
  eexists computed, _, _. split; [reflexivity|]. split; [reflexivity|].
  split; [apply dict_get_set_same|]. split.
  - intros key. now apply dict_get_update.
  - intros key Hne. apply dict_get_set_other. congruence.
Qed.

(** X23: when the given [fine_tune_trainer_kwargs] is absent or a
    dictionary, [_get_model_params] returns without an exception; in the
    trainer arguments it stores, every argument given by the user has the
    user's value, and every other argument has the computed one; the other
    hyperparameters are as after the defaults. *)
Theorem get_model_params_user_kwargs_win (params user : dict)
  (default_batch_size : Z) (output_dir : str) (workers : pyval)
  (has_tf32 : bool) :
  get params (lit "fine_tune_trainer_kwargs") (VDict []) = VDict user ->
  NoDup (map fst user) ->
  exists computed merged init_args,
    computed_trainer_kwargs (with_defaults params default_batch_size)
      output_dir workers has_tf32 = inr computed /\
    _get_model_params params default_batch_size output_dir workers has_tf32
    = inr init_args /\
    dict_get init_args (lit "fine_tune_trainer_kwargs") = Some (VDict merged) /\
    (forall key,
       dict_get merged key
       = match dict_get user key with
         | Some v => Some v
         | None => dict_get computed key
         end) /\
    (forall key,
       key <> lit "fine_tune_trainer_kwargs" ->
       dict_get init_args key
       = dict_get (with_defaults params default_batch_size) key).
Proof. apply get_model_params_merged. Qed.

(** A value that is not a dictionary cannot be merged in. *)
Lemma get_model_params_bad_kwargs (params : dict) (default_batch_size z : Z)
  (output_dir : str) (workers : pyval) (has_tf32 : bool) :
  dict_get params (lit "fine_tune_trainer_kwargs") = Some (VInt z) ->
  _get_model_params params default_batch_size output_dir workers has_tf32
  = inl TypeError.
Proof.
  intros Hbad.
  destruct (computed_trainer_kwargs_ok params default_batch_size output_dir
              workers has_tf32) as (computed & Hc & _).
  unfold _get_model_params. rewrite Hc. cbv beta iota delta [bind_sum].
  unfold get. rewrite dict_get_with_defaults, Hbad. reflexivity.
Qed.



(** An output directory that is not a string is refused before the
    evaluation is looked at. *)
Lemma fit_output_dir_not_a_path (fine_tune_args kwargs : dict) (e v : pyval)
  (val_data_given : bool) (verbosity : Z) :
  dict_get fine_tune_args (lit "fine_tune_trainer_kwargs")
  = Some (VDict kwargs) ->
  dict_get fine_tune_args (lit "eval_during_fine_tune") = Some e ->
  dict_get kwargs (lit "output_dir") = Some v ->
  (forall s, v <> VStr s) ->
  _fit_trainer_kwargs fine_tune_args val_data_given verbosity = inl TypeError.
Proof.
  intros Hkw He Hout Hnot. unfold _fit_trainer_kwargs, getitem.
  rewrite Hkw, He.
  assert (Hdir : dict_get
                   (dict_set kwargs (lit "disable_tqdm")
                      (get kwargs (lit "disable_tqdm")
                         (VBool (verbosity <? 3))))
                   (lit "output_dir") = Some v)
    by (rewrite dict_get_set_other; [exact Hout | discriminate]).
  destruct val_data_given; cbv beta iota delta [bind_sum];
    rewrite Hdir; cbv beta iota delta [bind_sum];
    (destruct v as [| | | |s|]; try reflexivity;
     now contradiction (Hnot s)).
Qed.



End ModelParams.

Section ModelParamsExamples.

Import Ascii String ChronosModelPaths ChronosModelParams.

Lemma get_model_params_user_kwargs_win_witness :
  let params :=
    [(lit "fine_tune_steps", VInt 200);
     (lit "fine_tune_trainer_kwargs",
      VDict [(lit "max_steps", VInt 7); (lit "seed", VInt 1)])] in
  exists init_args merged,
    _get_model_params params 16 (lit "m/transformers_logs") (VInt 0) false
    = inr init_args /\
    dict_get init_args (lit "fine_tune_trainer_kwargs") = Some (VDict merged) /\
    dict_get merged (lit "max_steps") = Some (VInt 7) /\
    dict_get merged (lit "seed") = Some (VInt 1) /\
    dict_get merged (lit "logging_steps") = Some (VInt 100).
Proof.
  intros params.
  destruct (@get_model_params_user_kwargs_win params
              [(lit "max_steps", VInt 7); (lit "seed", VInt 1)] 16
              (lit "m/transformers_logs") (VInt 0) false eq_refl)
    as (computed & merged & init_args & Hc & Hargs & Hkw & Hmerged & _).
  { repeat constructor; simpl; intuition discriminate. }
  exists init_args, merged. split; [exact Hargs|]. split; [exact Hkw|].
  rewrite !Hmerged. injection Hc as <-. repeat split.
Defined.



End ModelParamsExamples.

(** ** From the context length to the inference dataset *)

Section PredictPipeline.

Variable A : Type.
Variable nan : A.
Variable float32 : A -> A.

(** X26: every window that [__getitem__] returns, for whatever index and
    whatever the offsets hold, has exactly [context_length] values, so that
    the windows of a batch can always be stacked. *)
Theorem getitem_window_length (target_df : list (list A)) (W : Z)
  (self : ChronosInferenceDataset.t A) (idx : Z) (out : list A) :
  ChronosInferenceDataset.__init__ float32 target_df W = Ok self ->
  ChronosInferenceDataset.__getitem__ nan self idx = Ok out ->
  Py.len out = W.
Proof.
  intros Hinit Hget.
  destruct (init_indptr_len _ _ _ Hinit) as (_ & HW & _).
  assert (HWeq : ChronosInferenceDataset.context_length self = W)
    by (destruct (init_fields _ _ _ Hinit) as [_ ->]; reflexivity).
  unfold ChronosInferenceDataset.__getitem__ in Hget.
  destruct (Py.getitem (ChronosInferenceDataset.indptr self) idx)
    as [s|e]; [|discriminate].
  destruct (Py.getitem (ChronosInferenceDataset.indptr self) (idx + 1))
    as [e|e']; [|discriminate].
  simpl in Hget. injection Hget as <-. rewrite <- HWeq.
  exact (proj1 (get_context_last_window nan self _ HW)).
Qed.

(** X27: when no context length is configured and the data hold at least
    one series, none of them empty, the context length that
    [_get_context_length] infers lies between 1 and 2048 and the inference
    dataset is constructed with it; a configured context length that is
    negative is passed through unchanged, and the construction of the
    dataset fails on its assertion. *)
Theorem inferred_context_length_constructs (target_df : list (list A))
  (negative : Z) :
  target_df <> [] ->
  Forall (fun s => s <> []) target_df ->
  negative < 0 ->
  let lengths := ChronosInferenceDataset.num_timesteps_per_item target_df in
  (exists c self,
     ChronosModel._get_context_length (fst (ChronosModel.__init__ None))
       lengths = Some c /\
     1 <= c <= 2048 /\
     ChronosInferenceDataset.__init__ float32 target_df c = Ok self /\
     ChronosInferenceDataset.context_length self = c) /\
  ChronosModel._get_context_length
    (fst (ChronosModel.__init__ (Some negative))) lengths = Some negative /\
  ChronosInferenceDataset.__init__ float32 target_df negative
  = Raise AssertionError.
Proof.
  intros Hne Hall Hneg lengths. split; [|split].
  - destruct target_df as [|s rest]; [congruence|].
    pose proof (fold_left_max_longest (map (@Py.len A) rest) (Py.len s))
      as [Hin Hmax].
    set (m := fold_left Z.max (map (@Py.len A) rest) (Py.len s)) in *.
    assert (Hm : 1 <= m).
    { specialize (Hmax (Py.len s) (or_introl eq_refl)).
      inversion Hall as [|? ? Hs _]; subst.
      destruct s; [congruence|]. unfold Py.len in *. simpl in *. lia. }
    exists (if 2048 <? m then 2048 else m).
    assert (Hc : 1 <= (if 2048 <? m then 2048 else m) <= 2048)
      by (destruct (2048 <? m) eqn:E; lia).
    unfold ChronosInferenceDataset.__init__.
    destruct ((if 2048 <? m then 2048 else m) >? 0) eqn:E; [|lia].
    eexists. split; [reflexivity|]. split; [exact Hc|]. now split.
  - unfold ChronosModel.__init__, ChronosModel._get_context_length,
      ChronosModel.maximum_context_length.
    destruct (negative >? 2048) eqn:E; [lia|]. simpl.
    destruct (negative =? 0) eqn:E0; [lia | reflexivity].
  - unfold ChronosInferenceDataset.__init__.
    destruct (negative >? 0) eqn:E; [lia | reflexivity].
Qed.

End PredictPipeline.

Lemma getitem_window_length_witness :
  exists self out,
    ChronosInferenceDataset.__init__ (fun x => x) [[1; 2; 3]; [4; 5]] 4
      = Ok self /\
    ChronosInferenceDataset.__getitem__ 0 self (-2) = Ok out /\
    Py.len out = 4.
Proof.
  eexists _, _. split; [reflexivity|]. split; [reflexivity|].
  exact (@getitem_window_length Z 0 (fun x => x) [[1; 2; 3]; [4; 5]] 4 _ (-2) _
           eq_refl eq_refl).
Defined.

Lemma inferred_context_length_constructs_witness :
  ChronosInferenceDataset.__init__ (fun x => x) [[1; 2; 3]; [4; 5]] (-5)
  = Raise AssertionError.
Proof.
  refine (proj2 (proj2 (@inferred_context_length_constructs Z
                          (fun x => x) [[1; 2; 3]; [4; 5]] (-5) _ _ _))).
  - discriminate.
  - repeat constructor; discriminate.
  - reflexivity.
Defined.
